(** * ocf_datapipes: a shallow embedding of the statistics tables, the GFS
      loader, the capacity selection stage and the national pipelines.

    Conventions used throughout:
    - Python dictionaries whose iteration order is observable (the
      statistics literals, turned into arrays by [_to_data_array]) are
      association lists in insertion order; [NWPStatDict], which is only
      ever indexed, is a [gmap].
    - A floating point literal is the exact rational it denotes; the
      rounding to a double of the literal and to [float32] of an array are
      written out where the code stores a value ([_to_data_array]).
    - Timestamps and durations are whole minutes in [Z].
    - A raised exception is the left injection of a sum. *)

From Stdlib Require Import ZArith QArith Qabs List Lia Bool Ascii.
From stdpp Require Import gmap strings.
Import ListNotations.

Open Scope string_scope.

(** ** Exceptions *)

(** The exceptions the modelled code can raise or let through.  The
    constructor names follow the Python classes ([TypeError] and
    [ValueError] without their message); [SourceUnavailable] and
    [ConfigurationError] are the classes named by the design document. *)
Inductive exn : Type :=
  | KeyError (arg : string)
  | IndexError (arg : string)
  | UnboundLocalError (name : string)
  | TypeError
  | ValueError
  | BackendError (cls : string) (msg : string)
  | SourceUnavailable (msg : string)
  | ConfigurationError (msg : string).

Definition result (A : Type) : Type := exn + A.

Definition Ok {A} (a : A) : result A := inr a.
Definition Raise {A} (e : exn) : result A := inl e.

#[global] Instance result_ret : MRet result := fun A a => inr a.

#[global] Instance result_bind : MBind result := fun A B k r =>
  match r with
  | inl e => inl e
  | inr a => k a
  end.

(** ** utils/consts/data_vars.py *)

Module data_vars.

(** A Python float or a [float32] that is not NaN: a finite number or an
    infinity. *)
Inductive float : Type :=
  | Finite (q : Q)
  | Infinity (negative : bool).

(** The nearest integer, ties to the even one. *)
Definition round_half_even (q : Q) : Z :=
  let n := Qnum q in
  let d := Zpos (Qden q) in
  let f := (n / d)%Z in
  match (2 * (n mod d) ?= d)%Z with
  | Lt => f
  | Gt => (f + 1)%Z
  | Eq => if Z.even f then f else (f + 1)%Z
  end.

(** [2^e] *)
Definition pow2 (e : Z) : Q :=
  if (0 <=? e)%Z then inject_Z (2 ^ e) else 1 # Z.to_pos (2 ^ (- e)).

(** The binade of a positive rational: the [e] with [2^e <= q < 2^(e+1)]. *)
Definition binade (q : Q) : Z :=
  let e := (Z.log2 (Qnum q) - Z.log2 (Zpos (Qden q)))%Z in
  if Qle_bool (pow2 e) q then e else (e - 1)%Z.

(** Rounding to a binary floating point format, to nearest and ties to
    even: [prec] significant bits, the last of them worth [2^emin] at
    least (gradual underflow), and an infinity for what rounds to [2^emax]
    or more. *)
Definition round_binary (prec emin emax : Z) (q : Q) : float :=
  if Qeq_bool q 0 then Finite 0
  else
    let a := Qabs q in
    let e := Z.max (binade a - (prec - 1)) emin in
    let v := (inject_Z (round_half_even (a / pow2 e)) * pow2 e)%Q in
    if Qle_bool (pow2 emax) v then Infinity (Qle_bool q 0)
    else Finite (Qred (if Qle_bool q 0 then - v else v)).

(** A literal read as a Python float (a double), and [astype(np.float32)]
    of a double. *)
Definition float64 (q : Q) : float := round_binary 53 (-1074) 1024 q.

Definition float32 (q : Q) : float := round_binary 24 (-149) 128 q.

Definition astype_float32 (x : float) : float :=
  match x with
  | Finite q => float32 q
  | Infinity negative => Infinity negative
  end.

(** A one-dimensional labelled array of [float32]: the [channel]
    coordinate and the values, position by position. *)
Record StatArray : Type := mkStatArray {
  channel : list string;
  values : list float
}.

(** [_to_data_array]: values and keys in the dictionary's own order, the
    values cast to [float32].  The dictionary is given by its literals. *)
Definition _to_data_array (d : list (string * Q)) : StatArray :=
  {| channel := map fst d;
     values := map (fun kv => astype_float32 (float64 (snd kv))) d |}.

(** [arr.sel(channel=c)] on a statistics array. *)
Fixpoint sel_assoc (ks : list string) (vs : list float) (c : string)
  : option float :=
  match ks, vs with
  | k :: ks', v :: vs' => if String.eqb k c then Some v else sel_assoc ks' vs' c
  | _, _ => None
  end.

Definition sel (a : StatArray) (c : string) : option float :=
  sel_assoc (channel a) (values a) c.

Definition NWP_PROVIDERS : list string :=
  ["ukv"; "gfs"; "icon-eu"; "icon-global"; "ecmwf"].

Definition not_yet_available (key : string) : string :=
  "Values for " ++ key ++ " not yet available in ocf-datapipes".

(** [NWPStatDict.__getitem__].  The inner [None] is [dict.__getitem__]
    raising on a key that [self.keys()] just reported. *)
Definition NWPStatDict_getitem {V} (self : gmap string V) (key : string)
  : result V :=
  if bool_decide (key ∈ dom self) then
    match self !! key with
    | Some v => Ok v
    | None => Raise (KeyError key)
    end
  else if bool_decide (key ∈ NWP_PROVIDERS) then
    Raise (KeyError (not_yet_available key))
  else
    Raise (KeyError key).

(** NWPStatDict(k1=v1, k2=v2): keyword construction. *)
Definition NWPStatDict_of {V} (kw : list (string * V)) : gmap string V :=
  list_to_map kw.

(** *** UKV *)

Definition UKV_STD_dict : list (string * Q) := [
  ("cdcb", 2126.99350113%Q);
  ("lcc", 39.33210726%Q);
  ("mcc", 41.91144559%Q);
  ("hcc", 38.07184418%Q);
  ("sde", 0.1029753%Q);
  ("hcct", 18382.63958991%Q);
  ("dswrf", 190.47216887%Q);
  ("dlwrf", 39.45988077%Q);
  ("h", 1075.77812282%Q);
  ("t", 4.38818501%Q);
  ("r", 11.45012499%Q);
  ("dpt", 4.57250482%Q);
  ("vis", 21578.97975625%Q);
  ("si10", 3.94718813%Q);
  ("wdir10", 94.08407495%Q);
  ("prmsl", 1252.71790539%Q);
  ("prate", 0.00021497%Q)
].

Definition UKV_MEAN_dict : list (string * Q) := [
  ("cdcb", 1412.26599062%Q);
  ("lcc", 50.08362643%Q);
  ("mcc", 40.88984494%Q);
  ("hcc", 29.11949682%Q);
  ("sde", 0.00289545%Q);
  ("hcct", (-18345.97478167)%Q);
  ("dswrf", 111.28265039%Q);
  ("dlwrf", 325.03130139%Q);
  ("h", 2096.51991356%Q);
  ("t", 283.64913206%Q);
  ("r", 81.79229501%Q);
  ("dpt", 280.54379901%Q);
  ("vis", 32262.03285118%Q);
  ("si10", 6.88348448%Q);
  ("wdir10", 199.41891636%Q);
  ("prmsl", 101321.61574029%Q);
  ("prate", 3.45793433e-05%Q)
].

Definition UKV_VARIABLE_NAMES : list string := map fst UKV_MEAN_dict.
Definition UKV_STD : StatArray := _to_data_array UKV_STD_dict.
Definition UKV_MEAN : StatArray := _to_data_array UKV_MEAN_dict.

(** *** GFS *)

Definition GFS_STD_dict : list (string * Q) := [
  ("t", 5.017000766747606%Q);
  ("dswrf", 233.1834250473355%Q);
  ("prate", 0.00021690701537950742%Q);
  ("dlwrf", 46.571%Q);
  ("u", 4.165%Q);
  ("v", 4.123%Q)
].

Definition GFS_MEAN_dict : list (string * Q) := [
  ("t", 285.7799539185846%Q);
  ("dswrf", 294.6696933986283%Q);
  ("prate", 3.6078121378638696e-05%Q);
  ("dlwrf", 319%Q);
  ("u", 0.552%Q);
  ("v", (-0.477)%Q)
].

Definition GFS_VARIABLE_NAMES : list string := map fst GFS_MEAN_dict.
Definition GFS_STD : StatArray := _to_data_array GFS_STD_dict.
Definition GFS_MEAN : StatArray := _to_data_array GFS_MEAN_dict.

(** *** All NWPs *)

Definition NWP_VARIABLE_NAMES : gmap string (list string) :=
  NWPStatDict_of [("ukv", UKV_VARIABLE_NAMES); ("gfs", GFS_VARIABLE_NAMES)].

Definition NWP_STDS : gmap string StatArray :=
  NWPStatDict_of [("ukv", UKV_STD); ("gfs", GFS_STD)].

Definition NWP_MEANS : gmap string StatArray :=
  NWPStatDict_of [("ukv", UKV_MEAN); ("gfs", GFS_MEAN)].

End data_vars.

(** ** Lazy iterators (torchdata's IterDataPipe) *)

Module datapipe.

(** An [IterDataPipe] is what [__iter__] gives: a generator, that is a
    state and a step that either yields an element and moves on or stops.
    A generator may run for ever. *)
Record IterDataPipe (A : Type) : Type := mkPipe {
  gen_state : Type;
  gen_start : gen_state;
  gen_next : gen_state → option (A * gen_state)
}.

Arguments mkPipe {A} _ _ _.
Arguments gen_state {A} _.
Arguments gen_start {A} _.
Arguments gen_next {A} _ _.

(** The first [n] elements a generator yields from state [s]. *)
Fixpoint take_from {A} (p : IterDataPipe A) (n : nat) (s : gen_state p)
  : list A :=
  match n with
  | O => []
  | S n' =>
      match gen_next p s with
      | None => []
      | Some (x, s') => x :: take_from p n' s'
      end
  end.

Definition take {A} (n : nat) (p : IterDataPipe A) : list A :=
  take_from p n (gen_start p).

(** A finite stream as a datapipe. *)
Definition of_list {A} (l : list A) : IterDataPipe A :=
  mkPipe (list A) l
    (fun s => match s with [] => None | x :: s' => Some (x, s') end).

(** A stream that repeats one element for ever. *)
Definition forever {A} (x : A) : IterDataPipe A :=
  mkPipe unit tt (fun s => Some (x, s)).

End datapipe.

(** ** select/select_pv_systems_on_capacity.py *)

Module select_pv_systems_on_capacity.
Import datapipe.

(** [Union[int, float]] with [np.inf] as a possible value. *)
Inductive watts : Type :=
  | Watts (w : Q)
  | Inf.

(** The object [__init__] builds.  The third attribute carries the
    source's spelling. *)
Record SelectPVSystemsOnCapacityIterDataPipe (A : Type) : Type := mkSelect {
  source_datapipe : IterDataPipe A;
  min_capacity_watts : watts;
  max_capaciity_watts : watts
}.

Arguments mkSelect {A} _ _ _.
Arguments source_datapipe {A} _.
Arguments min_capacity_watts {A} _.
Arguments max_capaciity_watts {A} _.

Definition __init__ {A} (source : IterDataPipe A)
    (min_capacity_watts max_capacity_watts : watts)
  : SelectPVSystemsOnCapacityIterDataPipe A :=
  mkSelect source min_capacity_watts max_capacity_watts.

(** [__iter__]: the generator's state is the iterator over the source; a
    step pulls one element from it and yields that element. *)
Definition __iter__ {A} (self : SelectPVSystemsOnCapacityIterDataPipe A)
  : IterDataPipe A :=
  let src := source_datapipe self in
  mkPipe (gen_state src) (gen_start src)
    (fun s =>
       match gen_next src s with
       | None => None
       | Some (xr_data, s') => Some (xr_data, s')
       end).

End select_pv_systems_on_capacity.

(** ** load/nwp/gfs.py *)

Module gfs.

(** A float: a number or NaN. *)
Inductive fval : Type :=
  | NaN
  | Num (q : Q).

(** Linear interpolation between two samples [(x0, y0)] and [(x1, y1)];
    NaN is contagious. *)
Definition lerp (x0 : Z) (y0 : fval) (x1 : Z) (y1 : fval) (x : Z) : fval :=
  match y0, y1 with
  | Num a, Num b =>
      Num (Qred (a + (b - a) * (inject_Z (x - x0) / inject_Z (x1 - x0))))
  | _, _ => NaN
  end.

(** One labelled axis: coordinate labels (whole minutes) with the entry
    stored at each, in storage order. *)
Definition series (A : Type) : Type := list (Z * A).

(** The (issuance time, step) plane of one variable at one grid cell: every
    operation of [open_gfs] acts alike on each latitude and longitude. *)
Definition Grid : Type := series (series fval).

(** [Union[Path, str]]: the argument is a string or a [pathlib.Path]. *)
Inductive PathOrStr : Type :=
  | Str (s : string)
  | Path (s : string).

(** [xr.Dataset]: the dimensions of its data variables (in a forecast
    store every data variable spans them all), the names of the coordinates
    that are not the index of a dimension, and the data variables by name.
    Coordinates are told apart from data variables by their names.
    [xr.DataArray] with a [channel] dimension: one plane per channel
    label, in coordinate order. *)
Record Dataset : Type := mkDataset {
  dims : list string;
  coords : list string;
  variables : list (string * Grid)
}.

Definition DataArray : Type := list (string * Grid).

Fixpoint lookup_variable (vars : list (string * Grid)) (name : string)
  : result Grid :=
  match vars with
  | [] => Raise (KeyError name)
  | (k, g) :: vars' =>
      if String.eqb k name then Ok g else lookup_variable vars' name
  end.

(** [ds[name]] *)
Definition getitem (ds : Dataset) (name : string) : result Grid :=
  lookup_variable (variables ds) name.

Definition has_name (name : string) (names : list string) : bool :=
  existsb (String.eqb name) names.

(** The names and dimensions of an array, on which lines 58 to 61 act. *)
Record Names : Type := mkNames {
  array_dims : list string;
  array_coords : list string
}.

(** [arr.transpose] in the order [order], which has to list the dimensions of the
    array, each once. *)
Definition transpose (order : list string) (a : Names) : result Names :=
  if Nat.eqb (length order) (length (array_dims a))
     && forallb (fun d => has_name d (array_dims a)) order
  then Ok (mkNames order (array_coords a))
  else Raise ValueError.

Definition renamed (old new name : string) : string :=
  if String.eqb name old then new else name.

(** [arr.rename({old: new})]: [old] has to be a dimension or a coordinate
    and [new] must not be one already. *)
Definition rename (old new : string) (a : Names) : result Names :=
  if negb (has_name old (array_dims a ++ array_coords a)) then
    Raise ValueError
  else if has_name new (array_dims a ++ array_coords a) then
    Raise ValueError
  else Ok (mkNames (map (renamed old new) (array_dims a))
             (map (renamed old new) (array_coords a))).

(** [arr.drop(name)]: [name] has to be a coordinate of the array. *)
Definition drop (name : string) (a : Names) : result Names :=
  if has_name name (array_coords a) then
    Ok (mkNames (array_dims a)
          (List.filter (fun c => negb (String.eqb c name)) (array_coords a)))
  else Raise ValueError.

(** ["*" in zarr_path] *)
Fixpoint contains_star (s : string) : bool :=
  match s with
  | EmptyString => false
  | String c s' => if Ascii.eqb c "*"%char then true else contains_star s'
  end.

(** [xr.concat(arrays, "channel")] followed by
    [assign_coords(channel=names)]: the planes by channel label, and the
    new dimension in front of the others. *)
Definition concat_channel (arrays : list Grid) (names : list string)
  : DataArray :=
  combine names arrays.

Definition concat_channel_names (ds : Dataset) : Names :=
  mkNames ("channel" :: dims ds) (coords ds).

Definition labels {A} (s : series A) : list Z := map fst s.

(** The sample with the greatest label not above [x], and the one with the
    least label not below [x]. *)
Fixpoint below (pts : series fval) (x : Z) (best : option (Z * fval))
  : option (Z * fval) :=
  match pts with
  | [] => best
  | (k, v) :: rest =>
      if (k <=? x)%Z then
        match best with
        | Some (kb, _) =>
            if (kb <? k)%Z then below rest x (Some (k, v)) else below rest x best
        | None => below rest x (Some (k, v))
        end
      else below rest x best
  end.

Fixpoint above (pts : series fval) (x : Z) (best : option (Z * fval))
  : option (Z * fval) :=
  match pts with
  | [] => best
  | (k, v) :: rest =>
      if (x <=? k)%Z then
        match best with
        | Some (kb, _) =>
            if (k <? kb)%Z then above rest x (Some (k, v)) else above rest x best
        | None => above rest x (Some (k, v))
        end
      else above rest x best
  end.

(** One-dimensional linear interpolation as [DataArray.interp] does it by
    default: between the two neighbouring samples, the sample itself at a
    node, and NaN outside the range of the samples (no extrapolation). *)
Definition interp1d (pts : series fval) (x : Z) : fval :=
  match below pts x None, above pts x None with
  | Some (x0, y0), Some (x1, y1) =>
      if (x0 =? x1)%Z then y0 else lerp x0 y0 x1 y1 x
  | _, _ => NaN
  end.

(** [arr.interp(step=new_steps)] on one plane. *)
Definition interp_step (g : Grid) (new_steps : list Z) : Grid :=
  map (fun '(t, row) => (t, map (fun s => (s, interp1d row s)) new_steps)) g.

(** [xr.concat([a, b], dim="step")] on planes that share their issuance
    times: row by row, the steps of [a] and then those of [b]. *)
Fixpoint concat_step (a b : Grid) : Grid :=
  match a, b with
  | (t, ra) :: a', (_, rb) :: b' => (t, (ra ++ rb)%list) :: concat_step a' b'
  | _, _ => []
  end.

(** Forward lookup of [reindex(method="pad")] over an index in increasing
    order: walk the index while its labels do not exceed the target and keep
    the last entry passed. *)
Fixpoint pad_lookup {A} (src : series A) (target : Z) (last : option A)
  : option A :=
  match src with
  | [] => last
  | (k, v) :: rest =>
      if (k <=? target)%Z then pad_lookup rest target (Some v) else last
  end.

Definition minimum (l : list Z) : option Z :=
  match l with
  | [] => None
  | x :: l' => Some (fold_left Z.min l' x)
  end.

Definition maximum (l : list Z) : option Z :=
  match l with
  | [] => None
  | x :: l' => Some (fold_left Z.max l' x)
  end.

(** [lo, lo + freq, ...] up to [hi] included. *)
Definition range_by (freq lo hi : Z) : list Z :=
  map (fun i => (lo + freq * Z.of_nat i)%Z)
      (seq 0 (Z.to_nat ((hi - lo) / freq + 1))).

(** The bin labels of [resample("60T")]: on a datetime index they start at
    the hour that holds the first label, on a timedelta index at the first
    label itself; both run hourly up to the last label. *)
Definition hourly_datetime_index (ls : list Z) : list Z :=
  match minimum ls, maximum ls with
  | Some lo, Some hi => range_by 60 (60 * (lo / 60)) hi
  | _, _ => []
  end.

Definition hourly_timedelta_index (ls : list Z) : list Z :=
  match minimum ls, maximum ls with
  | Some lo, Some hi => range_by 60 lo hi
  | _, _ => []
  end.

(** The step coordinate of a plane (shared by its rows). *)
Definition step_coord (g : Grid) : list Z :=
  match g with
  | [] => []
  | (_, row) :: _ => labels row
  end.

(** An index in strictly increasing order: monotonic, as resampling
    asks, and without duplicate labels, as reindexing asks. *)
Fixpoint increasing (l : list Z) : bool :=
  match l with
  | [] => true
  | x :: l' =>
      match l' with
      | [] => true
      | y :: _ => (x <? y)%Z && increasing l'
      end
  end.

(** The values of [arr.resample(init_time_utc="60T").pad()]: at every
    hourly label the row of the last issuance not after it, and NaN before
    the first issuance. *)
Definition pad_init (g : Grid) : Grid :=
  map (fun t =>
         (t, match pad_lookup g t None with
             | Some row => row
             | None => map (fun s => (s, NaN)) (step_coord g)
             end))
      (hourly_datetime_index (labels g)).

(** The values of [arr.resample(step="60T").pad()]. *)
Definition pad_step (g : Grid) : Grid :=
  let index := hourly_timedelta_index (step_coord g) in
  map (fun '(t, row) =>
         (t, map (fun s =>
                    (s, match pad_lookup row s None with
                        | Some v => v
                        | None => NaN
                        end))
                 index))
      g.

(** [arr.resample(init_time_utc="60T").pad()]: [ValueError] unless the
    issuance times are in strictly increasing order. *)
Definition resample_pad_init (g : Grid) : result Grid :=
  if increasing (labels g) then Ok (pad_init g) else Raise ValueError.

(** [arr.resample(step="60T").pad()]: [ValueError] unless the lead times
    are in strictly increasing order. *)
Definition resample_pad_step (g : Grid) : result Grid :=
  if increasing (step_coord g) then Ok (pad_step g) else Raise ValueError.

(** No label occurs twice. *)
Fixpoint unique (l : list Z) : bool :=
  match l with
  | [] => true
  | x :: l' => negb (existsb (Z.eqb x) l') && unique l'
  end.

(** The same operation on the plane of every channel. *)
Definition on_channels (f : Grid → Grid) (a : DataArray) : DataArray :=
  map (fun '(c, g) => (c, f g)) a.

Fixpoint for_channels (f : Grid → result Grid) (a : DataArray)
  : result DataArray :=
  match a with
  | [] => Ok []
  | (c, g) :: a' =>
      g' ← f g;
      a'' ← for_channels f a';
      mret ((c, g') :: a'')
  end.

Definition gfs_channels : list string := ["dlwrf"; "t"; "u"; "v"; "prate"].

Section open_gfs.

(** The two ways into the array library's storage backend. *)
Variable open_mfdataset : string → result Dataset.
Variable load_dataset : string → result Dataset.

(** The exception of the index library when a nearest lookup meets an
    index with duplicate labels. *)
Variable duplicate_labels : exn.

(** [arr.interp(step=new_steps)]: the lead times are sorted and then looked
    up, which asks for labels without duplicates. *)
Definition interp (g : Grid) (new_steps : list Z) : result Grid :=
  if unique (step_coord g) then Ok (interp_step g new_steps)
  else Raise duplicate_labels.

(** Lines 63 to 68 on one plane. *)
Definition hourly (g : Grid) : result Grid :=
  nwp_step0 ← interp g [0%Z];
  let g := concat_step nwp_step0 g in
  g ← resample_pad_init g;
  resample_pad_step g.

(** Lines 50 to 61: open the store and stack the five variables.  The
    test ["*" in zarr_path] raises [TypeError] on a [Path]. *)
Definition open_native (zarr_path : PathOrStr) : result DataArray :=
  nwp ← match zarr_path with
         | Path _ => Raise TypeError
         | Str s =>
             if contains_star s then open_mfdataset s else load_dataset s
         end;
  dlwrf ← getitem nwp "dlwrf";
  t ← getitem nwp "t";
  u ← getitem nwp "u";
  v ← getitem nwp "v";
  prate ← getitem nwp "prate";
  let stacked := concat_channel [dlwrf; t; u; v; prate] gfs_channels in
  let names := concat_channel_names nwp in
  names ← transpose ["time"; "step"; "channel"; "latitude"; "longitude"]
            names;
  names ← rename "time" "init_time_utc" names;
  names ← transpose
            ["init_time_utc"; "step"; "channel"; "latitude"; "longitude"]
            names;
  _ ← drop "valid_time" names;
  mret stacked.

Definition open_gfs (zarr_path : PathOrStr) : result DataArray :=
  nwp ← open_native zarr_path;
  for_channels hourly nwp.

End open_gfs.

(** [OpenGFSForecastIterDataPipe.__iter__] is a generator: nothing runs
    until the first element is asked for; then [open_gfs] is called, and
    the generator is suspended at the [yield] of the loop, where every
    later request finds it.  The call is an action on a world [W], so that
    what it does there (reading the store) can be told apart from its
    result. *)
Section OpenGFSForecastIterDataPipe.

Variable W : Type.

(** [open_gfs(self.zarr_path)], in a world. *)
Variable open_gfs_call : PathOrStr → W → result DataArray * W.

Inductive Generator : Type :=
  | Created
  | Suspended (gfs : DataArray)
  | Closed.

(** [next(it)]: the element or the exception, and the generator after.  A
    closed generator raises [StopIteration], which is [None] here. *)
Definition next (zarr_path : PathOrStr) (it : Generator) (w : W)
  : option (result DataArray) * Generator * W :=
  match it with
  | Created =>
      match open_gfs_call zarr_path w with
      | (inr gfs, w') => (Some (Ok gfs), Suspended gfs, w')
      | (inl e, w') => (Some (Raise e), Closed, w')
      end
  | Suspended gfs => (Some (Ok gfs), Suspended gfs, w)
  | Closed => (None, Closed, w)
  end.

(** The outcomes of [n] successive [next(it)]. *)
Fixpoint nexts (zarr_path : PathOrStr) (n : nat) (it : Generator) (w : W)
  : list (option (result DataArray)) * Generator * W :=
  match n with
  | O => ([], it, w)
  | S n' =>
      let '(x, it', w') := next zarr_path it w in
      let '(xs, it'', w'') := nexts zarr_path n' it' w' in
      (x :: xs, it'', w'')
  end.

End OpenGFSForecastIterDataPipe.

(** [arr.sel(channel=c, init_time_utc=t, step=s)] *)
Fixpoint assoc {K A} (eqb : K → K → bool) (l : list (K * A)) (k : K)
  : option A :=
  match l with
  | [] => None
  | (k', a) :: l' => if eqb k' k then Some a else assoc eqb l' k
  end.

Definition value_at (a : DataArray) (c : string) (t s : Z) : option fval :=
  g ← assoc String.eqb a c;
  row ← assoc Z.eqb g t;
  assoc Z.eqb row s.

End gfs.

(** ** config/model.py, as the pipelines read it *)

Module config.

(** The attributes of [Configuration] that the pipelines under study read.
    Durations are minutes. *)
Record GSP : Type := mkGSP {
  gsp_zarr_path : string;
  gsp_history_minutes : Z;
  gsp_forecast_minutes : Z;
  live_interpolate_minutes : Z;
  live_load_extra_minutes : Z
}.

Record NWP : Type := mkNWP {
  nwp_zarr_path : string;
  nwp_history_minutes : Z;
  nwp_forecast_minutes : Z
}.

Record Satellite : Type := mkSatellite {
  satellite_zarr_path : string;
  satellite_history_minutes : Z
}.

Record HRVSatellite : Type := mkHRVSatellite {
  hrvsatellite_zarr_path : string;
  hrvsatellite_history_minutes : Z
}.

Record PVFiles : Type := mkPVFiles {
  pv_filename : string;
  pv_metadata_filename : string
}.

Record PV : Type := mkPV {
  pv_files_groups : list PVFiles;
  pv_history_minutes : Z
}.

Record InputData : Type := mkInputData {
  gsp : GSP;
  nwp : NWP;
  satellite : Satellite;
  hrvsatellite : HRVSatellite;
  pv : PV
}.

Record Process : Type := mkProcess {
  n_train_batches : Z;
  n_validation_batches : Z
}.

Record Configuration : Type := mkConfiguration {
  input_data : InputData;
  process : Process
}.

(** Modelled from the spec: the configuration loader
    ([ocf_datapipes.config.load], [OpenConfiguration]) and the validation of
    a configuration are not under src/.  The design document gives every
    source a cadence descriptor (sample period, history, forecast) and has
    the loader reject, with a [ConfigurationError], a negative duration or a
    history or forecast that is not a whole number of sample periods. *)
Record Cadence : Type := mkCadence {
  sample_period : Z;
  history_duration : Z;
  forecast_duration : Z
}.

(** Modelled from the spec: what makes a cadence descriptor invalid, "a
    negative duration or a history/forecast duration that is not a whole
    multiple of the sample period". *)
Definition negative_duration (c : Cadence) : bool :=
  (sample_period c <? 0)%Z || (history_duration c <? 0)%Z
  || (forecast_duration c <? 0)%Z.

Definition whole_multiple (d period : Z) : bool :=
  if (period =? 0)%Z then (d =? 0)%Z else (d mod period =? 0)%Z.

Definition non_multiple_duration (c : Cadence) : bool :=
  negb (whole_multiple (history_duration c) (sample_period c))
  || negb (whole_multiple (forecast_duration c) (sample_period c)).

Definition invalid_cadence (c : Cadence) : bool :=
  negative_duration c || non_multiple_duration c.

Section loader.

(** The parsed configuration files by name, and the cadence descriptors a
    configuration carries. *)
Variable files : string → option Configuration.
Variable descriptors : Configuration → list Cadence.

(** Modelled from the spec: [load_yaml_configuration], which is also what
    iterating [OpenConfiguration] runs; neither is under src/.  It reads the
    file and validates every cadence descriptor before it returns. *)
Definition load_yaml_configuration (filename : string)
  : result Configuration :=
  match files filename with
  | None => Raise (BackendError "FileNotFoundError" filename)
  | Some configuration =>
      if existsb invalid_cadence (descriptors configuration)
      then Raise (ConfigurationError "invalid cadence descriptor")
      else Ok configuration
  end.

End loader.

End config.

(** ** The datapipe graph a pipeline function builds *)

Module graph.

(** A datapipe object is known by the order of its creation. *)
Definition ref : Type := nat.

(** How a [Normalize] stage is told to normalise. *)
Inductive stat : Type :=
  | NWP_MEAN | NWP_STD
  | SAT_MEAN_DA | SAT_STD_DA
  | SAT_MEAN_HRV | SAT_STD_HRV.

Inductive normalizer : Type :=
  | by_capacity                       (* normalize_fn=lambda x: x / x.capacity_megawatt_power *)
  | by_mean_std (mean std : stat).    (* mean=..., std=... *)

(** One constructor per datapipe class, with the arguments the pipeline
    functions pass; an upstream datapipe is a [ref].  [fork(n)] makes one
    [Forker] that holds the source and [n] [ForkChild]ren reading from it. *)
Inductive Stage : Type :=
  | OpenConfiguration (configuration_filename : string)
  | OpenGSP (gsp_pv_power_zarr_path : string)
  | OpenGSPFromDatabase (history_minutes interpolate_minutes
                         load_extra_minutes : Z) (national_only : bool)
  | OpenNWP (zarr_path : string)
  | OpenSatellite (zarr_path : string)
  | OpenPVFromNetCDF (pv_power_filename pv_metadata_filename : string)
  | DropGSP (src : ref) (gsps_to_keep : list Z)
  | Forker (src : ref) (num_instances : nat)
  | ForkChild (forker : ref) (instance : nat)
  | LocationPicker (src : ref)
  | Normalize (src : ref) (how : normalizer)
  | AddT0IdxAndSamplePeriodDuration (src : ref)
      (sample_period_duration history_duration : Z)
  | GetContiguousTimePeriods (src : ref)
      (sample_period_duration history_duration forecast_duration : Z)
      (time_dim : option string)
  | SelectOverlappingTimeSlice (src : ref) (secondary_datapipes : list ref)
  | SelectTimePeriods (src : ref) (time_periods : ref)
  | SelectT0Time (src : ref)
  | SelectTimeSlice (src : ref) (t0_datapipe : ref)
      (history_duration forecast_duration sample_period_duration : Z)
  | ConvertToNWPTargetTime (src : ref) (t0_datapipe : ref)
      (sample_period_duration history_duration forecast_duration : Z)
  | CreatePVImage (src : ref) (image_datapipe : ref) (normalize : bool)
      (max_num_pv_systems : Z)
  | PreProcessMetNet (modalities : list ref) (location_datapipe : ref)
      (center_width center_height context_height context_width
       output_width_pixels output_height_pixels : Z) (add_sun_features : bool)
  | Header (src : ref) (limit : Z)
  | Zip (src : ref) (other : ref).

(** The interpreter state while a pipeline function runs: the datapipe
    objects made so far, and the datapipes an element was pulled from with
    [next(iter(...))]. *)
Record World : Type := mkWorld {
  nodes : list Stage;
  pulled : list ref
}.

Definition empty : World := mkWorld [] [].

Definition Build (A : Type) : Type := World → result A * World.

#[global] Instance Build_ret : MRet Build := fun A a w => (Ok a, w).

#[global] Instance Build_bind : MBind Build := fun A B k m w =>
  match m w with
  | (inl e, w') => (inl e, w')
  | (inr a, w') => k a w'
  end.

Definition raise {A} (e : exn) : Build A := fun w => (Raise e, w).

Definition lift {A} (r : result A) : Build A := fun w => (r, w).

(** Calling a datapipe class: a new object. *)
Definition new (s : Stage) : Build ref := fun w =>
  (Ok (length (nodes w)), mkWorld (nodes w ++ [s])%list (pulled w)).

(** [next(iter(p))] *)
Definition pull (p : ref) : Build unit := fun w =>
  (Ok tt, mkWorld (nodes w) (pulled w ++ [p])%list).

(** Reading a local variable that is bound on some paths only. *)
Definition local (name : string) (v : option ref) : Build ref :=
  match v with
  | Some r => mret r
  | None => raise (UnboundLocalError name)
  end.

Definition fork2 (src : ref) : Build (ref * ref) :=
  f ← new (Forker src 2);
  a ← new (ForkChild f 0);
  b ← new (ForkChild f 1);
  mret (a, b).

Definition fork3 (src : ref) : Build (ref * ref * ref) :=
  f ← new (Forker src 3);
  a ← new (ForkChild f 0);
  b ← new (ForkChild f 1);
  c ← new (ForkChild f 2);
  mret (a, b, c).

Definition fork5 (src : ref) : Build (ref * ref * ref * ref * ref) :=
  f ← new (Forker src 5);
  a ← new (ForkChild f 0);
  b ← new (ForkChild f 1);
  c ← new (ForkChild f 2);
  d ← new (ForkChild f 3);
  e ← new (ForkChild f 4);
  mret (a, b, c, d, e).

(** *** Reading a graph *)

(** The datapipes a stage reads from, the one it iterates first. *)
Definition inputs (s : Stage) : list ref :=
  match s with
  | OpenConfiguration _ | OpenGSP _ | OpenGSPFromDatabase _ _ _ _
  | OpenNWP _ | OpenSatellite _ | OpenPVFromNetCDF _ _ => []
  | DropGSP src _ | Forker src _ | ForkChild src _ | LocationPicker src
  | Normalize src _ | AddT0IdxAndSamplePeriodDuration src _ _
  | GetContiguousTimePeriods src _ _ _ _ | SelectT0Time src
  | Header src _ => [src]
  | SelectOverlappingTimeSlice src secondary => src :: secondary
  | SelectTimePeriods src tp => [src; tp]
  | SelectTimeSlice src t0 _ _ _ | ConvertToNWPTargetTime src t0 _ _ _ =>
      [src; t0]
  | CreatePVImage src image _ _ => [src; image]
  | PreProcessMetNet modalities location _ _ _ _ _ _ _ =>
      (modalities ++ [location])%list
  | Zip src other => [src; other]
  end.

Fixpoint mem (i : ref) (l : list ref) : bool :=
  match l with
  | [] => false
  | j :: l' => Nat.eqb i j || mem i l'
  end.

Fixpoint union (a b : list ref) : list ref :=
  match a with
  | [] => b
  | i :: a' => if mem i b then union a' b else i :: union a' b
  end.

(** Every datapipe is made after the ones it reads from, so the datapipes
    upstream of each one are known once those upstream of its inputs are. *)
Definition upstream_table (g : list Stage) : list (list ref) :=
  fold_left
    (fun table s =>
       (table ++
        [fold_right (fun i acc => union (i :: nth i table []) acc)
                    [] (inputs s)])%list)
    g [].

Definition upstream (g : list Stage) (i : ref) : list ref :=
  nth i (upstream_table g) [].

(** The source a datapipe's elements come from: follow the first input up
    to a stage that has none. *)
Fixpoint origin (g : list Stage) (fuel : nat) (i : ref) : option Stage :=
  match fuel with
  | O => None
  | S fuel' =>
      match nth_error g i with
      | None => None
      | Some s =>
          match inputs s with
          | [] => Some s
          | j :: _ => origin g fuel' j
          end
      end
  end.

Definition origin_of (g : list Stage) (i : ref) : option Stage :=
  origin g (length g) i.

(** The six phases of the design document's data flow, in its order. *)
Inductive phase : Type :=
  | Opening | Periods | Intersection | Anchor | Slicing | Normalization.

Definition rank (p : phase) : nat :=
  match p with
  | Opening => 0
  | Periods => 1
  | Intersection => 2
  | Anchor => 3
  | Slicing => 4
  | Normalization => 5
  end.

(** The phase a stage belongs to; stages that only route, pick a location
    or annotate belong to none. *)
Definition phase_of (s : Stage) : option phase :=
  match s with
  | OpenGSP _ | OpenGSPFromDatabase _ _ _ _ | OpenNWP _ | OpenSatellite _
  | OpenPVFromNetCDF _ _ => Some Opening
  | GetContiguousTimePeriods _ _ _ _ _ => Some Periods
  | SelectOverlappingTimeSlice _ _ => Some Intersection
  | SelectT0Time _ => Some Anchor
  | SelectTimeSlice _ _ _ _ _ | ConvertToNWPTargetTime _ _ _ _ _ =>
      Some Slicing
  | Normalize _ _ | CreatePVImage _ _ _ _
  | PreProcessMetNet _ _ _ _ _ _ _ _ _ | Header _ _ | Zip _ _ =>
      Some Normalization
  | _ => None
  end.

(** The same, with the capacity normalisation of the GSP source counted as
    part of its loading. *)
Definition phase_by_design (s : Stage) : option phase :=
  match s with
  | Normalize _ by_capacity => Some Opening
  | _ => phase_of s
  end.

(** No stage has, upstream of it, a stage of a later phase. *)
Definition no_later_upstream (ph : Stage → option phase) (g : list Stage)
    (j : ref) : bool :=
  match nth_error g j with
  | None => true
  | Some sj =>
      match ph sj with
      | None => true
      | Some pj =>
          forallb
            (fun i =>
               match nth_error g i with
               | None => true
               | Some si =>
                   match ph si with
                   | None => true
                   | Some pi => Nat.leb (rank pi) (rank pj)
                   end
               end)
            (upstream g j)
      end
  end.

Definition in_order (ph : Stage → option phase) (g : list Stage) : bool :=
  forallb (no_later_upstream ph g) (seq 0 (length g)).

(** The anchor datapipe a slicing stage takes. *)
Definition anchor_input (s : Stage) : option ref :=
  match s with
  | SelectTimeSlice _ t0 _ _ _ | ConvertToNWPTargetTime _ t0 _ _ _ => Some t0
  | _ => None
  end.

Definition is_anchor_selector (s : Stage) : bool :=
  match s with
  | SelectT0Time _ => true
  | _ => false
  end.

End graph.

(** ** training/metnet_national.py *)

Module metnet_national.
Import config graph.

(** [path != ''] *)
Definition non_empty (path : string) : bool :=
  negb (String.eqb path EmptyString).

Section pipeline.

(** What iterating [OpenConfiguration(filename)] yields. *)
Variable load_configuration : string → result Configuration.

(** Lines 80 to 299, given the configuration and the four switches. *)
Definition build (configuration : Configuration)
    (use_nwp use_pv use_sat use_hrv : bool) (mode : string) : Build ref :=
  let input := input_data configuration in
  (* Load GSP national data *)
  gsp_datapipe ← new (OpenGSP (gsp_zarr_path (gsp input)));
  dropped ← new (DropGSP gsp_datapipe [0%Z]);
  '(gsp_datapipe, gsp_loc_datapipe) ← fork2 dropped;
  location_datapipe ← new (LocationPicker gsp_loc_datapipe);
  normalized ← new (Normalize gsp_datapipe by_capacity);
  with_t0 ← new (AddT0IdxAndSamplePeriodDuration normalized 30
                   (gsp_history_minutes (gsp input)));
  '(gsp_datapipe, gsp_time_periods_datapipe, gsp_t0_datapipe) ← fork3 with_t0;
  gsp_time_periods_datapipe ←
    new (GetContiguousTimePeriods gsp_time_periods_datapipe 30
           (gsp_history_minutes (gsp input))
           (gsp_forecast_minutes (gsp input)) None);
  let secondary_datapipes : list ref := [] in
  (* Load NWP data *)
  '(nwp_datapipe, secondary_datapipes) ←
    (if use_nwp then
       opened ← new (OpenNWP (nwp_zarr_path (nwp input)));
       with_t0 ← new (AddT0IdxAndSamplePeriodDuration opened 60
                        (nwp_history_minutes (nwp input)));
       '(nwp_datapipe, nwp_time_periods_datapipe) ← fork2 with_t0;
       nwp_time_periods_datapipe ←
         new (GetContiguousTimePeriods nwp_time_periods_datapipe 60
                (nwp_history_minutes (nwp input))
                (nwp_forecast_minutes (nwp input)) (Some "init_time_utc"));
       mret (Some nwp_datapipe,
             (secondary_datapipes ++ [nwp_time_periods_datapipe])%list)
     else mret (None, secondary_datapipes));
  '(sat_datapipe, secondary_datapipes) ←
    (if use_sat then
       opened ← new (OpenSatellite (satellite_zarr_path (satellite input)));
       with_t0 ← new (AddT0IdxAndSamplePeriodDuration opened 5
                        (satellite_history_minutes (satellite input)));
       '(sat_datapipe, sat_time_periods_datapipe) ← fork2 with_t0;
       sat_time_periods_datapipe ←
         new (GetContiguousTimePeriods sat_time_periods_datapipe 5
                (satellite_history_minutes (satellite input)) 1 None);
       mret (Some sat_datapipe,
             (secondary_datapipes ++ [sat_time_periods_datapipe])%list)
     else mret (None, secondary_datapipes));
  '(sat_hrv_datapipe, secondary_datapipes) ←
    (if use_hrv then
       opened ← new (OpenSatellite
                       (hrvsatellite_zarr_path (hrvsatellite input)));
       with_t0 ← new (AddT0IdxAndSamplePeriodDuration opened 5
                        (hrvsatellite_history_minutes (hrvsatellite input)));
       '(sat_hrv_datapipe, sat_hrv_time_periods_datapipe) ← fork2 with_t0;
       sat_hrv_time_periods_datapipe ←
         new (GetContiguousTimePeriods sat_hrv_time_periods_datapipe 5
                (hrvsatellite_history_minutes (hrvsatellite input)) 1 None);
       mret (Some sat_hrv_datapipe,
             (secondary_datapipes ++ [sat_hrv_time_periods_datapipe])%list)
     else mret (None, secondary_datapipes));
  '(pv_datapipe, secondary_datapipes) ←
    (if use_pv then
       group ← match pv_files_groups (pv input) with
               | [] => raise (IndexError "list index out of range")
               | group :: _ => mret group
               end;
       opened ← new (OpenPVFromNetCDF (pv_filename group)
                       (pv_metadata_filename group));
       '(pv_datapipe, pv_location_datapipe) ← fork2 opened;
       with_t0 ← new (AddT0IdxAndSamplePeriodDuration pv_datapipe 5
                        (pv_history_minutes (pv input)));
       '(pv_datapipe, pv_time_periods_datapipe) ← fork2 with_t0;
       pv_time_periods_datapipe ←
         new (GetContiguousTimePeriods pv_time_periods_datapipe 5
                (pv_history_minutes (pv input)) 1 None);
       mret (Some pv_datapipe,
             (secondary_datapipes ++ [pv_time_periods_datapipe])%list)
     else mret (None, secondary_datapipes));
  (* find joint overlapping time periods *)
  overlapping_datapipe ←
    new (SelectOverlappingTimeSlice gsp_time_periods_datapipe
           secondary_datapipes);
  '(gsp_time_periods, nwp_time_periods, sat_time_periods,
    sat_hrv_time_periods, pv_time_periods) ← fork5 overlapping_datapipe;
  (* select time periods *)
  gsp_t0_datapipe ← new (SelectTimePeriods gsp_t0_datapipe gsp_time_periods);
  (* select t0 periods *)
  selected ← new (SelectT0Time gsp_t0_datapipe);
  '(gsp_t0_datapipe, nwp_t0_datapipe, sat_t0_datapipe, sat_hrv_t0_datapipe,
    pv_t0_datapipe) ← fork5 selected;
  gsp_datapipe ←
    new (SelectTimeSlice gsp_datapipe gsp_t0_datapipe 0
           (gsp_forecast_minutes (gsp input)) 30);
  nwp_datapipe ←
    (if use_nwp then
       nwp_dp ← local "nwp_datapipe" nwp_datapipe;
       sliced ← new (ConvertToNWPTargetTime nwp_dp nwp_t0_datapipe 60
                       (nwp_history_minutes (nwp input))
                       (nwp_forecast_minutes (nwp input)));
       r ← new (Normalize sliced (by_mean_std NWP_MEAN NWP_STD));
       mret (Some r)
     else mret nwp_datapipe);
  sat_datapipe ←
    (if use_sat then
       sat_dp ← local "sat_datapipe" sat_datapipe;
       sliced ← new (SelectTimeSlice sat_dp sat_t0_datapipe
                       (satellite_history_minutes (satellite input)) 0 5);
       r ← new (Normalize sliced (by_mean_std SAT_MEAN_DA SAT_STD_DA));
       mret (Some r)
     else mret sat_datapipe);
  sat_hrv_datapipe ←
    (if use_hrv then
       hrv_dp ← local "sat_hrv_datapipe" sat_hrv_datapipe;
       sliced ← new (SelectTimeSlice hrv_dp sat_hrv_t0_datapipe
                       (hrvsatellite_history_minutes (hrvsatellite input))
                       0 5);
       r ← new (Normalize sliced (by_mean_std SAT_MEAN_HRV SAT_STD_HRV));
       mret (Some r)
     else mret sat_hrv_datapipe);
  '(nwp_datapipe, sat_datapipe, sat_hrv_datapipe, pv_datapipe) ←
    (if use_pv then
       '(nwp_datapipe, sat_datapipe, sat_hrv_datapipe, image_datapipe) ←
         (if use_sat then
            sat_dp ← local "sat_datapipe" sat_datapipe;
            '(sat_dp, image) ← fork2 sat_dp;
            mret (nwp_datapipe, Some sat_dp, sat_hrv_datapipe, Some image)
          else if use_hrv then
            hrv_dp ← local "sat_hrv_datapipe" sat_hrv_datapipe;
            '(hrv_dp, image) ← fork2 hrv_dp;
            mret (nwp_datapipe, sat_datapipe, Some hrv_dp, Some image)
          else if use_nwp then
            nwp_dp ← local "nwp_datapipe" nwp_datapipe;
            '(nwp_dp, image) ← fork2 nwp_dp;
            mret (Some nwp_dp, sat_datapipe, sat_hrv_datapipe, Some image)
          else mret (nwp_datapipe, sat_datapipe, sat_hrv_datapipe, None));
       pv_dp ← local "pv_datapipe" pv_datapipe;
       sliced ← new (SelectTimeSlice pv_dp pv_t0_datapipe
                       (pv_history_minutes (pv input)) 0 5);
       image ← local "image_datapipe" image_datapipe;
       r ← new (CreatePVImage sliced image true 100);
       mret (nwp_datapipe, sat_datapipe, sat_hrv_datapipe, Some r)
     else mret (nwp_datapipe, sat_datapipe, sat_hrv_datapipe, pv_datapipe));
  (* Now combine in the MetNet format *)
  let modalities : list ref := [] in
  modalities ←
    (if use_nwp then
       r ← local "nwp_datapipe" nwp_datapipe; mret (modalities ++ [r])%list
     else mret modalities);
  modalities ←
    (if use_hrv then
       r ← local "sat_hrv_datapipe" sat_hrv_datapipe;
       mret (modalities ++ [r])%list
     else mret modalities);
  modalities ←
    (if use_sat then
       r ← local "sat_datapipe" sat_datapipe; mret (modalities ++ [r])%list
     else mret modalities);
  modalities ←
    (if use_pv then
       r ← local "pv_datapipe" pv_datapipe; mret (modalities ++ [r])%list
     else mret modalities);
  combined_datapipe ←
    new (PreProcessMetNet modalities location_datapipe
           500000 1000000 10000000 10000000 256 256 true);
  combined_datapipe ←
    (if String.eqb mode "train" then
       new (Header combined_datapipe (n_train_batches (process configuration)))
     else if String.eqb mode "val" then
       new (Header combined_datapipe
              (n_validation_batches (process configuration)))
     else mret combined_datapipe);
  new (Zip combined_datapipe gsp_datapipe).

(** [pv_files_groups[0].pv_filename], read for the PV switch. *)
Definition first_pv_filename (configuration : Configuration)
  : result string :=
  match pv_files_groups (pv (input_data configuration)) with
  | [] => Raise (IndexError "list index out of range")
  | group :: _ => Ok (pv_filename group)
  end.

Definition metnet_national_datapipe (configuration_filename : string)
    (mode : string) : Build ref :=
  (* load configuration *)
  config_datapipe ← new (OpenConfiguration configuration_filename);
  _ ← pull config_datapipe;
  configuration ← lift (load_configuration configuration_filename);
  (* Check which modalities to use *)
  let input := input_data configuration in
  let use_nwp := non_empty (nwp_zarr_path (nwp input)) in
  pv_name ← lift (first_pv_filename configuration);
  let use_pv := non_empty pv_name in
  let use_sat := non_empty (satellite_zarr_path (satellite input)) in
  let use_hrv := non_empty (hrvsatellite_zarr_path (hrvsatellite input)) in
  build configuration use_nwp use_pv use_sat use_hrv mode.

End pipeline.

End metnet_national.

(** ** production/xgnational.py *)

Module xgnational.
Import config graph.

Section pipeline.

Variable load_yaml_configuration : string → result Configuration.

(** The returned dictionary: each key with the datapipe whose first
    element it holds. *)
Definition xgnational_production_datapipe (configuration_filename : string)
  : Build (list (string * ref)) :=
  configuration ← lift (load_yaml_configuration configuration_filename);
  let input := input_data configuration in
  nwp_datapipe ← new (OpenNWP (nwp_zarr_path (nwp input)));
  gsp_datapipe ←
    new (OpenGSPFromDatabase (gsp_history_minutes (gsp input))
           (live_interpolate_minutes (gsp input))
           (live_load_extra_minutes (gsp input)) true);
  _ ← pull nwp_datapipe;
  _ ← pull gsp_datapipe;
  mret [("nwp", nwp_datapipe); ("gsp", gsp_datapipe)].

End pipeline.

End xgnational.

(** ** Vocabulary for the properties of the GFS loader *)

Module gfs_fill.
Import gfs.

(** [k] is the label of [src] nearest to [target] from below, and [v] is
    the entry stored at it: the most recent prior sample. *)
Definition latest_prior {A} (src : series A) (target k : Z) (v : A) : Prop :=
  In (k, v) src ∧ (k <= target)%Z
  ∧ ∀ k' v', In (k', v') src → (k' <= target)%Z → (k' <= k)%Z.

(** A plane as a forecast store holds it: issuance times in increasing
    order and, at each, lead times in increasing order, all after the
    issuance itself. *)
Definition well_formed (g : Grid) : bool :=
  increasing (labels g)
  && forallb (fun '(_, row) =>
                increasing (labels row)
                && forallb (fun s => (0 <? s)%Z) (labels row)) g.

Definition planes_well_formed (a : DataArray) : bool :=
  forallb (fun '(_, g) => well_formed g) a.

(** The plane with its hour-0 column: every row gains, in front, the
    value interpolated at lead time 0. *)
Definition with_hour0 (g : Grid) : Grid :=
  map (fun '(t, row) => (t, (0%Z, interp1d row 0) :: row)) g.

(** What lines 63 to 68 make of a plane when they raise nothing. *)
Definition hourly_values (g : Grid) : Grid :=
  pad_step (pad_init (concat_step (interp_step g [0%Z]) g)).

(** The rows of a plane share their lead times, as the step coordinate of
    an array does. *)
Definition same_labels (a b : list Z) : bool := bool_decide (a = b).

Definition rectangular (g : Grid) : bool :=
  forallb (fun '(_, row) => same_labels (labels row) (step_coord g)) g.

Definition planes_rectangular (a : DataArray) : bool :=
  forallb (fun '(_, g) => rectangular g) a.

(** The points of the hourly grid over a plane: the whole hours from the
    hour of the first issuance to the last issuance, and the whole hours
    of lead time from 0 to the longest. *)
Definition grid_point (g : Grid) (t s : Z) : Prop :=
  ∃ first last longest,
    minimum (labels g) = Some first ∧ maximum (labels g) = Some last
    ∧ maximum (step_coord g) = Some longest
    ∧ (60 * (first / 60) <= t <= last)%Z ∧ (t mod 60 = 0)%Z
    ∧ (0 <= s <= longest)%Z ∧ (s mod 60 = 0)%Z.

(** [v] is the most recent prior sample of the plane at [(t, s)], on both
    axes; or NaN, where the plane has no sample before [s] at the last
    issuance before [t], or no issuance before [t]. *)
Definition prior_or_nan (g : Grid) (t s : Z) (v : fval) : Prop :=
  (∃ t0 row s0, latest_prior g t t0 row ∧ latest_prior row s s0 v)
  ∨ ((∃ t0 row, latest_prior g t t0 row
                ∧ ∀ s0 x, In (s0, x) row → (s < s0)%Z) ∧ v = NaN)
  ∨ ((∀ t0 row, In (t0, row) g → (t < t0)%Z) ∧ v = NaN).

(** The array [out] holds a value at every point of the hourly grid of
    every channel, and each of its values is the most recent prior sample
    of [native], or NaN where there is none. *)
Definition forward_filled (native out : DataArray) : Prop :=
  map fst out = map fst native
  ∧ ∀ c g,
      assoc String.eqb native c = Some g →
      (∀ t s, grid_point g t s → ∃ v, value_at out c t s = Some v)
      ∧ (∀ t s v, value_at out c t s = Some v → prior_or_nan g t s v).

End gfs_fill.

(** ** Sample inputs *)

Module samples.
Import gfs gfs_fill config.

(** A store holding one dataset: issuances at 00:00 and 06:00, lead times
    of three and six hours. *)
Definition plane (a b c d : Q) : Grid :=
  [(0%Z, [(180%Z, Num a); (360%Z, Num b)]);
   (360%Z, [(180%Z, Num c); (360%Z, Num d)])].

Definition dataset : Dataset :=
  mkDataset ["time"; "step"; "latitude"; "longitude"] ["valid_time"]
    [("t", plane 281 282 283 284);
     ("dswrf", plane 0 10 20 30);
     ("prate", plane 0 0 0 0);
     ("dlwrf", plane 310 311 312 313);
     ("u", plane 1 2 3 4);
     ("v", plane 5 6 7 8)].

Definition store (path : string) : result Dataset :=
  if String.eqb path "gfs.zarr" then Ok dataset
  else Raise (BackendError "FileNotFoundError" path).

Definition duplicate_labels : exn :=
  BackendError "InvalidIndexError" "duplicate labels".

(** The five stacked variables of [dataset], and what [open_gfs] makes of
    them. *)
Definition native : DataArray :=
  [("dlwrf", plane 310 311 312 313);
   ("t", plane 281 282 283 284);
   ("u", plane 1 2 3 4);
   ("v", plane 5 6 7 8);
   ("prate", plane 0 0 0 0)].

Definition opened : DataArray := on_channels hourly_values native.

(** A configuration with its four optional sources switched by their
    paths. *)
Definition configuration (nwp_path sat_path hrv_path pv_path : string)
    (gsp_history : Z) : Configuration :=
  mkConfiguration
    (mkInputData
       (mkGSP "gsp.zarr" gsp_history 480 30 60)
       (mkNWP nwp_path 60 120)
       (mkSatellite sat_path 30)
       (mkHRVSatellite hrv_path 30)
       (mkPV [mkPVFiles pv_path "metadata.csv"] 30))
    (mkProcess 100 10).

Definition always (c : Configuration) (filename : string)
  : result Configuration := Ok c.

Definition files (c : Configuration) (filename : string)
  : option Configuration :=
  if String.eqb filename "config.yaml" then Some c else None.

(** The cadence descriptors of a configuration, with the sample periods
    the national pipeline works at. *)
Definition descriptors (c : Configuration) : list Cadence :=
  let i := input_data c in
  [mkCadence 30 (gsp_history_minutes (gsp i)) (gsp_forecast_minutes (gsp i));
   mkCadence 60 (nwp_history_minutes (nwp i)) (nwp_forecast_minutes (nwp i))].

(** A configuration with all four optional sources, and the state the
    national pipeline function leaves behind on it. *)
Definition full_configuration : Configuration :=
  configuration "nwp.zarr" "sat.zarr" "hrv.zarr" "pv.nc" 120.

Definition national_run : result graph.ref * graph.World :=
  metnet_national.metnet_national_datapipe (always full_configuration)
    "config.yaml" "train" graph.empty.

(** A configuration whose GSP history is negative. *)
Definition negative_history : Configuration :=
  configuration "nwp.zarr" EmptyString EmptyString EmptyString (-30).

End samples.

(** ** Vocabulary for the properties of the national pipeline *)

Module national.
Import config graph metnet_national.

(** The datapipes of a graph whose stage satisfies [P], in creation
    order. *)
Definition positions (P : Stage → bool) (g : list Stage) : list ref :=
  List.filter (fun i => match nth_error g i with
                        | Some s => P s
                        | None => false
                        end)
              (seq 0 (length g)).

Definition stage_at (g : list Stage) (i : ref) : option Stage :=
  nth_error g i.

(** The optional sources a configuration switches on, in the order the
    pipeline function visits them. *)
Definition optional_sources (c : Configuration) : list Stage :=
  let i := input_data c in
  ((if non_empty (nwp_zarr_path (nwp i))
    then [OpenNWP (nwp_zarr_path (nwp i))] else [])
   ++ (if non_empty (satellite_zarr_path (satellite i))
       then [OpenSatellite (satellite_zarr_path (satellite i))] else [])
   ++ (if non_empty (hrvsatellite_zarr_path (hrvsatellite i))
       then [OpenSatellite (hrvsatellite_zarr_path (hrvsatellite i))]
       else [])
   ++ match pv_files_groups (pv i) with
      | group :: _ =>
          if non_empty (pv_filename group)
          then [OpenPVFromNetCDF (pv_filename group)
                  (pv_metadata_filename group)]
          else []
      | [] => []
      end)%list.

(** The joint-period intersections of a graph: the primary period stream
    and the secondary ones of each. *)
Definition intersections (g : list Stage) : list (ref * list ref) :=
  flat_map (fun s => match s with
                     | SelectOverlappingTimeSlice p secondary =>
                         [(p, secondary)]
                     | _ => []
                     end) g.

(** The source whose contiguous time periods datapipe [i] computes. *)
Definition periods_of (g : list Stage) (i : ref) : option Stage :=
  match nth_error g i with
  | Some (GetContiguousTimePeriods _ _ _ _ _) => origin_of g i
  | _ => None
  end.

Definition is_slicing (s : Stage) : bool :=
  match anchor_input s with
  | Some _ => true
  | None => false
  end.

(** The fork, the datapipe it forks and the number of the child of that
    fork that the anchor input of a slicing stage is. *)
Definition anchor_fork (g : list Stage) (i : ref)
  : option (ref * ref * nat) :=
  match nth_error g i with
  | Some s =>
      match anchor_input s with
      | Some t0 =>
          match nth_error g t0 with
          | Some (ForkChild f k) =>
              match nth_error g f with
              | Some (Forker a _) => Some (f, a, k)
              | _ => None
              end
          | _ => None
          end
      | None => None
      end
  | None => None
  end.

(** The children of the anchor fork by the names they are bound to at lines
    202 to 208: [gsp_t0_datapipe, nwp_t0_datapipe, sat_t0_datapipe,
    sat_hrv_t0_datapipe, pv_t0_datapipe], of which a configuration uses the
    first and those of its active sources. *)
Definition anchor_children (c : Configuration) : list nat :=
  let i := input_data c in
  (0
   :: (if non_empty (nwp_zarr_path (nwp i)) then [1] else [])
   ++ (if non_empty (satellite_zarr_path (satellite i)) then [2] else [])
   ++ (if non_empty (hrvsatellite_zarr_path (hrvsatellite i))
       then [3] else [])
   ++ match pv_files_groups (pv i) with
      | group :: _ => if non_empty (pv_filename group) then [4] else []
      | [] => []
      end)%list.

(** The datapipes that read datapipe [i]. *)
Definition readers (g : list Stage) (i : ref) : list ref :=
  positions (fun s => mem i (inputs s)) g.

(** The children of the fork that datapipe [f] is, by number, each with
    its readers. *)
Definition fork_children (g : list Stage) (f : ref)
  : list (nat * list ref) :=
  flat_map (fun i => match nth_error g i with
                     | Some (ForkChild f' k) =>
                         if Nat.eqb f' f then [(k, readers g i)] else []
                     | _ => []
                     end)
           (seq 0 (length g)).

Definition is_capacity_normalizer (s : Stage) : bool :=
  match s with
  | Normalize _ by_capacity => true
  | _ => false
  end.

(** A normalisation by statistics, or the normalising PV image stage,
    reads straight from a slicing stage. *)
Definition normalizes_a_slice (g : list Stage) (s : Stage) : bool :=
  match s with
  | Normalize src (by_mean_std _ _) | CreatePVImage src _ _ _ =>
      match nth_error g src with
      | Some s' => is_slicing s'
      | None => false
      end
  | _ => true
  end.

Definition is_periods_or_slicing (s : Stage) : bool :=
  match phase_of s with
  | Some Periods | Some Slicing => true
  | _ => false
  end.

Definition from_gsp (g : list Stage) (i : ref) : bool :=
  match origin_of g i with
  | Some (OpenGSP _) => true
  | _ => false
  end.

(** Datapipe [n] lies upstream of the period and slicing stages of the
    GSP source. *)
Definition before_gsp_periods_and_slice (g : list Stage) (n : ref) : bool :=
  forallb (fun j => mem n (upstream g j))
          (List.filter (from_gsp g) (positions is_periods_or_slicing g)).

(** The state in which lines 80 to 299 start. *)
Definition configured (configuration_filename : string) : World :=
  mkWorld [OpenConfiguration configuration_filename] [0].

Definition has_data_source (s : Stage) : bool :=
  match phase_of s with
  | Some Opening => true
  | _ => false
  end.

Definition is_periods (s : Stage) : bool :=
  match s with
  | GetContiguousTimePeriods _ _ _ _ _ => true
  | _ => false
  end.

Definition is_intersection (s : Stage) : bool :=
  match s with
  | SelectOverlappingTimeSlice _ _ => true
  | _ => false
  end.

(** A normalisation by statistics, or the normalising PV image stage. *)
Definition is_late_normalizer (s : Stage) : bool :=
  match s with
  | Normalize _ (by_mean_std _ _) | CreatePVImage _ _ _ _ => true
  | _ => false
  end.

Definition is_batcher (s : Stage) : bool :=
  match s with
  | PreProcessMetNet _ _ _ _ _ _ _ _ _ => true
  | _ => false
  end.

(** A data source lies upstream of datapipe [i]. *)
Definition opened_upstream (g : list Stage) (i : ref) : bool :=
  existsb (fun j => match nth_error g j with
                    | Some s => has_data_source s
                    | None => false
                    end)
          (upstream g i).

(** Datapipe [a] lies upstream of the anchor input of the slicing stage
    [i]. *)
Definition anchored_by (g : list Stage) (a i : ref) : bool :=
  match nth_error g i with
  | Some s =>
      match anchor_input s with
      | Some t0 => mem a (upstream g t0)
      | None => false
      end
  | None => false
  end.

(** The datapipes an intersection stage reads: the primary stream and the
    secondary ones. *)
Definition intersected (g : list Stage) (x : ref) : list ref :=
  match nth_error g x with
  | Some (SelectOverlappingTimeSlice p secondary) => p :: secondary
  | _ => []
  end.

(** The data flow from the period computations on: every period stream has
    a data source upstream and is read by the intersection [x]; [x] lies
    upstream of the anchor selection [a]; [a] lies upstream of the anchor
    input of every slicing stage, of which there is one per period stream;
    every normalisation by statistics lies upstream of the batcher [b]; and
    the slicing stages and the batcher lie upstream of the result [out]. *)
Definition flows_in_order (g : list Stage) (x a b out : ref) : bool :=
  forallb (opened_upstream g) (positions is_periods g)
  && bool_decide (intersected g x = positions is_periods g)
  && mem x (upstream g a)
  && forallb (anchored_by g a) (positions is_slicing g)
  && Nat.eqb (length (positions is_slicing g))
       (length (positions is_periods g))
  && forallb (fun i => mem i (upstream g b))
       (positions is_late_normalizer g)
  && forallb (fun i => mem i (upstream g out)) (positions is_slicing g)
  && mem b (upstream g out).

End national.

(** ** utils/consts/data_vars.py: the remaining tables *)

Module tables.
Import data_vars.

(** [d[k]] on a dictionary literal; [None] is the [KeyError]. *)
Fixpoint dict_get (d : list (string * Q)) (k : string) : option Q :=
  match d with
  | [] => None
  | (k', v) :: d' => if String.eqb k' k then Some v else dict_get d' k
  end.

Definition keys (d : list (string * Q)) : list string := map fst d.

Definition UKV_MIN : list (string * Q) := [
  ("cdcb", 5.0%Q);
  ("lcc", 0.0%Q);
  ("mcc", 0.0%Q);
  ("hcc", 0.0%Q);
  ("sde", 0.0%Q);
  ("hcct", (-32766.0)%Q);
  ("dswrf", 0.0%Q);
  ("dlwrf", 131.8%Q);
  ("h", 0.0%Q);
  ("t", 227.15%Q);
  ("r", 7.84%Q);
  ("dpt", 227.15%Q);
  ("vis", 6.0%Q);
  ("si10", 0.05%Q);
  ("wdir10", 0.0%Q);
  ("prmsl", 94160.0%Q);
  ("prate", 0.0%Q)
].

Definition UKV_MAX : list (string * Q) := [
  ("cdcb", 20632.0%Q);
  ("lcc", 100.0%Q);
  ("mcc", 100.0%Q);
  ("hcc", 100.05%Q);
  ("sde", 10.0%Q);
  ("hcct", 11579.0%Q);
  ("dswrf", 1018.4%Q);
  ("dlwrf", 492.4%Q);
  ("h", 5241.0%Q);
  ("t", 315.8%Q);
  ("r", 100.05%Q);
  ("dpt", 302.535%Q);
  ("vis", 99794.0%Q);
  ("si10", 46.15%Q);
  ("wdir10", 360.0%Q);
  ("prmsl", 105440.0%Q);
  ("prate", 0.055556%Q)
].

Definition RSS_STD_dict : list (string * Q) := [
  ("HRV", 0.11405209%Q);
  ("IR_016", 0.21462157%Q);
  ("IR_039", 0.04618041%Q);
  ("IR_087", 0.06687243%Q);
  ("IR_097", 0.0468558%Q);
  ("IR_108", 0.17482725%Q);
  ("IR_120", 0.06115861%Q);
  ("IR_134", 0.04492306%Q);
  ("VIS006", 0.12184761%Q);
  ("VIS008", 0.13090034%Q);
  ("WV_062", 0.16111417%Q);
  ("WV_073", 0.12924142%Q)
].

Definition RSS_MEAN_dict : list (string * Q) := [
  ("HRV", 0.09298719%Q);
  ("IR_016", 0.17594202%Q);
  ("IR_039", 0.86167645%Q);
  ("IR_087", 0.7719318%Q);
  ("IR_097", 0.8014212%Q);
  ("IR_108", 0.71254843%Q);
  ("IR_120", 0.89058584%Q);
  ("IR_134", 0.944365%Q);
  ("VIS006", 0.09633306%Q);
  ("VIS008", 0.11426069%Q);
  ("WV_062", 0.7359355%Q);
  ("WV_073", 0.62479186%Q)
].

Definition RSS_VARIABLE_NAMES : list string := map fst RSS_MEAN_dict.
Definition RSS_STD : StatArray := _to_data_array RSS_STD_dict.
Definition RSS_MEAN : StatArray := _to_data_array RSS_MEAN_dict.

(** Every variable of [means] has a minimum, a maximum and a standard
    deviation, the mean lies between the first two and the last is
    positive. *)
Definition within_bounds (mins means maxs stds : list (string * Q)) : bool :=
  forallb (fun '(k, mean) =>
             match dict_get mins k, dict_get maxs k, dict_get stds k with
             | Some lo, Some hi, Some std =>
                 Qle_bool lo mean && Qle_bool mean hi
                 && negb (Qle_bool std 0)
             | _, _, _ => false
             end) means.

End tables.

(** ** More vocabulary for the GFS loader *)

Module gfs_grid.
Import gfs gfs_fill.

(** The dataset has a data variable of that name. *)
Definition has_variable (ds : Dataset) (name : string) : bool :=
  existsb (fun k => String.eqb k name) (map fst (variables ds)).

Definition whole_hour (t : Z) : bool := (t mod 60 =? 0)%Z.

(** The row the issuance axis holds at [t] once it is resampled, and the
    row the lead-time axis makes of a row over the grid [index]. *)
Definition init_row (g : Grid) (t : Z) : series fval :=
  match pad_lookup (with_hour0 g) t None with
  | Some row => row
  | None => map (fun s => (s, NaN)) (step_coord (with_hour0 g))
  end.

Definition step_row (index : list Z) (row : series fval) : series fval :=
  map (fun s => (s, match pad_lookup row s None with
                    | Some v => v
                    | None => NaN
                    end)) index.

End gfs_grid.

(** ** More vocabulary for the national pipeline *)

Module national_more.
Import config graph metnet_national national.

(** The exception a loaded configuration makes the pipeline function
    raise, if any: no PV file group to index, or PV switched on with no
    image source beside it. *)
Definition expected_error (loaded : result Configuration) : option exn :=
  match loaded with
  | inl e => Some e
  | inr c =>
      let i := input_data c in
      match pv_files_groups (pv i) with
      | [] => Some (IndexError "list index out of range")
      | group :: _ =>
          if non_empty (pv_filename group)
             && negb (non_empty (satellite_zarr_path (satellite i))
                      || non_empty (hrvsatellite_zarr_path (hrvsatellite i))
                      || non_empty (nwp_zarr_path (nwp i)))
          then Some (UnboundLocalError "image_datapipe")
          else None
      end
  end.

(** The optional sources in the order the model input lists them. *)
Definition modality_sources (c : Configuration) : list Stage :=
  let i := input_data c in
  ((if non_empty (nwp_zarr_path (nwp i))
    then [OpenNWP (nwp_zarr_path (nwp i))] else [])
   ++ (if non_empty (hrvsatellite_zarr_path (hrvsatellite i))
       then [OpenSatellite (hrvsatellite_zarr_path (hrvsatellite i))]
       else [])
   ++ (if non_empty (satellite_zarr_path (satellite i))
       then [OpenSatellite (satellite_zarr_path (satellite i))] else [])
   ++ match pv_files_groups (pv i) with
      | group :: _ =>
          if non_empty (pv_filename group)
          then [OpenPVFromNetCDF (pv_filename group)
                  (pv_metadata_filename group)]
          else []
      | [] => []
      end)%list.

(** The source the PV image is drawn on: satellite before HRV before
    NWP. *)
Definition image_source (c : Configuration) : option Stage :=
  let i := input_data c in
  if non_empty (satellite_zarr_path (satellite i))
  then Some (OpenSatellite (satellite_zarr_path (satellite i)))
  else if non_empty (hrvsatellite_zarr_path (hrvsatellite i))
  then Some (OpenSatellite (hrvsatellite_zarr_path (hrvsatellite i)))
  else if non_empty (nwp_zarr_path (nwp i))
  then Some (OpenNWP (nwp_zarr_path (nwp i)))
  else None.

Definition is_preprocess (s : Stage) : bool :=
  match s with
  | PreProcessMetNet _ _ _ _ _ _ _ _ _ => true
  | _ => false
  end.

Definition is_pv_image (s : Stage) : bool :=
  match s with
  | CreatePVImage _ _ _ _ => true
  | _ => false
  end.

Definition is_fork_child (s : Stage) : bool :=
  match s with
  | ForkChild _ _ => true
  | _ => false
  end.

(** The datapipes that read datapipe [i]. *)
Definition consumers (g : list Stage) (i : ref) : list ref :=
  positions (fun s => mem i (inputs s)) g.

(** The datapipes nothing reads. *)
Definition unread (g : list Stage) : list ref :=
  List.filter (fun i => match consumers g i with
                        | [] => true
                        | _ => false
                        end)
              (seq 0 (length g)).

(** The children of the fork that datapipe [f] is, by instance number,
    each with its readers. *)
Definition children (g : list Stage) (f : ref) : list (nat * list ref) :=
  flat_map (fun i => match nth_error g i with
                     | Some (ForkChild f' k) =>
                         if Nat.eqb f' f then [(k, consumers g i)] else []
                     | _ => []
                     end)
           (seq 0 (length g)).

(** The fork made of datapipe [i], if one was. *)
Definition fork_of (g : list Stage) (i : ref) : list ref :=
  positions (fun s => match s with
                      | Forker src _ => Nat.eqb src i
                      | _ => false
                      end) g.

(** The sample period a stage is given. *)
Definition sample_period_given (s : Stage) : option Z :=
  match s with
  | AddT0IdxAndSamplePeriodDuration _ p _
  | GetContiguousTimePeriods _ p _ _ _
  | SelectTimeSlice _ _ _ _ p
  | ConvertToNWPTargetTime _ _ p _ _ => Some p
  | _ => None
  end.

(** The history a stage is given. *)
Definition history_given (s : Stage) : option Z :=
  match s with
  | AddT0IdxAndSamplePeriodDuration _ _ h
  | GetContiguousTimePeriods _ _ h _ _
  | SelectTimeSlice _ _ h _ _
  | ConvertToNWPTargetTime _ _ _ h _ => Some h
  | _ => None
  end.

(** The position of the source a datapipe's elements come from. *)
Fixpoint origin_ref (g : list Stage) (fuel : nat) (i : ref) : option ref :=
  match fuel with
  | O => None
  | S fuel' =>
      match nth_error g i with
      | None => None
      | Some s =>
          match inputs s with
          | [] => Some i
          | j :: _ => origin_ref g fuel' j
          end
      end
  end.

(** The sample periods given to the stages fed by the source at position
    [o], in creation order. *)
Definition sample_periods_of (g : list Stage) (o : ref) : list Z :=
  flat_map (fun i =>
              match origin_ref g (length g) i, nth_error g i with
              | Some o', Some s =>
                  if Nat.eqb o' o
                  then match sample_period_given s with
                       | Some p => [p]
                       | None => []
                       end
                  else []
              | _, _ => []
              end)
           (seq 0 (length g)).

(** The sample period the pipeline works a source at. *)
Definition cadence_of (s : Stage) : option Z :=
  match s with
  | OpenGSP _ => Some 30%Z
  | OpenNWP _ => Some 60%Z
  | OpenSatellite _ | OpenPVFromNetCDF _ _ => Some 5%Z
  | _ => None
  end.

Definition is_data_source (s : Stage) : bool :=
  match cadence_of s with
  | Some _ => true
  | None => false
  end.

End national_more.

(** ** More sample inputs *)

Module samples_more.
Import gfs.

(** A store whose dataset lacks the wind components. *)
Definition dataset_without_wind : Dataset :=
  mkDataset ["time"; "step"; "latitude"; "longitude"] ["valid_time"]
    [("t", samples.plane 281 282 283 284);
     ("prate", samples.plane 0 0 0 0);
     ("dlwrf", samples.plane 310 311 312 313)].

Definition store_without_wind (path : string) : result Dataset :=
  Ok dataset_without_wind.

End samples_more.

(** ** training/metnet_pv_site.py *)

Module metnet_pv_site.

(** A datapipe object is known by the order of its creation. *)
Definition ref : Type := nat.

Inductive normalizer : Type :=
  | normalize_pv                              (* normalize_fn=normalize_pv *)
  | by_mean_std (mean std : graph.stat).      (* mean=..., std=... *)

(** The function given to [.map]. *)
Inductive mapped : Type :=
  | _remove_nans.

(** One constructor per datapipe class the function calls, with the
    arguments it passes; an argument the function leaves to the default of
    the class is [None].  [Common] is a datapipe made inside
    training/common.py: the function that made it and the key it is stored
    under. *)
Inductive Stage : Type :=
  | Common (function key : string)
  | SelectTrainTestTime (src : ref) (start_time end_time : Z)
  | Normalize (src : ref) (how : normalizer)
  | LocationPicker (src : ref)
  | Forker (src : ref) (num_instances : nat)
  | ForkChild (forker : ref) (instance : nat)
  | SelectID (src : ref) (location_datapipe : ref)
  | Map (src : ref) (fn : mapped)
  | CreatePVHistoryImage (src : ref) (image_datapipe : ref)
      (image_dim : option string)
  | PreProcessMetNet (modalities : list ref) (location_datapipe : ref)
      (center_width center_height context_height context_width
       output_width_pixels output_height_pixels : Z) (add_sun_features : bool)
  | ConvertPVToNumpy (src : ref) (return_id : option bool)
  | ZipOcf (src : ref) (others : list ref)
  | Zip (src : ref) (others : list ref).

(** The datapipe objects made so far. *)
Definition World : Type := list Stage.

Definition Build (A : Type) : Type := World → result A * World.

#[global] Instance Build_ret : MRet Build := fun A a w => (Ok a, w).

#[global] Instance Build_bind : MBind Build := fun A B k m w =>
  match m w with
  | (inl e, w') => (inl e, w')
  | (inr a, w') => k a w'
  end.

Definition raise {A} (e : exn) : Build A := fun w => (Raise e, w).

(** Calling a datapipe class: a new object. *)
Definition new (s : Stage) : Build ref := fun w =>
  (Ok (length w), (w ++ [s])%list).

(** Reading a local variable that is bound on some paths only. *)
Definition local (name : string) (v : option ref) : Build ref :=
  match v with
  | Some r => mret r
  | None => raise (UnboundLocalError name)
  end.

Definition fork2 (src : ref) : Build (ref * ref) :=
  f ← new (Forker src 2);
  a ← new (ForkChild f 0);
  b ← new (ForkChild f 1);
  mret (a, b).

Definition fork3 (src : ref) : Build (ref * ref * ref) :=
  f ← new (Forker src 3);
  a ← new (ForkChild f 0);
  b ← new (ForkChild f 1);
  c ← new (ForkChild f 2);
  mret (a, b, c).

(** [used_datapipes[key]] *)
Definition getitem (used_datapipes : gmap string ref) (key : string)
  : Build ref :=
  match used_datapipes !! key with
  | Some r => mret r
  | None => raise (KeyError key)
  end.

(** [key in used_datapipes.keys()] *)
Definition contains (used_datapipes : gmap string ref) (key : string)
  : bool :=
  match used_datapipes !! key with
  | Some _ => true
  | None => false
  end.

(** Lines 96 to 165: the processing of the time slices. *)
Definition process (use_sun : bool) (output_size : Z) (pv_in_image : bool)
    (used_datapipes : gmap string ref) : Build ref :=
  (* Now do the extra processing *)
  pv ← getitem used_datapipes "pv";
  pv_history ← new (Normalize pv normalize_pv);
  pv_future ← getitem used_datapipes "pv_future";
  pv_datapipe ← new (Normalize pv_future normalize_pv);
  (* Split into GSP for target, only national, and one for history *)
  picker ← new (LocationPicker pv_datapipe);
  '(pv_datapipe, pv_loc_datapipe, pv_id_datapipe) ← fork3 picker;
  pv_history ← new (SelectID pv_history pv_id_datapipe);
  nwp_datapipe ←
    (if contains used_datapipes "nwp" then
       nwp ← getitem used_datapipes "nwp";
       r ← new (Normalize nwp (by_mean_std graph.NWP_MEAN graph.NWP_STD));
       mret (Some r)
     else mret None);
  sat_datapipe ←
    (if contains used_datapipes "sat" then
       sat ← getitem used_datapipes "sat";
       r ← new (Normalize sat
                  (by_mean_std graph.SAT_MEAN_DA graph.SAT_STD_DA));
       mret (Some r)
     else mret None);
  sat_hrv_datapipe ←
    (if contains used_datapipes "hrv" then
       hrv ← getitem used_datapipes "hrv";
       r ← new (Normalize hrv
                  (by_mean_std graph.SAT_MEAN_HRV graph.SAT_STD_HRV));
       mret (Some r)
     else mret None);
  topo_datapipe ←
    (if contains used_datapipes "topo" then
       topo ← getitem used_datapipes "topo";
       r ← new (Map topo _remove_nans);
       mret (Some r)
     else mret None);
  (* Now combine in the MetNet format *)
  let modalities : list ref := [] in
  '(nwp_datapipe, sat_datapipe, sat_hrv_datapipe, pv_history) ←
    (if pv_in_image && contains used_datapipes "hrv" then
       hrv_dp ← local "sat_hrv_datapipe" sat_hrv_datapipe;
       '(hrv_dp, sat_gsp_datapipe) ← fork2 hrv_dp;
       r ← new (CreatePVHistoryImage pv_history sat_gsp_datapipe None);
       mret (nwp_datapipe, sat_datapipe, Some hrv_dp, r)
     else if pv_in_image && contains used_datapipes "sat" then
       sat_dp ← local "sat_datapipe" sat_datapipe;
       '(sat_dp, sat_gsp_datapipe) ← fork2 sat_dp;
       r ← new (CreatePVHistoryImage pv_history sat_gsp_datapipe None);
       mret (nwp_datapipe, Some sat_dp, sat_hrv_datapipe, r)
     else if pv_in_image && contains used_datapipes "nwp" then
       nwp_dp ← local "nwp_datapipe" nwp_datapipe;
       '(nwp_dp, nwp_gsp_datapipe) ← fork2 nwp_dp;
       r ← new (CreatePVHistoryImage pv_history nwp_gsp_datapipe
                  (Some "osgb"));
       mret (Some nwp_dp, sat_datapipe, sat_hrv_datapipe, r)
     else mret (nwp_datapipe, sat_datapipe, sat_hrv_datapipe, pv_history));
  modalities ←
    (if contains used_datapipes "nwp" then
       r ← local "nwp_datapipe" nwp_datapipe; mret (modalities ++ [r])%list
     else mret modalities);
  modalities ←
    (if contains used_datapipes "hrv" then
       r ← local "sat_hrv_datapipe" sat_hrv_datapipe;
       mret (modalities ++ [r])%list
     else mret modalities);
  modalities ←
    (if contains used_datapipes "sat" then
       r ← local "sat_datapipe" sat_datapipe; mret (modalities ++ [r])%list
     else mret modalities);
  modalities ←
    (if contains used_datapipes "topo" then
       r ← local "topo_datapipe" topo_datapipe; mret (modalities ++ [r])%list
     else mret modalities);
  let modalities :=
    if pv_in_image then (modalities ++ [pv_history])%list else modalities in
  metnet_datapipe ←
    new (PreProcessMetNet modalities pv_loc_datapipe
           64000 64000 512000 512000 output_size output_size use_sun);
  pv_datapipe ← new (ConvertPVToNumpy pv_datapipe None);
  if negb pv_in_image then
    pv_history ← new (Map pv_history _remove_nans);
    pv_history ← new (ConvertPVToNumpy pv_history (Some true));
    new (ZipOcf metnet_datapipe [pv_history; pv_datapipe])
  else
    new (Zip metnet_datapipe [pv_datapipe]).

Section pipeline.

(** The three functions of training/common.py, whose code is not part of
    this tree: [open_and_return_datapipes] with its keyword arguments in the
    order of the call, the other two with the dictionary they are given. *)
Variable open_and_return_datapipes :
  string → bool → bool → bool → bool → bool → bool → Build (gmap string ref).
Variable get_and_return_overlapping_time_periods_and_t0 :
  gmap string ref → Build (gmap string ref).
Variable add_selected_time_slices_from_datapipes :
  gmap string ref → Build (gmap string ref).

(** Lines 77 to 93: the dictionary the processing starts from. *)
Definition prepare (configuration_filename : string)
    (use_nwp use_sat use_hrv use_pv use_topo : bool)
    (start_time end_time : Z) : Build (gmap string ref) :=
  (* load datasets *)
  used_datapipes ←
    open_and_return_datapipes configuration_filename
      use_nwp use_topo use_sat use_hrv false use_pv;
  pv ← getitem used_datapipes "pv";
  selected ← new (SelectTrainTestTime pv start_time end_time);
  let used_datapipes := <["pv" := selected]> used_datapipes in
  (* Now get overlapping time periods *)
  used_datapipes ←
    get_and_return_overlapping_time_periods_and_t0 used_datapipes;
  (* And now get time slices *)
  add_selected_time_slices_from_datapipes used_datapipes.

Definition metnet_site_datapipe (configuration_filename : string)
    (use_sun use_nwp use_sat use_hrv use_pv use_topo : bool)
    (output_size : Z) (pv_in_image : bool) (start_time end_time : Z)
  : Build ref :=
  used_datapipes ←
    prepare configuration_filename use_nwp use_sat use_hrv use_pv use_topo
      start_time end_time;
  process use_sun output_size pv_in_image used_datapipes.

End pipeline.

(** *** Reading a graph *)

(** The datapipes a stage reads from. *)
Definition inputs (s : Stage) : list ref :=
  match s with
  | Common _ _ => []
  | SelectTrainTestTime src _ _ | Normalize src _ | LocationPicker src
  | Forker src _ | ForkChild src _ | Map src _ | ConvertPVToNumpy src _ =>
      [src]
  | SelectID src location => [src; location]
  | CreatePVHistoryImage src image _ => [src; image]
  | PreProcessMetNet modalities location _ _ _ _ _ _ _ =>
      (modalities ++ [location])%list
  | ZipOcf src others | Zip src others => src :: others
  end.

End metnet_pv_site.

(** ** Vocabulary for the properties of the site pipeline *)

Module site.
Import graph metnet_pv_site.

(** The datapipes made on top of the world [w]. *)
Definition made (w w' : World) : list Stage := drop (length w) w'.

(** The entry the PV history image is drawn on, by the order of the tests
    at lines 121 to 135, with its normalisation and the [image_dim]. *)
Definition image_entry (d : gmap string ref)
  : option (ref * normalizer * option string) :=
  match d !! "hrv", d !! "sat", d !! "nwp" with
  | Some e, _, _ => Some (e, by_mean_std SAT_MEAN_HRV SAT_STD_HRV, None)
  | None, Some e, _ => Some (e, by_mean_std SAT_MEAN_DA SAT_STD_DA, None)
  | None, None, Some e => Some (e, by_mean_std NWP_MEAN NWP_STD, Some "osgb")
  | None, None, None => None
  end.

(** Source, image and [image_dim] of every PV history image stage. *)
Definition pv_history_images (g : list Stage)
  : list (ref * ref * option string) :=
  flat_map (fun s => match s with
                     | CreatePVHistoryImage src image dim =>
                         [(src, image, dim)]
                     | _ => []
                     end) g.

Definition forks (g : list Stage) : list Stage :=
  List.filter (fun s => match s with
                        | Forker _ _ => true
                        | _ => false
                        end) g.

Definition preprocessors (g : list Stage) : list Stage :=
  List.filter (fun s => match s with
                        | PreProcessMetNet _ _ _ _ _ _ _ _ _ => true
                        | _ => false
                        end) g.

(** The first stage of each entry that becomes a modality, in the order of
    lines 136 to 143. *)
Definition entry_stages (d : gmap string ref) : list Stage :=
  ((match d !! "nwp" with
    | Some e => [Normalize e (by_mean_std NWP_MEAN NWP_STD)]
    | None => []
    end)
   ++ (match d !! "hrv" with
       | Some e => [Normalize e (by_mean_std SAT_MEAN_HRV SAT_STD_HRV)]
       | None => []
       end)
   ++ (match d !! "sat" with
       | Some e => [Normalize e (by_mean_std SAT_MEAN_DA SAT_STD_DA)]
       | None => []
       end)
   ++ (match d !! "topo" with
       | Some e => [Map e _remove_nans]
       | None => []
       end))%list.

(** The datapipe itself, or the forked one when it is the first child of a
    fork. *)
Definition behind_fork (g : World) (i : ref) : ref :=
  match g !! i with
  | Some (ForkChild f 0) =>
      match g !! f with
      | Some (Forker src _) => src
      | _ => i
      end
  | _ => i
  end.

Definition modality_stage (g : World) (i : ref) : option Stage :=
  g !! behind_fork g i.

(** The entry a PV history modality comes from: through the image stage if
    there is one, the selection of the identifier and the normalisation by
    capacity. *)
Definition pv_history_entry (g : World) (i : ref) : option ref :=
  let h := match g !! i with
           | Some (CreatePVHistoryImage src _ _) => src
           | _ => i
           end in
  match g !! h with
  | Some (SelectID n _) =>
      match g !! n with
      | Some (Normalize e normalize_pv) => Some e
      | _ => None
      end
  | _ => None
  end.

End site.

(** ** Sample inputs of the site pipeline *)

Module site_samples.
Import metnet_pv_site.

(** Helpers that make one datapipe per key, and stand for training/common.py
    in the examples. *)
Fixpoint make (function : string) (keys : list string)
    (d : gmap string ref) : Build (gmap string ref) :=
  match keys with
  | [] => mret d
  | key :: rest =>
      r ← new (Common function key);
      make function rest (<[key := r]> d)
  end.

Definition open_and_return_datapipes (configuration_filename : string)
    (use_nwp use_topo use_sat use_hrv use_gsp use_pv : bool)
  : Build (gmap string ref) :=
  make "open_and_return_datapipes"
    ((if use_nwp then ["nwp"] else [])
     ++ (if use_topo then ["topo"] else [])
     ++ (if use_sat then ["sat"] else [])
     ++ (if use_hrv then ["hrv"] else [])
     ++ (if use_gsp then ["gsp"] else [])
     ++ (if use_pv then ["pv"] else []))%list ∅.

Definition get_and_return_overlapping_time_periods_and_t0
    (d : gmap string ref) : Build (gmap string ref) :=
  make "get_and_return_overlapping_time_periods_and_t0"
    (map fst (map_to_list d)) d.

Definition add_selected_time_slices_from_datapipes
    (d : gmap string ref) : Build (gmap string ref) :=
  make "add_selected_time_slices_from_datapipes"
    ("pv_future" :: map fst (map_to_list d)) d.

(** A dictionary with every entry, over a world of six datapipes. *)
Definition world : World :=
  map (Common "add_selected_time_slices_from_datapipes")
    ["pv"; "pv_future"; "nwp"; "sat"; "hrv"; "topo"].

Definition used_datapipes : gmap string ref :=
  list_to_map [("pv", 0); ("pv_future", 1); ("nwp", 2); ("sat", 3);
               ("hrv", 4); ("topo", 5)].

(** The same without satellite, HRV and topographic data. *)
Definition nwp_only : gmap string ref :=
  list_to_map [("pv", 0); ("pv_future", 1); ("nwp", 2)].

Definition run (pv_in_image : bool) (d : gmap string ref)
  : result ref * World :=
  process true 256 pv_in_image d world.

(** The opening with every switch on but [use_pv]. *)
Definition opened : result (gmap string ref) * World :=
  open_and_return_datapipes "config.yaml" true true true true false false [].

Definition opened_datapipes : gmap string ref :=
  match fst opened with
  | inr d => d
  | inl _ => ∅
  end.

Definition site_run : result ref * World :=
  metnet_site_datapipe open_and_return_datapipes
    get_and_return_overlapping_time_periods_and_t0
    add_selected_time_slices_from_datapipes
    "config.yaml" true true true true false true 256 false 0 1 [].

End site_samples.

(** * Properties *)

(** ** The statistics dictionaries *)

Section NWPStatDict_facts.
Import data_vars.

Lemma string_length_app (s1 s2 : string) :
  String.length (s1 +:+ s2) = String.length s1 + String.length s2.
Proof. induction s1 as [|c s1 IH]; simpl; [reflexivity | now rewrite IH]. Qed.

Lemma not_yet_available_fresh key : not_yet_available key ≠ key.
Proof.
  intros H. apply (f_equal String.length) in H.
  unfold not_yet_available in H.
  rewrite !string_length_app in H. simpl in H. lia.
Qed.

Lemma getitem_present {V} (d : gmap string V) key v :
  d !! key = Some v → NWPStatDict_getitem d key = Ok v.
Proof.
  intros H. unfold NWPStatDict_getitem.
  rewrite bool_decide_eq_true_2; [now rewrite H |].
  apply elem_of_dom. eauto.
Qed.

Lemma getitem_absent {V} (d : gmap string V) key :
  d !! key = None →
  NWPStatDict_getitem d key =
    if bool_decide (key ∈ NWP_PROVIDERS)
    then Raise (KeyError (not_yet_available key))
    else Raise (KeyError key).
Proof.
  intros H. unfold NWPStatDict_getitem.
  rewrite bool_decide_eq_false_2; [reflexivity |].
  now apply not_elem_of_dom.
Qed.

(** C10: indexing an [NWPStatDict] returns the stored value exactly when
    the key is present, raises the "not yet available" [KeyError] exactly
    when the key is absent and a known provider, and raises the plain
    [KeyError] carrying the key exactly for every other key. *)
Theorem NWPStatDict_getitem_cases {V} (d : gmap string V) (key : string) :
  (∀ v, NWPStatDict_getitem d key = Ok v ↔ d !! key = Some v)
  ∧ (NWPStatDict_getitem d key = Raise (KeyError (not_yet_available key))
     ↔ d !! key = None ∧ key ∈ NWP_PROVIDERS)
  ∧ (NWPStatDict_getitem d key = Raise (KeyError key)
     ↔ d !! key = None ∧ key ∉ NWP_PROVIDERS).
Proof.
  pose proof (not_yet_available_fresh key) as Hfresh.
  destruct (d !! key) as [v|] eqn:Hd.
  - rewrite (getitem_present d key v Hd). unfold Ok, Raise.
    repeat split; intros; destruct_and?; congruence.
  - rewrite (getitem_absent d key Hd). unfold Ok, Raise.
    destruct (bool_decide (key ∈ NWP_PROVIDERS)) eqn:Hp;
      [apply bool_decide_eq_true_1 in Hp | apply bool_decide_eq_false_1 in Hp];
      repeat split; intros; destruct_and?;
      try congruence; try contradiction; try assumption.
Qed.

(** The three dictionaries of the module, at a present key, at a provider
    without values and at an unknown key. *)
Example NWP_dictionaries_indexed :
  NWPStatDict_getitem NWP_MEANS "gfs" = Ok GFS_MEAN
  ∧ NWPStatDict_getitem NWP_STDS "ukv" = Ok UKV_STD
  ∧ NWPStatDict_getitem NWP_VARIABLE_NAMES "gfs" = Ok GFS_VARIABLE_NAMES
  ∧ NWPStatDict_getitem NWP_MEANS "ecmwf"
    = Raise (KeyError "Values for ecmwf not yet available in ocf-datapipes")
  ∧ NWPStatDict_getitem NWP_STDS "era5" = Raise (KeyError "era5").
Proof. repeat split; vm_compute; reflexivity. Qed.

End NWPStatDict_facts.

(** ** The capacity selection stage *)

Section select_pv_facts.
Import datapipe select_pv_systems_on_capacity.

Context {A : Type}.

Lemma iter_take_from (self : SelectPVSystemsOnCapacityIterDataPipe A) n :
  ∀ s : gen_state (source_datapipe self),
    take_from (__iter__ self) n s = take_from (source_datapipe self) n s.
Proof.
  induction n as [|n IH]; intros s; simpl; [reflexivity |].
  destruct (gen_next (source_datapipe self) s) as [[x s']|];
    [| reflexivity].
  f_equal. apply IH.
Qed.

Lemma take_from_of_list (l0 l : list A) :
  take_from (of_list l0) (length l) l = l.
Proof.
  induction l as [|x l IH]; simpl; [reflexivity |]. f_equal. exact IH.
Qed.

Lemma take_of_list (l : list A) : take (length l) (of_list l) = l.
Proof. apply take_from_of_list. Qed.

(** C9: for every source stream and every pair of capacity bounds, the
    stage yields the elements of its source unchanged and in the same
    order: every finite prefix of its output is that prefix of the source,
    and a finite source comes out whole. *)
Theorem select_pv_systems_on_capacity_is_identity
    (source : IterDataPipe A) (min_capacity max_capacity : watts) :
  (∀ n, take n (__iter__ (__init__ source min_capacity max_capacity))
        = take n source)
  ∧ (∀ l : list A,
       take (length l) (__iter__ (__init__ (of_list l) min_capacity
                                           max_capacity)) = l).
Proof.
  split.
  - intros n. unfold take. apply (iter_take_from (__init__ source _ _)).
  - intros l. unfold take.
    rewrite (iter_take_from (__init__ (of_list l) _ _)). apply take_of_list.
Qed.

End select_pv_facts.

(** ** The GFS loader *)

Section gfs_facts.
Import gfs gfs_fill gfs_grid.

Lemma increasing_tail x l :
  increasing (x :: l) = true →
  increasing l = true ∧ ∀ y, In y l → (x < y)%Z.
Proof.
  revert x. induction l as [|y l IH]; intros x H.
  - split; [reflexivity | intros ? []].
  - simpl in H. apply andb_true_iff in H as [Hxy Hl].
    apply Z.ltb_lt in Hxy. split; [exact Hl |].
    intros z [<- | Hz]; [exact Hxy |].
    destruct (IH y Hl) as [_ Hy]. specialize (Hy z Hz). lia.
Qed.

(** On an index in increasing order the forward lookup finds the most
    recent prior entry, or nothing when every label lies after the
    target. *)
Lemma pad_lookup_spec {A} (src : series A) target :
  increasing (labels src) = true →
  ∀ last,
    (pad_lookup src target last = last
     ∧ ∀ k v, In (k, v) src → (target < k)%Z)
    ∨ ∃ k v, pad_lookup src target last = Some v
             ∧ latest_prior src target k v.
Proof.
  induction src as [|[k v] rest IH]; intros Hinc last; simpl.
  - left. split; [reflexivity | intros ? ? []].
  - destruct (increasing_tail _ _ Hinc) as [Hrest Hlt]. simpl in Hlt.
    destruct (Z.leb_spec k target) as [Hle | Hgt].
    + right. destruct (IH Hrest (Some v)) as [[Heq Hall] | (k' & v' & Heq & Hin & Hle' & Hmax)].
      * exists k, v. split; [exact Heq |].
        split; [now left |]. split; [exact Hle |].
        intros k' v' [Hhd | Htl] Hk'; [inversion Hhd; lia |].
        specialize (Hall _ _ Htl). lia.
      * exists k', v'. split; [exact Heq |].
        split; [now right |]. split; [exact Hle' |].
        intros k'' v'' [Hhd | Htl] Hk''.
        -- inversion Hhd; subst.
           assert (In k' (labels rest)) as Hk'
             by (apply in_map_iff; exists (k', v'); auto).
           specialize (Hlt _ Hk'). lia.
        -- eapply Hmax; eauto.
    + left. split; [reflexivity |].
      intros k' v' [Hhd | Htl]; [inversion Hhd; lia |].
      assert (In k' (labels rest)) as Hk'
        by (apply in_map_iff; exists (k', v'); auto).
      specialize (Hlt _ Hk'). lia.
Qed.

Lemma below_none pts x :
  (∀ k v, In (k, v) pts → (x < k)%Z) → ∀ best, below pts x best = best.
Proof.
  induction pts as [|[k v] rest IH]; intros Hall best; simpl;
    [reflexivity |].
  destruct (Z.leb_spec k x) as [Hle | Hgt].
  - specialize (Hall k v (or_introl eq_refl)). lia.
  - apply IH. intros k' v' Hin. apply (Hall k' v'). now right.
Qed.

(** Interpolating before the first sample gives NaN. *)
Lemma interp1d_before_range pts x :
  (∀ k v, In (k, v) pts → (x < k)%Z) → interp1d pts x = NaN.
Proof.
  intros Hall. unfold interp1d. now rewrite (below_none pts x Hall).
Qed.

Lemma concat_interp_step g :
  concat_step (interp_step g [0%Z]) g = with_hour0 g.
Proof.
  induction g as [|[t row] g IH]; simpl; [reflexivity |].
  f_equal. exact IH.
Qed.

Lemma labels_with_hour0 g : labels (with_hour0 g) = labels g.
Proof.
  unfold labels, with_hour0. rewrite map_map.
  apply map_ext. now intros [t row].
Qed.

Lemma in_with_hour0 g t rowE :
  In (t, rowE) (with_hour0 g) →
  ∃ row, In (t, row) g ∧ rowE = (0%Z, interp1d row 0) :: row.
Proof.
  unfold with_hour0. intros H. apply in_map_iff in H as [[t' row] [Heq Hin]].
  inversion Heq; subst. eauto.
Qed.

Lemma increasing_cons x l :
  (∀ y, In y l → (x < y)%Z) → increasing l = true → increasing (x :: l) = true.
Proof.
  destruct l as [|y l]; intros Hall Hl; [reflexivity |].
  change (((x <? y)%Z && increasing (y :: l)) = true).
  rewrite Hl, andb_true_r. apply Z.ltb_lt, Hall. now left.
Qed.

Lemma pad_lookup_constant {A} (c : A) (src : series A) target :
  (∀ k x, In (k, x) src → x = c) →
  ∀ last, pad_lookup src target last = last
          ∨ pad_lookup src target last = Some c.
Proof.
  induction src as [|[k x] rest IH]; intros Hall last; simpl; [now left |].
  destruct (k <=? target)%Z; [| now left].
  right. destruct (IH (fun k' x' H => Hall k' x' (or_intror H)) (Some x))
    as [-> | ->]; [| reflexivity].
  f_equal. apply (Hall k x). now left.
Qed.

Lemma well_formed_row g t row :
  well_formed g = true → In (t, row) g →
  increasing (labels row) = true ∧ ∀ s x, In (s, x) row → (0 < s)%Z.
Proof.
  unfold well_formed. intros H Hin. apply andb_true_iff in H as [_ H].
  rewrite forallb_forall in H. specialize (H _ Hin). simpl in H.
  apply andb_true_iff in H as [Hinc Hpos]. split; [exact Hinc |].
  intros s x Hs. rewrite forallb_forall in Hpos.
  apply Z.ltb_lt, Hpos. apply in_map_iff. exists (s, x). auto.
Qed.

(** What one plane holds after lines 63 to 68. *)
Lemma hourly_entry g t row' s v :
  well_formed g = true →
  In (t, row') (hourly_values g) → In (s, v) row' →
  (∃ t0 row s0, latest_prior g t t0 row ∧ latest_prior row s s0 v)
  ∨ (∃ t0 row, latest_prior g t t0 row
               ∧ (∀ s0 x, In (s0, x) row → (s < s0)%Z)
               ∧ v = interp1d row 0 ∧ v = NaN)
  ∨ ((∀ t0 row, In (t0, row) g → (t < t0)%Z) ∧ v = NaN).
Proof.
  intros Hwf Hrow Hv. unfold hourly_values in Hrow.
  rewrite concat_interp_step in Hrow.
  unfold pad_step in Hrow.
  apply in_map_iff in Hrow as [[t1 rowE] [Heq HrowE]].
  inversion Heq; subst t1 row'; clear Heq.
  apply in_map_iff in Hv as [s1 [Heq _]].
  inversion Heq; subst s1; clear Heq.
  unfold pad_init in HrowE.
  apply in_map_iff in HrowE as [t1 [Heq _]].
  inversion Heq; subst t1; clear Heq.
  assert (increasing (labels (with_hour0 g)) = true) as Hinc.
  { rewrite labels_with_hour0. unfold well_formed in Hwf.
    now apply andb_true_iff in Hwf as [Hwf _]. }
  destruct (pad_lookup_spec (with_hour0 g) t Hinc None)
    as [[Hnone Hall] | (t0 & rowE' & Hsome & Hin & Hle & Hmax)].
  - (* before the first issuance *)
    right; right. rewrite Hnone in *. subst rowE. split.
    + intros t0 row Hin0. apply (Hall t0 ((0%Z, interp1d row 0) :: row)).
      unfold with_hour0. apply in_map_iff. now exists (t0, row).
    + set (blank := map (fun s0 => (s0, NaN)) (step_coord (with_hour0 g))).
      destruct (pad_lookup_constant NaN blank s) with (last := @None fval)
        as [-> | ->]; [| reflexivity | reflexivity].
      intros k x Hk. unfold blank in Hk.
      apply in_map_iff in Hk as [? [Hk _]]. now inversion Hk.
  - rewrite Hsome in *. subst rowE.
    destruct (in_with_hour0 _ _ _ Hin) as [row [Hg ->]].
    destruct (well_formed_row g t0 row Hwf Hg) as [Hrinc Hpos].
    assert (latest_prior g t t0 row) as Hprior.
    { split; [exact Hg |]. split; [exact Hle |].
      intros k' row0 Hin0 Hk'.
      apply (Hmax k' ((0%Z, interp1d row0 0) :: row0)); [| exact Hk'].
      unfold with_hour0. apply in_map_iff. now exists (k', row0). }
    assert (interp1d row 0 = NaN) as Hnan
      by (apply interp1d_before_range; exact Hpos).
    assert (increasing (labels ((0%Z, interp1d row 0) :: row)) = true)
      as Hinc0.
    { simpl. apply increasing_cons; [| exact Hrinc].
      intros y Hy. apply in_map_iff in Hy as [[s0 x] [<- Hy]].
      apply (Hpos s0 x Hy). }
    destruct (pad_lookup_spec _ s Hinc0 None)
      as [[Hnone Hall] | (s0 & v0 & Hsome0 & Hin0 & Hle0 & Hmax0)].
    + (* before lead time 0 *)
      right; left. exists t0, row. rewrite Hnone.
      split; [exact Hprior |]. split; [| now rewrite Hnan].
      intros s0 x Hx. apply (Hall s0 x). now right.
    + rewrite Hsome0. destruct Hin0 as [Hhd | Htl].
      * (* the hour-0 column carried forward *)
        inversion Hhd; subst s0 v0.
        right; left. exists t0, row.
        split; [exact Hprior |]. split; [| now rewrite Hnan].
        intros s0 x Hx.
        destruct (Z.lt_ge_cases s s0) as [Hlt | Hge]; [exact Hlt |].
        specialize (Hmax0 s0 x (or_intror Hx) Hge).
        specialize (Hpos s0 x Hx). lia.
      * (* a native sample carried forward *)
        left. exists t0, row, s0.
        split; [exact Hprior |]. split; [exact Htl |]. split; [exact Hle0 |].
        intros k' v' Hk' Hle'. apply (Hmax0 k' v'); [now right | exact Hle'].
Qed.

Lemma assoc_string_In {A} (l : list (string * A)) k a :
  assoc String.eqb l k = Some a → In (k, a) l.
Proof.
  induction l as [|[k' a'] l IH]; simpl; [discriminate |].
  destruct (String.eqb_spec k' k) as [-> | _].
  - intros H. inversion H. now left.
  - intros H. right. now apply IH.
Qed.

Lemma assoc_Z_In {A} (l : list (Z * A)) k a :
  assoc Z.eqb l k = Some a → In (k, a) l.
Proof.
  induction l as [|[k' a'] l IH]; simpl; [discriminate |].
  destruct (Z.eqb_spec k' k) as [-> | _].
  - intros H. inversion H. now left.
  - intros H. right. now apply IH.
Qed.

Lemma assoc_on_channels f (a : DataArray) c g' :
  assoc String.eqb (on_channels f a) c = Some g' →
  ∃ g, assoc String.eqb a c = Some g ∧ g' = f g.
Proof.
  induction a as [|[k g] a IH]; simpl; [discriminate |].
  destruct (String.eqb k c); [| exact IH].
  intros H. inversion H. eauto.
Qed.

(** *** The hourly_values grid *)

Lemma in_range_by freq lo hi x :
  (0 < freq)%Z →
  In x (range_by freq lo hi) ↔
  ∃ i, (0 <= i)%Z ∧ x = (lo + freq * i)%Z ∧ (x <= hi)%Z.
Proof.
  intros Hf. unfold range_by. rewrite in_map_iff. split.
  - intros (i & <- & Hi). apply in_seq in Hi. exists (Z.of_nat i).
    split; [lia |]. split; [reflexivity |].
    assert (Z.of_nat i <= (hi - lo) / freq)%Z as Hle by lia.
    pose proof (Z.mul_div_le (hi - lo) freq Hf).
    nia.
  - intros (i & Hi & -> & Hle). exists (Z.to_nat i).
    split; [f_equal; lia |]. apply in_seq.
    assert (i <= (hi - lo) / freq)%Z
      by (apply Z.div_le_lower_bound; lia).
    lia.
Qed.

Lemma increasing_map_seq freq lo n k :
  (0 < freq)%Z →
  increasing (map (fun i => (lo + freq * Z.of_nat i)%Z) (seq k n)) = true.
Proof.
  intros Hf. revert k. induction n as [|n IH]; intros k; [reflexivity |].
  simpl. destruct n as [|n]; [reflexivity |].
  specialize (IH (S k)). simpl in IH |- *. rewrite IH, andb_true_r.
  apply Z.ltb_lt. lia.
Qed.

Lemma increasing_range_by freq lo hi :
  (0 < freq)%Z → increasing (range_by freq lo hi) = true.
Proof. intros Hf. now apply increasing_map_seq. Qed.

Lemma fold_min_spec l x :
  (fold_left Z.min l x <= x)%Z
  ∧ (∀ y, In y l → fold_left Z.min l x <= y)%Z
  ∧ (fold_left Z.min l x = x ∨ In (fold_left Z.min l x) l).
Proof.
  revert x. induction l as [|y l IH]; intros x; simpl.
  - split; [lia |]. split; [intros ? [] | now left].
  - destruct (IH (Z.min x y)) as (H1 & H2 & H3).
    split; [lia |]. split.
    + intros z [<- | Hz]; [lia | now apply H2].
    + destruct H3 as [H3 | H3]; [| right; right; exact H3].
      destruct (Z.min_spec x y) as [[_ Hm] | [_ Hm]];
        [left; rewrite H3; exact Hm
        | right; left; rewrite H3, Hm; reflexivity].
Qed.

Lemma fold_max_spec l x :
  (x <= fold_left Z.max l x)%Z
  ∧ (∀ y, In y l → y <= fold_left Z.max l x)%Z.
Proof.
  revert x. induction l as [|y l IH]; intros x; simpl.
  - split; [lia | intros ? []].
  - destruct (IH (Z.max x y)) as (H1 & H2).
    split; [lia |]. intros z [<- | Hz]; [lia | now apply H2].
Qed.

Lemma minimum_spec l m :
  minimum l = Some m → In m l ∧ ∀ y, In y l → (m <= y)%Z.
Proof.
  destruct l as [|x l]; [discriminate |]. simpl. intros H.
  injection H as <-.
  destruct (fold_min_spec l x) as (H1 & H2 & H3). split.
  - destruct H3 as [-> | H3]; [now left | now right].
  - intros y [<- | Hy]; [exact H1 | now apply H2].
Qed.

Lemma maximum_spec l m :
  maximum l = Some m → ∀ y, In y l → (y <= m)%Z.
Proof.
  destruct l as [|x l]; [discriminate |]. simpl. intros H.
  injection H as <-.
  destruct (fold_max_spec l x) as (H1 & H2).
  intros y [<- | Hy]; [exact H1 | now apply H2].
Qed.

Lemma hourly_datetime_index_spec ls t :
  In t ls → whole_hour t = true → In t (hourly_datetime_index ls).
Proof.
  intros Hin Hh. unfold hourly_datetime_index.
  destruct (minimum ls) as [lo |] eqn:Hlo;
    [| destruct ls; [destruct Hin | discriminate]].
  destruct (maximum ls) as [hi |] eqn:Hhi;
    [| destruct ls; [destruct Hin | discriminate]].
  apply minimum_spec in Hlo as [_ Hlo].
  pose proof (maximum_spec _ _ Hhi t Hin) as Hle.
  specialize (Hlo t Hin).
  unfold whole_hour in Hh. apply Z.eqb_eq in Hh.
  apply in_range_by; [lia |].
  exists (t / 60 - lo / 60)%Z.
  pose proof (Z.div_le_mono lo t 60 ltac:(lia) Hlo).
  pose proof (Z.div_mod t 60 ltac:(lia)).
  split; [lia |]. split; [lia | exact Hle].
Qed.

Lemma hourly_datetime_index_whole ls t :
  In t (hourly_datetime_index ls) → whole_hour t = true.
Proof.
  unfold hourly_datetime_index.
  destruct (minimum ls) as [lo |]; [| intros []].
  destruct (maximum ls) as [hi |]; [| intros []].
  intros H. apply in_range_by in H as (i & _ & -> & _); [| lia].
  unfold whole_hour. apply Z.eqb_eq.
  replace (60 * (lo / 60) + 60 * i)%Z with ((lo / 60 + i) * 60)%Z by lia.
  apply Z.mod_mul. lia.
Qed.

(** The lead-time grid of a row that starts at hour 0 and goes on with
    positive lead times. *)
Lemma hourly_timedelta_index_from_0 ls s :
  (∀ y, In y ls → (0 < y)%Z) →
  (In s ls → whole_hour s = true →
   In s (hourly_timedelta_index (0%Z :: ls)))
  ∧ (In s (hourly_timedelta_index (0%Z :: ls)) →
     whole_hour s = true ∧ (0 <= s)%Z).
Proof.
  intros Hpos. unfold hourly_timedelta_index.
  destruct (minimum (0%Z :: ls)) as [lo |] eqn:Hlo; [| discriminate].
  destruct (maximum (0%Z :: ls)) as [hi |] eqn:Hhi; [| discriminate].
  apply minimum_spec in Hlo as [Hin0 Hlo].
  assert (lo = 0%Z) as ->.
  { specialize (Hlo 0%Z (or_introl eq_refl)).
    destruct Hin0 as [<- | Hin0]; [reflexivity |].
    specialize (Hpos _ Hin0). lia. }
  split.
  - intros Hin Hh. apply in_range_by; [lia |].
    pose proof (maximum_spec _ _ Hhi s (or_intror Hin)).
    specialize (Hpos _ Hin). unfold whole_hour in Hh.
    apply Z.eqb_eq in Hh. exists (s / 60)%Z.
    pose proof (Z.div_mod s 60 ltac:(lia)).
    pose proof (Z.div_pos s 60). lia.
  - intros H. apply in_range_by in H as (i & Hi & -> & _); [| lia].
    split; [| lia]. unfold whole_hour. apply Z.eqb_eq.
    replace (0 + 60 * i)%Z with (i * 60)%Z by lia. apply Z.mod_mul. lia.
Qed.


Lemma increasing_unique {A} (src : series A) k v v' :
  increasing (labels src) = true → In (k, v) src → In (k, v') src → v = v'.
Proof.
  induction src as [|[k0 v0] rest IH]; intros Hinc Hv Hv'; [destruct Hv |].
  destruct (increasing_tail _ _ Hinc) as [Hrest Hlt]. simpl in Hlt.
  assert (∀ x, In (k, x) rest → (k0 < k)%Z) as Hrest_lt.
  { intros x Hx. apply Hlt, in_map_iff. now exists (k, x). }
  destruct Hv as [Hv | Hv], Hv' as [Hv' | Hv'].
  - congruence.
  - inversion Hv; subst. specialize (Hrest_lt _ Hv'). lia.
  - inversion Hv'; subst. specialize (Hrest_lt _ Hv). lia.
  - now apply IH.
Qed.

(** The forward lookup at a label the index holds finds that entry. *)
Lemma pad_lookup_exact {A} (src : series A) k v :
  increasing (labels src) = true → In (k, v) src →
  pad_lookup src k None = Some v.
Proof.
  intros Hinc Hin.
  destruct (pad_lookup_spec src k Hinc None)
    as [[_ Hall] | (k' & v' & -> & Hin' & Hle & Hmax)].
  - specialize (Hall _ _ Hin). lia.
  - specialize (Hmax _ _ Hin ltac:(lia)).
    assert (k' = k) as -> by lia.
    f_equal. now apply (increasing_unique src k).
Qed.

Lemma pad_lookup_in {A} (src : series A) target last v :
  pad_lookup src target last = Some v →
  last = Some v ∨ ∃ k, In (k, v) src.
Proof.
  revert last. induction src as [|[k x] rest IH]; intros last; simpl;
    [now left |].
  destruct (k <=? target)%Z; [| now left].
  intros H. destruct (IH _ H) as [Heq | [k' Hin]].
  - inversion Heq; subst. right. exists k. now left.
  - right. exists k'. now right.
Qed.

Lemma assoc_keyed {A} (h : Z → A) idx t :
  In t idx → assoc Z.eqb (map (fun t => (t, h t)) idx) t = Some (h t).
Proof.
  induction idx as [|t0 idx IH]; intros Hin; [destruct Hin |]. simpl.
  destruct (Z.eqb_spec t0 t) as [-> | Hne]; [reflexivity |].
  destruct Hin as [-> | Hin]; [contradiction | now apply IH].
Qed.

Lemma labels_keyed {A} (h : Z → A) idx :
  labels (map (fun t => (t, h t)) idx) = idx.
Proof. unfold labels. rewrite map_map. simpl. apply map_id. Qed.

Lemma hourly_shape g :
  hourly_values g =
  map (fun t =>
         (t, step_row
               (hourly_timedelta_index
                  (step_coord (pad_init (with_hour0 g))))
               (init_row g t)))
      (hourly_datetime_index (labels g)).
Proof.
  unfold hourly_values. rewrite concat_interp_step.
  unfold pad_step.
  set (index := hourly_timedelta_index _).
  unfold pad_init. rewrite map_map, labels_with_hour0.
  reflexivity.
Qed.

Lemma step_coord_with_hour0 g t row :
  In (t, row) g → step_coord (with_hour0 g) = 0%Z :: step_coord g.
Proof. destruct g as [|[t1 row1] g]; [intros [] | reflexivity]. Qed.

Lemma rectangular_row g t row :
  rectangular g = true → In (t, row) g → labels row = step_coord g.
Proof.
  unfold rectangular. rewrite forallb_forall. intros H Hin.
  specialize (H _ Hin). simpl in H. now apply bool_decide_eq_true_1 in H.
Qed.

Lemma init_row_labels g t0 row0 t :
  rectangular g = true → In (t0, row0) g →
  labels (init_row g t) = 0%Z :: step_coord g.
Proof.
  intros Hrect Hin0. unfold init_row.
  destruct (pad_lookup (with_hour0 g) t None) as [rowE |] eqn:Hp.
  - apply pad_lookup_in in Hp as [Hp | [k Hk]]; [discriminate |].
    apply in_with_hour0 in Hk as [row [Hrow ->]]. simpl.
    f_equal. now apply (rectangular_row g k).
  - unfold labels. rewrite map_map. simpl. rewrite map_id.
    now apply (step_coord_with_hour0 g t0 row0).
Qed.

Lemma step_coord_positive g s :
  well_formed g = true → In s (step_coord g) → (0 < s)%Z.
Proof.
  destruct g as [|[t row] g]; [intros _ [] |]. simpl. intros Hwf Hs.
  destruct (well_formed_row _ t row Hwf (or_introl eq_refl)) as [_ Hpos].
  apply in_map_iff in Hs as [[s' x] [<- Hs]]. now apply (Hpos s' x).
Qed.

(** The lead-time grid of the result. *)
Lemma hourly_step_index g t0 row0 :
  rectangular g = true → In (t0, row0) g → In t0 (hourly_datetime_index (labels g)) →
  hourly_timedelta_index (step_coord (pad_init (with_hour0 g)))
  = hourly_timedelta_index (0%Z :: step_coord g).
Proof.
  intros Hrect Hin Hidx. f_equal. unfold pad_init.
  rewrite labels_with_hour0.
  destruct (hourly_datetime_index (labels g)) as [|t1 idx]; [destruct Hidx |].
  simpl. apply (init_row_labels g t0 row0 t1 Hrect Hin).
Qed.

(** A native sample whose issuance time and lead time are whole hours is
    found unchanged at its own place. *)
Lemma hourly_keeps g t row s v :
  well_formed g = true → rectangular g = true →
  In (t, row) g → In (s, v) row →
  whole_hour t = true → whole_hour s = true →
  ∃ row', assoc Z.eqb (hourly_values g) t = Some row'
          ∧ assoc Z.eqb row' s = Some v.
Proof.
  intros Hwf Hrect Hrow Hv Ht Hs.
  assert (In t (hourly_datetime_index (labels g))) as Hidx.
  { apply hourly_datetime_index_spec; [| exact Ht].
    apply in_map_iff. now exists (t, row). }
  rewrite hourly_shape, (hourly_step_index g t row Hrect Hrow Hidx).
  eexists. split; [now apply assoc_keyed |].
  assert (labels row = step_coord g) as Hlab
    by now apply (rectangular_row g t).
  assert (In s (step_coord g)) as Hsin.
  { rewrite <- Hlab. apply in_map_iff. now exists (s, v). }
  unfold step_row. rewrite assoc_keyed.
  2:{ apply hourly_timedelta_index_from_0; [| exact Hsin | exact Hs].
      intros y Hy. now apply (step_coord_positive g). }
  f_equal.
  assert (init_row g t = (0%Z, interp1d row 0) :: row) as ->.
  { unfold init_row. rewrite (pad_lookup_exact _ t ((0%Z, interp1d row 0) :: row));
      [reflexivity | |].
    - rewrite labels_with_hour0. unfold well_formed in Hwf.
      now apply andb_true_iff in Hwf as [Hwf _].
    - unfold with_hour0. apply in_map_iff. now exists (t, row). }
  destruct (well_formed_row g t row Hwf Hrow) as [Hinc Hpos].
  rewrite (pad_lookup_exact _ s v); [reflexivity | | now right].
  simpl. apply increasing_cons; [| exact Hinc].
  intros y Hy. apply in_map_iff in Hy as [[s0 x] [<- Hy]].
  now apply (Hpos s0 x).
Qed.


Lemma assoc_on_channels_fwd f (a : DataArray) c g :
  assoc String.eqb a c = Some g →
  assoc String.eqb (on_channels f a) c = Some (f g).
Proof.
  induction a as [|[k g0] a IH]; simpl; [discriminate |].
  destruct (String.eqb k c); [| exact IH].
  intros H. now inversion H.
Qed.

Lemma hourly_grid g t0 row0 :
  well_formed g = true → rectangular g = true → In (t0, row0) g →
  labels (hourly_values g) = hourly_datetime_index (labels g)
  ∧ ∀ t row', In (t, row') (hourly_values g) →
      labels row' = hourly_timedelta_index (0%Z :: step_coord g).
Proof.
  intros Hwf Hrect Hin. rewrite hourly_shape. split.
  - apply labels_keyed.
  - intros t row' H. apply in_map_iff in H as [t1 [Heq Ht1]].
    inversion Heq; subst t1 row'; clear Heq.
    unfold step_row. rewrite labels_keyed.
    destruct (hourly_datetime_index (labels g)) as [|t1 idx] eqn:Hidx;
      [destruct Ht1 |].
    f_equal. unfold pad_init. rewrite labels_with_hour0, Hidx.
    simpl. apply (init_row_labels g t0 row0 t1 Hrect Hin).
Qed.


(** *** Runs that raise nothing *)

Section runs.

Variable duplicate_labels : exn.

Lemma increasing_unique_labels l :
  increasing l = true → unique l = true.
Proof.
  induction l as [|x l IH]; intros H; [reflexivity |].
  destruct (increasing_tail _ _ H) as [Hl Hlt]. simpl.
  rewrite (IH Hl), andb_true_r. apply negb_true_iff.
  destruct (existsb (Z.eqb x) l) eqn:Hex; [| reflexivity].
  apply existsb_exists in Hex as [y [Hy Heq]].
  apply Z.eqb_eq in Heq. subst y. specialize (Hlt _ Hy). lia.
Qed.

Lemma hourly_inv g g' :
  hourly duplicate_labels g = Ok g' →
  g' = hourly_values g
  ∧ increasing (labels g) = true
  ∧ increasing (step_coord (pad_init (with_hour0 g))) = true.
Proof.
  unfold hourly, hourly_values, interp, resample_pad_init,
    resample_pad_step.
  cbv [mbind result_bind Ok].
  destruct (unique (step_coord g)); [| discriminate].
  rewrite concat_interp_step, labels_with_hour0.
  destruct (increasing (labels g)); [| discriminate].
  destruct (increasing (step_coord (pad_init (with_hour0 g))));
    [| discriminate].
  intros H. injection H as <-. auto.
Qed.

Lemma for_channels_hourly a out :
  for_channels (hourly duplicate_labels) a = Ok out →
  out = on_channels hourly_values a
  ∧ ∀ c g, In (c, g) a → hourly duplicate_labels g = Ok (hourly_values g).
Proof.
  revert out. induction a as [|[c g] a IH]; intros out; simpl.
  - intros H. injection H as <-. split; [reflexivity | intros ? ? []].
  - cbv [mbind result_bind mret result_ret Ok].
    destruct (hourly duplicate_labels g) as [e | g'] eqn:Hg; [discriminate |].
    destruct (for_channels (hourly duplicate_labels) a) as [e | a'] eqn:Ha;
      [discriminate |].
    intros H. injection H as <-.
    destruct (hourly_inv g g' Hg) as [-> _].
    destruct (IH a' eq_refl) as [-> Hall].
    split; [reflexivity |].
    intros c' g0 [Heq | Hin]; [now inversion Heq; subst | eauto].
Qed.

Lemma hourly_raises g e :
  hourly duplicate_labels g = Raise e →
  e = ValueError ∨ e = duplicate_labels.
Proof.
  unfold hourly, interp, resample_pad_init, resample_pad_step.
  cbv [mbind result_bind Raise Ok].
  destruct (unique (step_coord g));
    [| intros H; injection H as <-; now right].
  destruct (increasing (labels (concat_step (interp_step g [0%Z]) g)));
    [| intros H; injection H as <-; now left].
  destruct (increasing
              (step_coord (pad_init (concat_step (interp_step g [0%Z]) g))));
    [discriminate | intros H; injection H as <-; now left].
Qed.

Lemma for_channels_hourly_raises a e :
  for_channels (hourly duplicate_labels) a = Raise e →
  e = ValueError ∨ e = duplicate_labels.
Proof.
  induction a as [|[c g] a IH]; simpl; [discriminate |].
  cbv [mbind result_bind mret result_ret Raise].
  destruct (hourly duplicate_labels g) as [e' | g'] eqn:Hg.
  - intros H. injection H as <-. now apply (hourly_raises g).
  - destruct (for_channels (hourly duplicate_labels) a) as [e' | a'];
      [| discriminate].
    intros H. injection H as <-. now apply IH.
Qed.

Lemma hourly_datetime_index_nonempty (g : Grid) t row :
  In (t, row) g → hourly_datetime_index (labels g) ≠ [].
Proof.
  intros Hin Hnil.
  assert (In t (labels g)) as Ht by (apply in_map_iff; now exists (t, row)).
  unfold hourly_datetime_index in Hnil.
  destruct (minimum (labels g)) as [lo |] eqn:Hlo;
    [| destruct (labels g); [destruct Ht | discriminate]].
  destruct (maximum (labels g)) as [hi |] eqn:Hhi;
    [| destruct (labels g); [destruct Ht | discriminate]].
  apply minimum_spec in Hlo as [_ Hlo]. specialize (Hlo t Ht).
  pose proof (maximum_spec _ _ Hhi t Ht) as Hle.
  assert (In (60 * (lo / 60))%Z (range_by 60 (60 * (lo / 60)) hi)) as H.
  { apply in_range_by; [lia |]. exists 0%Z.
    pose proof (Z.mul_div_le lo 60 ltac:(lia)). lia. }
  rewrite Hnil in H. destruct H.
Qed.

Lemma pad_init_step_coord g t row :
  rectangular g = true → In (t, row) g →
  step_coord (pad_init (with_hour0 g)) = 0%Z :: step_coord g.
Proof.
  intros Hrect Hin. unfold pad_init. rewrite labels_with_hour0.
  pose proof (hourly_datetime_index_nonempty g t row Hin) as Hne.
  destruct (hourly_datetime_index (labels g)) as [|t1 idx];
    [contradiction |].
  simpl. apply (init_row_labels g t row t1 Hrect Hin).
Qed.

(** A plane on which lines 63 to 68 raise nothing has its issuance times
    in increasing order and positive lead times in increasing order. *)
Lemma hourly_well_formed g g' :
  rectangular g = true → hourly duplicate_labels g = Ok g' →
  well_formed g = true.
Proof.
  intros Hrect H. apply hourly_inv in H as (_ & Hinc & Hstep).
  unfold well_formed. rewrite Hinc. simpl.
  destruct g as [|[t0 row0] g0] eqn:Hg; [reflexivity |].
  rewrite <- Hg in *.
  assert (In (t0, row0) g) as Hin0 by (rewrite Hg; now left).
  rewrite (pad_init_step_coord g t0 row0 Hrect Hin0) in Hstep.
  destruct (increasing_tail _ _ Hstep) as [Hsc Hpos].
  apply forallb_forall. intros [t row] Hin.
  rewrite (rectangular_row g t row Hrect Hin), Hsc. simpl.
  apply forallb_forall. intros s Hs. apply Z.ltb_lt. now apply Hpos.
Qed.

End runs.

Lemma hourly_step_index_any g t :
  rectangular g = true → In t (hourly_datetime_index (labels g)) →
  hourly_timedelta_index (step_coord (pad_init (with_hour0 g)))
  = hourly_timedelta_index (0%Z :: step_coord g).
Proof.
  intros Hrect Hidx. destruct g as [|[t0 row0] g0] eqn:Hg;
    [destruct Hidx |].
  rewrite <- Hg in *. f_equal.
  apply (pad_init_step_coord g t0 row0 Hrect). rewrite Hg. now left.
Qed.

(** Every point of the hourly grid holds a value. *)
Lemma hourly_present g t s :
  rectangular g = true →
  In t (hourly_datetime_index (labels g)) →
  In s (hourly_timedelta_index (0%Z :: step_coord g)) →
  ∃ row' v, assoc Z.eqb (hourly_values g) t = Some row'
            ∧ assoc Z.eqb row' s = Some v.
Proof.
  intros Hrect Ht Hs.
  rewrite hourly_shape, (hourly_step_index_any g t Hrect Ht).
  eexists _, _. split; [now apply assoc_keyed |].
  unfold step_row. now apply assoc_keyed.
Qed.

Lemma maximum_with_0 l hi :
  (∀ y, In y l → (0 < y)%Z) → maximum l = Some hi →
  maximum (0%Z :: l) = Some hi.
Proof.
  destruct l as [|x l]; [discriminate |]. intros Hpos. simpl.
  intros H. injection H as <-. f_equal.
  specialize (Hpos x (or_introl eq_refl)).
  now rewrite Z.max_r by lia.
Qed.

(** The points of the grid are those of the two resampled indexes. *)
Lemma grid_point_index g t s :
  well_formed g = true → grid_point g t s →
  In t (hourly_datetime_index (labels g))
  ∧ In s (hourly_timedelta_index (0%Z :: step_coord g)).
Proof.
  intros Hwf (first & last & longest & Hlo & Hhi & Hmax & Ht & Htm & Hs & Hsm).
  assert (∀ y, In y (step_coord g) → (0 < y)%Z) as Hpos
    by (intros y Hy; now apply (step_coord_positive g)).
  split.
  - unfold hourly_datetime_index. rewrite Hlo, Hhi.
    apply in_range_by; [lia |]. exists (t / 60 - first / 60)%Z.
    pose proof (Z.div_mod t 60 ltac:(lia)). lia.
  - unfold hourly_timedelta_index.
    rewrite (maximum_with_0 _ _ Hpos Hmax).
    destruct (minimum (0%Z :: step_coord g)) as [lo |] eqn:Hmin;
      [| discriminate].
    apply minimum_spec in Hmin as [Hin0 Hmin].
    assert (lo = 0%Z) as ->.
    { specialize (Hmin 0%Z (or_introl eq_refl)).
      destruct Hin0 as [<- | Hin0]; [reflexivity |].
      specialize (Hpos _ Hin0). lia. }
    apply in_range_by; [lia |]. exists (s / 60)%Z.
    pose proof (Z.div_mod s 60 ltac:(lia)). lia.
Qed.

Section backends.

Variable open_mfdataset load_dataset : string → result Dataset.
Variable duplicate_labels : exn.

Lemma open_gfs_inv path out :
  open_gfs open_mfdataset load_dataset duplicate_labels path = Ok out →
  ∃ native, open_native open_mfdataset load_dataset path = Ok native
            ∧ out = on_channels hourly_values native
            ∧ ∀ c g, In (c, g) native → hourly duplicate_labels g = Ok (hourly_values g).
Proof.
  unfold open_gfs. cbv [mbind result_bind mret result_ret].
  destruct (open_native open_mfdataset load_dataset path) as [e | native];
    [discriminate |].
  intros H. apply for_channels_hourly in H as [-> Hall]. eauto.
Qed.

Lemma open_native_channels path native :
  open_native open_mfdataset load_dataset path = Ok native →
  map fst native = gfs_channels.
Proof.
  unfold open_native. cbv [mbind result_bind mret result_ret].
  destruct (match path with Str _ => _ | Path _ => _ end) as [e | ds];
    [discriminate |].
  repeat (match goal with
          | |- context [getitem ds ?n] => destruct (getitem ds n)
          end; [discriminate |]).
  repeat (match goal with
          | |- context [match ?x with inl _ => _ | inr _ => _ end] =>
              destruct x
          end; [discriminate |]).
  intros H. inversion H. reflexivity.
Qed.

(** C1: on every store for which [open_gfs] returns, the result holds a
    value at every point of the hourly grid of each channel (the whole hours
    from the hour of the first issuance to the last issuance, and the whole
    hours of lead time from 0 to the longest), and every value it holds is
    the most recent prior native sample on both axes, or NaN where no
    sample comes before.  The interpolation of line 65 adds the lead time 0
    to the grid and no number to the values: where [open_gfs] returns, the
    lead times are positive and hour 0 lies outside their range. *)
Theorem open_gfs_fills_forward path native out :
  open_native open_mfdataset load_dataset path = Ok native →
  open_gfs open_mfdataset load_dataset duplicate_labels path = Ok out →
  planes_rectangular native = true →
  forward_filled native out.
Proof.
  intros Hnative Hout Hrect.
  apply open_gfs_inv in Hout as (native' & Hnative' & -> & Hall).
  rewrite Hnative in Hnative'. inversion Hnative'; subst native'.
  split.
  { unfold on_channels. rewrite map_map. apply map_ext. now intros [c g]. }
  intros c g Hc.
  pose proof (assoc_string_In _ _ _ Hc) as Hin.
  unfold planes_rectangular in Hrect. rewrite forallb_forall in Hrect.
  specialize (Hrect _ Hin). simpl in Hrect.
  pose proof (hourly_well_formed duplicate_labels g _ Hrect (Hall c g Hin))
    as Hwf.
  split.
  - intros t s Hgrid.
    destruct (grid_point_index g t s Hwf Hgrid) as [Ht Hs].
    destruct (hourly_present g t s Hrect Ht Hs) as (row' & v & Hr & Hv).
    exists v. unfold value_at.
    rewrite (assoc_on_channels_fwd hourly_values native c g Hc).
    cbv [mbind option_bind]. fold (series fval) in *.
    unfold Grid, series in *. rewrite Hr. exact Hv.
  - intros t s v Hv.
    unfold value_at in Hv.
    rewrite (assoc_on_channels_fwd hourly_values native c g Hc) in Hv.
    cbv [mbind option_bind] in Hv.
    match type of Hv with
    | match ?x with _ => _ end = _ => destruct x as [row' |] eqn:Ht
    end; [| discriminate].
    apply assoc_Z_In in Ht. apply assoc_Z_In in Hv.
    destruct (hourly_entry g t row' s v Hwf Ht Hv)
      as [H | [(t0 & row & Hp & Hbefore & _ & ->) | H]].
    + left. exact H.
    + right. left. split; [| reflexivity]. eauto.
    + right. right. exact H.
Qed.

(** C5, as the code has it: [open_gfs] does not translate a failure of
    the storage backend; it fails with the very exception the array
    library raised. *)
Theorem open_gfs_propagates_backend_error path e :
  (if contains_star path then open_mfdataset path else load_dataset path)
    = Raise e →
  open_gfs open_mfdataset load_dataset duplicate_labels (Str path) = Raise e.
Proof.
  intros H. unfold open_gfs, open_native. now rewrite H.
Qed.

(** C8: the statistics are looked up by source type and then by channel,
    and the five channels [open_gfs] emits each have a mean and a standard
    deviation in the GFS tables. *)
Theorem gfs_channels_have_statistics path out :
  open_gfs open_mfdataset load_dataset duplicate_labels path = Ok out →
  map fst out = ["dlwrf"; "t"; "u"; "v"; "prate"]
  ∧ data_vars.NWPStatDict_getitem data_vars.NWP_MEANS "gfs"
    = Ok data_vars.GFS_MEAN
  ∧ data_vars.NWPStatDict_getitem data_vars.NWP_STDS "gfs"
    = Ok data_vars.GFS_STD
  ∧ ∀ c, In c (map fst out) →
         ∃ mean std, data_vars.sel data_vars.GFS_MEAN c = Some mean
                     ∧ data_vars.sel data_vars.GFS_STD c = Some std.
Proof.
  intros Hout. apply open_gfs_inv in Hout as (native & Hnative & -> & _).
  apply open_native_channels in Hnative.
  assert (map fst (on_channels hourly_values native) = gfs_channels) as Hch.
  { rewrite <- Hnative. unfold on_channels. rewrite map_map.
    apply map_ext. now intros [c g]. }
  rewrite Hch. split; [reflexivity |].
  split; [vm_compute; reflexivity |]. split; [vm_compute; reflexivity |].
  intros c Hc. simpl in Hc.
  destruct Hc as [<- | [<- | [<- | [<- | [<- | []]]]]];
    vm_compute; eauto.
Qed.

End backends.

(** Numeric interpolation between two samples makes a value that neither
    of them holds; a store with such samples around hour 0 is one on which
    [open_gfs] raises. *)
Example interp1d_between_samples :
  interp1d [((-60)%Z, Num 1); (60%Z, Num 3)] 0 = Num 2
  ∧ hourly samples.duplicate_labels
      [(0%Z, [((-60)%Z, Num 1); (60%Z, Num 3)])] = Raise ValueError.
Proof. split; vm_compute; reflexivity. Qed.

(** On the sample store, whose result holds at 01:00, lead time four hours,
    the three-hour sample of the 00:00 issuance, and NaN at lead time 0. *)
Lemma open_gfs_fills_forward_witness :
  forward_filled samples.native samples.opened
  ∧ value_at samples.opened "t" 60 240 = Some (Num 281)
  ∧ value_at samples.opened "t" 0 0 = Some NaN.
Proof.
  split; [| split; reflexivity].
  apply (open_gfs_fills_forward samples.store samples.store
           samples.duplicate_labels
           (Str "gfs.zarr") samples.native samples.opened);
    reflexivity.
Defined.

(** On the sample store: a path it does not hold. *)
Lemma open_gfs_propagates_backend_error_witness :
  open_gfs samples.store samples.store samples.duplicate_labels (Str "missing.zarr")
  = Raise (BackendError "FileNotFoundError" "missing.zarr").
Proof.
  apply (open_gfs_propagates_backend_error samples.store samples.store
           samples.duplicate_labels
           "missing.zarr"). reflexivity.
Defined.

(** On the sample store. *)
Lemma gfs_channels_have_statistics_witness :
  map fst samples.opened = ["dlwrf"; "t"; "u"; "v"; "prate"]
  ∧ data_vars.NWPStatDict_getitem data_vars.NWP_MEANS "gfs"
    = Ok data_vars.GFS_MEAN
  ∧ data_vars.NWPStatDict_getitem data_vars.NWP_STDS "gfs"
    = Ok data_vars.GFS_STD
  ∧ ∀ c, In c (map fst samples.opened) →
         ∃ mean std, data_vars.sel data_vars.GFS_MEAN c = Some mean
                     ∧ data_vars.sel data_vars.GFS_STD c = Some std.
Proof.
  apply (gfs_channels_have_statistics samples.store samples.store
           samples.duplicate_labels
           (Str "gfs.zarr") samples.opened). reflexivity.
Defined.

(** C5 fails as stated: a store that cannot be opened makes [open_gfs]
    fail with the backend's own exception, not with [SourceUnavailable]. *)
Lemma open_gfs_missing_store_not_SourceUnavailable :
  samples.store "missing.zarr"
  = Raise (BackendError "FileNotFoundError" "missing.zarr")
  ∧ ¬ ∃ msg, open_gfs samples.store samples.store samples.duplicate_labels (Str "missing.zarr")
             = Raise (SourceUnavailable msg).
Proof.
  split; [reflexivity |]. intros [msg H]. discriminate H.
Qed.

End gfs_facts.

(** ** The national pipeline *)

Section national_facts.
Import config graph metnet_national national.

Variable load_configuration : string → result Configuration.

Lemma metnet_national_datapipe_unfold filename mode :
  metnet_national_datapipe load_configuration filename mode empty =
  match load_configuration filename with
  | inl e => (inl e, configured filename)
  | inr c =>
      match first_pv_filename c with
      | inl e => (inl e, configured filename)
      | inr pv_name =>
          build c
            (non_empty (nwp_zarr_path (nwp (input_data c))))
            (non_empty pv_name)
            (non_empty (satellite_zarr_path (satellite (input_data c))))
            (non_empty (hrvsatellite_zarr_path (hrvsatellite (input_data c))))
            mode (configured filename)
      end
  end.
Proof.
  unfold metnet_national_datapipe.
  cbv [mbind Build_bind new pull lift empty nodes pulled configured].
  simpl.
  destruct (load_configuration filename) as [e | c]; [reflexivity |].
  destruct (first_pv_filename c) as [e | name]; reflexivity.
Qed.

(** Case analysis on a successful construction: the configuration, its
    four switches and the mode. *)
Ltac construct H :=
  rewrite metnet_national_datapipe_unfold in H;
  let c := fresh "c" in
  destruct (load_configuration _) as [? | c] eqn:Hload; [discriminate H |];
  destruct c as [[[gsp_path gsp_h gsp_f gsp_i gsp_x] [nwp_path nwp_h nwp_f]
                   [sat_path sat_h] [hrv_path hrv_h] [groups pv_h]]
                  [n_train n_val]];
  destruct groups as [| [pv_name pv_meta] groups]; [discriminate H |];
  unfold optional_sources, non_empty in *; simpl in H |- *;
  unfold build in H;
  destruct (String.eqb nwp_path EmptyString) eqn:Hnwp,
    (String.eqb pv_name EmptyString) eqn:Hpv,
    (String.eqb sat_path EmptyString) eqn:Hsat,
    (String.eqb hrv_path EmptyString) eqn:Hhrv;
  destruct (String.eqb _ "train"); try destruct (String.eqb _ "val");
  vm_compute in H; try discriminate H;
  inversion H; subst; clear H.

(** C4: the joint-period intersection takes the GSP periods as its
    primary stream, always, and as secondary streams the periods of exactly
    those of NWP, satellite, HRV and PV whose configured path is not the
    empty string. *)
Theorem joint_periods_over_active_sources filename mode out w :
  metnet_national_datapipe load_configuration filename mode empty
    = (Ok out, w) →
  ∃ c p secondary,
    load_configuration filename = Ok c
    ∧ intersections (nodes w) = [(p, secondary)]
    ∧ periods_of (nodes w) p
      = Some (OpenGSP (gsp_zarr_path (gsp (input_data c))))
    ∧ map (periods_of (nodes w)) secondary = map Some (optional_sources c).
Proof.
  intros H. construct H.
  all: match goal with
       | |- ∃ c p secondary, _ ∧ intersections ?g = _ ∧ _ =>
           let r := eval vm_compute in (intersections g) in
           match r with
           | [(?p, ?s)] => eexists; exists p, s
           end
       end.
  all: split; [reflexivity |].
  all: unfold optional_sources, non_empty; simpl.
  all: rewrite Hnwp, Hpv, Hsat, Hhrv.
  all: repeat split; vm_compute; reflexivity.
Qed.

(** C3: the graph holds exactly one anchor selection, forked once, five
    ways.  The anchor input of every slicing stage, one for GSP and one for
    each active modality, is a child of that fork, and each has a child of
    its own: the first for GSP, then by the number of the source among NWP,
    satellite, HRV and PV.  The children have no other reader, and the
    anchor selection has none but the fork. *)
Theorem one_anchor_feeds_every_slice filename mode out w :
  metnet_national_datapipe load_configuration filename mode empty
    = (Ok out, w) →
  ∃ c a f,
    load_configuration filename = Ok c
    ∧ positions is_anchor_selector (nodes w) = [a]
    ∧ readers (nodes w) a = [f]
    ∧ stage_at (nodes w) f = Some (Forker a 5)
    ∧ map (anchor_fork (nodes w)) (positions is_slicing (nodes w))
      = map (fun k => Some (f, a, k)) (anchor_children c)
    ∧ map (origin_of (nodes w)) (positions is_slicing (nodes w))
      = map Some (OpenGSP (gsp_zarr_path (gsp (input_data c)))
                  :: optional_sources c)
    ∧ map fst (fork_children (nodes w) f) = [0; 1; 2; 3; 4]
    ∧ flat_map snd (fork_children (nodes w) f)
      = positions is_slicing (nodes w).
Proof.
  intros H. construct H.
  all: match goal with
       | |- ∃ c a f, _ ∧ positions _ ?g = _ ∧ _ =>
           let r := eval vm_compute in (positions is_anchor_selector g) in
           match r with
           | [?a] => eexists; exists a, (S a)
           end
       end.
  all: split; [reflexivity |].
  all: unfold optional_sources, anchor_children, non_empty; simpl.
  all: rewrite Hnwp, Hpv, Hsat, Hhrv.
  all: repeat split; vm_compute; reflexivity.
Qed.

(** C2, as the code has it.  The data flows in the order of the design
    document from the period computations on: every period stream comes
    from a data source and is read by the one intersection, the
    intersection lies upstream of the one anchor selection, the anchor
    selection upstream of the anchor input of every slicing stage, every
    normalisation by statistics and the PV image stage read straight from a
    slicing stage and lie upstream of the one batcher, and the slices and
    the batcher upstream of the result.  With the capacity normalisation of
    GSP counted into its loading, no stage has a stage of a later phase
    upstream.  But the one capacity normalisation, on the GSP source, lies
    upstream of the GSP period computation and of the GSP slice. *)
Theorem national_stage_order_by_design filename mode out w :
  metnet_national_datapipe load_configuration filename mode empty
    = (Ok out, w) →
  in_order phase_by_design (nodes w) = true
  ∧ forallb (normalizes_a_slice (nodes w)) (nodes w) = true
  ∧ (∃ n, positions is_capacity_normalizer (nodes w) = [n]
          ∧ from_gsp (nodes w) n = true
          ∧ length (List.filter (from_gsp (nodes w))
                      (positions is_periods_or_slicing (nodes w))) = 2
          ∧ before_gsp_periods_and_slice (nodes w) n = true)
  ∧ ∃ x a b,
      positions is_intersection (nodes w) = [x]
      ∧ positions is_anchor_selector (nodes w) = [a]
      ∧ positions is_batcher (nodes w) = [b]
      ∧ flows_in_order (nodes w) x a b out = true.
Proof.
  intros H. construct H.
  all: split; [vm_compute; reflexivity |].
  all: split; [vm_compute; reflexivity |].
  all: split; [exists 7; repeat split; vm_compute; reflexivity |].
  all: match goal with
       | |- ∃ x a b, positions _ ?g = _ ∧ _ =>
           let rx := eval vm_compute in (positions is_intersection g) in
           let ra := eval vm_compute in (positions is_anchor_selector g) in
           let rb := eval vm_compute in (positions is_batcher g) in
           match rx with
           | [?x] => match ra with
                     | [?a] => match rb with
                               | [?b] => exists x, a, b
                               end
                     end
           end
       end.
  all: repeat split; vm_compute; reflexivity.
Qed.

End national_facts.

(** On the sample configuration, with all four optional sources. *)
Lemma joint_periods_over_active_sources_witness :
  ∃ c p secondary,
    samples.always samples.full_configuration "config.yaml" = Ok c
    ∧ national.intersections (graph.nodes (snd samples.national_run))
      = [(p, secondary)]
    ∧ national.periods_of (graph.nodes (snd samples.national_run)) p
      = Some (graph.OpenGSP
                (config.gsp_zarr_path (config.gsp (config.input_data c))))
    ∧ map (national.periods_of (graph.nodes (snd samples.national_run)))
        secondary
      = map Some (national.optional_sources c).
Proof.
  apply (joint_periods_over_active_sources
           (samples.always samples.full_configuration)
           "config.yaml" "train" 70 (snd samples.national_run)).
  vm_compute. reflexivity.
Defined.

(** On the sample configuration: five slicing stages, one anchor. *)
Lemma one_anchor_feeds_every_slice_witness :
  ∃ c a f,
    samples.always samples.full_configuration "config.yaml" = Ok c
    ∧ national.positions graph.is_anchor_selector
        (graph.nodes (snd samples.national_run)) = [a]
    ∧ national.readers (graph.nodes (snd samples.national_run)) a = [f]
    ∧ national.stage_at (graph.nodes (snd samples.national_run)) f
      = Some (graph.Forker a 5)
    ∧ map (national.anchor_fork (graph.nodes (snd samples.national_run)))
        (national.positions national.is_slicing
           (graph.nodes (snd samples.national_run)))
      = map (fun k => Some (f, a, k)) (national.anchor_children c)
    ∧ map (graph.origin_of (graph.nodes (snd samples.national_run)))
        (national.positions national.is_slicing
           (graph.nodes (snd samples.national_run)))
      = map Some
          (graph.OpenGSP
             (config.gsp_zarr_path (config.gsp (config.input_data c)))
           :: national.optional_sources c)
    ∧ map fst
        (national.fork_children (graph.nodes (snd samples.national_run)) f)
      = [0; 1; 2; 3; 4]
    ∧ flat_map snd
        (national.fork_children (graph.nodes (snd samples.national_run)) f)
      = national.positions national.is_slicing
          (graph.nodes (snd samples.national_run)).
Proof.
  apply (one_anchor_feeds_every_slice
           (samples.always samples.full_configuration)
           "config.yaml" "train" 70 (snd samples.national_run)).
  vm_compute. reflexivity.
Defined.

(** On the sample configuration. *)
Lemma national_stage_order_by_design_witness :
  graph.in_order graph.phase_by_design
    (graph.nodes (snd samples.national_run)) = true
  ∧ forallb
      (national.normalizes_a_slice (graph.nodes (snd samples.national_run)))
      (graph.nodes (snd samples.national_run)) = true
  ∧ (∃ n, national.positions national.is_capacity_normalizer
            (graph.nodes (snd samples.national_run)) = [n]
          ∧ national.from_gsp (graph.nodes (snd samples.national_run)) n
            = true
          ∧ length
              (List.filter
                 (national.from_gsp (graph.nodes (snd samples.national_run)))
                 (national.positions national.is_periods_or_slicing
                    (graph.nodes (snd samples.national_run)))) = 2
          ∧ national.before_gsp_periods_and_slice
              (graph.nodes (snd samples.national_run)) n = true)
  ∧ ∃ x a b,
      national.positions national.is_intersection
        (graph.nodes (snd samples.national_run)) = [x]
      ∧ national.positions graph.is_anchor_selector
          (graph.nodes (snd samples.national_run)) = [a]
      ∧ national.positions national.is_batcher
          (graph.nodes (snd samples.national_run)) = [b]
      ∧ national.flows_in_order (graph.nodes (snd samples.national_run))
          x a b 70 = true.
Proof.
  apply (national_stage_order_by_design
           (samples.always samples.full_configuration)
           "config.yaml" "train" 70 (snd samples.national_run)).
  vm_compute. reflexivity.
Defined.

(** C2 fails as stated: on the sample configuration the pipeline is built,
    and the capacity normalisation of GSP (datapipe 7) lies upstream of the
    GSP period computation (13) and of the GSP slice (56). *)
Lemma national_normalizes_gsp_before_slicing :
  fst samples.national_run = Ok 70
  ∧ graph.in_order graph.phase_of (graph.nodes (snd samples.national_run))
    = false
  ∧ national.stage_at (graph.nodes (snd samples.national_run)) 7
    = Some (graph.Normalize 4 graph.by_capacity)
  ∧ national.stage_at (graph.nodes (snd samples.national_run)) 13
    = Some (graph.GetContiguousTimePeriods 11 30 120 480 None)
  ∧ national.stage_at (graph.nodes (snd samples.national_run)) 56
    = Some (graph.SelectTimeSlice 10 51 0 480 30)
  ∧ graph.mem 7 (graph.upstream (graph.nodes (snd samples.national_run)) 13)
    = true
  ∧ graph.mem 7 (graph.upstream (graph.nodes (snd samples.national_run)) 56)
    = true.
Proof. repeat split; vm_compute; reflexivity. Qed.

(** ** Validation of the cadence descriptors *)

Section validation_facts.
Import config graph national.

Lemma whole_multiple_divide d period :
  whole_multiple d period = true ↔ (period | d)%Z.
Proof.
  unfold whole_multiple. destruct (Z.eqb_spec period 0) as [-> | Hne].
  - rewrite Z.eqb_eq. split.
    + intros ->. apply Z.divide_0_r.
    + apply Z.divide_0_l.
  - rewrite Z.eqb_eq. apply Z.mod_divide. exact Hne.
Qed.

Lemma invalid_cadence_spec d :
  invalid_cadence d = true ↔
  ((sample_period d < 0)%Z ∨ (history_duration d < 0)%Z
   ∨ (forecast_duration d < 0)%Z)
  ∨ ¬ (sample_period d | history_duration d)%Z
  ∨ ¬ (sample_period d | forecast_duration d)%Z.
Proof.
  unfold invalid_cadence, negative_duration, non_multiple_duration.
  rewrite !orb_true_iff, !negb_true_iff, !Z.ltb_lt.
  rewrite <- !not_true_iff_false, !whole_multiple_divide. tauto.
Qed.

Variable files : string → option Configuration.
Variable descriptors : Configuration → list Cadence.

(** C6: with the loader the design document describes, building either
    pipeline on a configuration that holds a negative duration, or a history
    or forecast that is not a whole number of sample periods, raises a
    [ConfigurationError]; at that point no datapipe of a data source has
    been made and nothing has been pulled from one. *)
Theorem invalid_cadence_rejected_at_construction filename mode c d :
  files filename = Some c →
  In d (descriptors c) →
  ((sample_period d < 0)%Z ∨ (history_duration d < 0)%Z
   ∨ (forecast_duration d < 0)%Z)
  ∨ ¬ (sample_period d | history_duration d)%Z
  ∨ ¬ (sample_period d | forecast_duration d)%Z →
  (∃ msg,
     metnet_national.metnet_national_datapipe
       (load_yaml_configuration files descriptors) filename mode empty
     = (Raise (ConfigurationError msg), configured filename)
     ∧ positions has_data_source (nodes (configured filename)) = []
     ∧ xgnational.xgnational_production_datapipe
         (load_yaml_configuration files descriptors) filename empty
       = (Raise (ConfigurationError msg), empty)).
Proof.
  intros Hfile Hin Hbad. apply invalid_cadence_spec in Hbad.
  assert (load_yaml_configuration files descriptors filename
          = Raise (ConfigurationError "invalid cadence descriptor")) as Hload.
  { unfold load_yaml_configuration. rewrite Hfile.
    replace (existsb invalid_cadence (descriptors c)) with true;
      [reflexivity |].
    symmetry. apply existsb_exists. eauto. }
  exists "invalid cadence descriptor". split; [| split].
  - rewrite metnet_national_datapipe_unfold. now rewrite Hload.
  - reflexivity.
  - unfold xgnational.xgnational_production_datapipe.
    cbv [mbind Build_bind lift]. now rewrite Hload.
Qed.

End validation_facts.

(** On a configuration whose GSP history is minus thirty minutes. *)
Lemma invalid_cadence_rejected_at_construction_witness :
  ∃ msg,
    metnet_national.metnet_national_datapipe
      (config.load_yaml_configuration
         (samples.files samples.negative_history) samples.descriptors)
      "config.yaml" "train" graph.empty
    = (Raise (ConfigurationError msg), national.configured "config.yaml")
    ∧ national.positions national.has_data_source
        (graph.nodes (national.configured "config.yaml")) = []
    ∧ xgnational.xgnational_production_datapipe
        (config.load_yaml_configuration
           (samples.files samples.negative_history) samples.descriptors)
        "config.yaml" graph.empty
      = (Raise (ConfigurationError msg), graph.empty).
Proof.
  apply (invalid_cadence_rejected_at_construction
           (samples.files samples.negative_history) samples.descriptors
           "config.yaml" "train" samples.negative_history
           (config.mkCadence 30 (-30) 480)).
  - reflexivity.
  - simpl. left. reflexivity.
  - simpl. lia.
Defined.

(** ** More on the statistics tables *)

Section tables_facts.
Import data_vars tables.

Lemma sel_assoc_to_data_array (d : list (string * Q)) c :
  sel_assoc (map fst d)
    (map (fun kv => astype_float32 (float64 (snd kv))) d) c
  = option_map (fun q => astype_float32 (float64 q)) (dict_get d c).
Proof.
  induction d as [|[k v] d IH]; simpl; [reflexivity |].
  destruct (String.eqb k c); [reflexivity | exact IH].
Qed.

(** X1: [_to_data_array] keeps every entry of the dictionary under its
    key, as a [float32]: the channel coordinate is the keys in order, there
    is one value per key, and selecting a channel gives the value the
    dictionary holds for it, read as a double and rounded to [float32];
    not, in general, the value itself. *)
Theorem to_data_array_keeps_entries (d : list (string * Q)) :
  channel (_to_data_array d) = keys d
  ∧ length (values (_to_data_array d)) = length (keys d)
  ∧ (∀ c, sel (_to_data_array d) c
          = option_map (fun q => astype_float32 (float64 q)) (dict_get d c))
  ∧ sel (_to_data_array [("a", 0.552%Q); ("b", 1e39%Q); ("c", 1e-50%Q)]) "a"
    = Some (Finite (9261023 # 16777216)%Q)
  ∧ sel (_to_data_array [("a", 0.552%Q); ("b", 1e39%Q); ("c", 1e-50%Q)]) "b"
    = Some (Infinity false)
  ∧ sel (_to_data_array [("a", 0.552%Q); ("b", 1e39%Q); ("c", 1e-50%Q)]) "c"
    = Some (Finite 0%Q).
Proof.
  split; [reflexivity |]. split; [| split].
  - unfold keys. simpl. now rewrite !length_map.
  - intros c. apply sel_assoc_to_data_array.
  - repeat split; vm_compute; reflexivity.
Qed.

Lemma NWP_lookup {V} (ukv gfs : V) key :
  NWPStatDict_of [("ukv", ukv); ("gfs", gfs)] !! key
  = if String.eqb key "ukv" then Some ukv
    else if String.eqb key "gfs" then Some gfs else None.
Proof.
  unfold NWPStatDict_of. simpl.
  destruct (String.eqb_spec key "ukv") as [-> | Hu].
  - apply lookup_insert_eq.
  - rewrite lookup_insert_ne by congruence.
    destruct (String.eqb_spec key "gfs") as [-> | Hg].
    + apply lookup_insert_eq.
    + rewrite lookup_insert_ne by congruence. apply lookup_empty.
Qed.

(** X2: the three NWP dictionaries go together.  At every key either all
    three have an entry, and the means and the standard deviations carry
    exactly the channels of the variable names, in the same order; or all
    three raise the same [KeyError]. *)
Theorem NWP_dictionaries_agree (key : string) :
  (∃ mean std names,
     NWPStatDict_getitem NWP_MEANS key = Ok mean
     ∧ NWPStatDict_getitem NWP_STDS key = Ok std
     ∧ NWPStatDict_getitem NWP_VARIABLE_NAMES key = Ok names
     ∧ channel mean = names ∧ channel std = names
     ∧ length (values mean) = length names
     ∧ length (values std) = length names)
  ∨ (∃ e,
       NWPStatDict_getitem NWP_MEANS key = Raise e
       ∧ NWPStatDict_getitem NWP_STDS key = Raise e
       ∧ NWPStatDict_getitem NWP_VARIABLE_NAMES key = Raise e).
Proof.
  pose proof (NWP_lookup UKV_MEAN GFS_MEAN key) as Hm.
  pose proof (NWP_lookup UKV_STD GFS_STD key) as Hs.
  pose proof (NWP_lookup UKV_VARIABLE_NAMES GFS_VARIABLE_NAMES key) as Hn.
  fold NWP_MEANS in Hm. fold NWP_STDS in Hs. fold NWP_VARIABLE_NAMES in Hn.
  destruct (String.eqb key "ukv"); [| destruct (String.eqb key "gfs")].
  - left. exists UKV_MEAN, UKV_STD, UKV_VARIABLE_NAMES.
    rewrite (getitem_present _ _ _ Hm), (getitem_present _ _ _ Hs),
      (getitem_present _ _ _ Hn).
    repeat split; reflexivity.
  - left. exists GFS_MEAN, GFS_STD, GFS_VARIABLE_NAMES.
    rewrite (getitem_present _ _ _ Hm), (getitem_present _ _ _ Hs),
      (getitem_present _ _ _ Hn).
    repeat split; reflexivity.
  - right. rewrite (getitem_absent _ _ Hm), (getitem_absent _ _ Hs),
      (getitem_absent _ _ Hn).
    destruct (bool_decide (key ∈ NWP_PROVIDERS)); eauto.
Qed.

(** X3: the tables of one provider list the same variables in the same
    order, without repetition, and every UKV mean lies between the UKV
    minimum and maximum with a positive standard deviation. *)
Theorem tables_are_consistent :
  keys UKV_MIN = UKV_VARIABLE_NAMES
  ∧ keys UKV_MAX = UKV_VARIABLE_NAMES
  ∧ keys UKV_STD_dict = UKV_VARIABLE_NAMES
  ∧ keys GFS_STD_dict = GFS_VARIABLE_NAMES
  ∧ keys RSS_STD_dict = RSS_VARIABLE_NAMES
  ∧ NoDup UKV_VARIABLE_NAMES ∧ NoDup GFS_VARIABLE_NAMES
  ∧ NoDup RSS_VARIABLE_NAMES
  ∧ within_bounds UKV_MIN UKV_MEAN_dict UKV_MAX UKV_STD_dict = true.
Proof.
  repeat split; try (vm_compute; reflexivity);
    apply (bool_decide_unpack _); vm_compute; exact I.
Qed.
End tables_facts.

(** ** More on the GFS loader *)

Section gfs_more.
Import gfs gfs_fill gfs_grid.

Lemma getitem_has_variable ds name :
  if has_variable ds name
  then ∃ g, getitem ds name = Ok g
  else getitem ds name = Raise (KeyError name).
Proof.
  unfold has_variable, getitem. destruct ds as [ds_dims ds_coords vars].
  simpl. induction vars as [|[k g] vars IH]; simpl; [reflexivity |].
  destruct (String.eqb k name); simpl; [eauto | exact IH].
Qed.

Lemma contains_star_spec path :
  contains_star path = true ↔ ∃ pre post, path = pre +:+ String "*" post.
Proof.
  induction path as [|c path IH]; simpl.
  - split; [discriminate |]. intros (pre & post & H).
    destruct pre; discriminate H.
  - destruct (Ascii.eqb_spec c "*"%char) as [-> | Hne].
    + split; [| reflexivity]. intros _. now exists EmptyString, path.
    + rewrite IH. split.
      * intros (pre & post & ->). now exists (String c pre), post.
      * intros (pre & post & H). destruct pre as [|c' pre]; simpl in H.
        -- inversion H. congruence.
        -- inversion H. eauto.
Qed.

Section backends.

Variable open_mfdataset load_dataset : string → result Dataset.
Variable duplicate_labels : exn.

(** X4: once the store is open, [open_gfs] raises [KeyError] exactly when
    the dataset lacks one of its five variables, and then for the first one
    missing in the order dlwrf, t, u, v, prate.  With all five there, it
    raises [ValueError] or returns an array of exactly the five channels:
    further variables of the dataset are left out. *)
Theorem open_gfs_needs_its_five_variables path ds :
  (if contains_star path then open_mfdataset path else load_dataset path)
    = Ok ds →
  match List.find (fun n => negb (has_variable ds n)) gfs_channels with
  | Some n =>
      open_gfs open_mfdataset load_dataset duplicate_labels (Str path) = Raise (KeyError n)
  | None =>
      open_gfs open_mfdataset load_dataset duplicate_labels (Str path)
      = Raise ValueError
      ∨ open_gfs open_mfdataset load_dataset duplicate_labels (Str path)
        = Raise duplicate_labels
      ∨ ∃ out,
          open_gfs open_mfdataset load_dataset duplicate_labels (Str path)
          = Ok out
          ∧ map fst out = gfs_channels
  end.
Proof.
  intros Hds.
  destruct (open_gfs open_mfdataset load_dataset duplicate_labels (Str path))
    as [e | out] eqn:Hout.
  2:{ pose proof Hout as Hinv.
      apply open_gfs_inv in Hinv as (native & Hnative & -> & _).
      pose proof (open_native_channels _ _ _ _ Hnative) as Hch.
      revert Hnative. unfold open_native. rewrite Hds.
      cbv [mbind result_bind mret result_ret Ok]. simpl.
      pose proof (getitem_has_variable ds "dlwrf") as H1.
      pose proof (getitem_has_variable ds "t") as H2.
      pose proof (getitem_has_variable ds "u") as H3.
      pose proof (getitem_has_variable ds "v") as H4.
      pose proof (getitem_has_variable ds "prate") as H5.
      destruct (has_variable ds "dlwrf"); simpl;
        [| rewrite H1; discriminate].
      destruct (has_variable ds "t"); simpl;
        [| destruct H1 as [? ->]; rewrite H2; discriminate].
      destruct (has_variable ds "u"); simpl;
        [| destruct H1 as [? ->], H2 as [? ->]; rewrite H3; discriminate].
      destruct (has_variable ds "v"); simpl;
        [| destruct H1 as [? ->], H2 as [? ->], H3 as [? ->]; rewrite H4;
           discriminate].
      destruct (has_variable ds "prate"); simpl;
        [| destruct H1 as [? ->], H2 as [? ->], H3 as [? ->], H4 as [? ->];
           rewrite H5; discriminate].
      intros _. right. right. eexists. split; [reflexivity |].
      rewrite <- Hch. unfold on_channels. rewrite map_map.
      apply map_ext. now intros [c g]. }
  revert Hout. unfold open_gfs, open_native. rewrite Hds.
  cbv [mbind result_bind mret result_ret Ok]. simpl.
  pose proof (getitem_has_variable ds "dlwrf") as H1.
  pose proof (getitem_has_variable ds "t") as H2.
  pose proof (getitem_has_variable ds "u") as H3.
  pose proof (getitem_has_variable ds "v") as H4.
  pose proof (getitem_has_variable ds "prate") as H5.
  destruct (has_variable ds "dlwrf"); simpl;
    [destruct H1 as [g1 ->] | rewrite H1; intros H; now injection H as <-].
  destruct (has_variable ds "t"); simpl;
    [destruct H2 as [g2 ->] | rewrite H2; intros H; now injection H as <-].
  destruct (has_variable ds "u"); simpl;
    [destruct H3 as [g3 ->] | rewrite H3; intros H; now injection H as <-].
  destruct (has_variable ds "v"); simpl;
    [destruct H4 as [g4 ->] | rewrite H4; intros H; now injection H as <-].
  destruct (has_variable ds "prate"); simpl;
    [destruct H5 as [g5 ->] | rewrite H5; intros H; now injection H as <-].
  unfold transpose, rename, drop.
  repeat match goal with
         | |- context [if ?b then _ else _] =>
             destruct b; cbv [Raise]; simpl;
             try (intros H; injection H as <-; left; reflexivity)
         end.
  intros H.
  destruct (for_channels_hourly_raises duplicate_labels
              [("dlwrf", g1); ("t", g2); ("u", g3); ("v", g4); ("prate", g5)]
              e H) as [-> | ->]; [now left | right; now left].
Qed.

(** X5: how [open_gfs] gets at the store.  A [pathlib.Path], which the
    annotation allows, makes the wildcard test raise [TypeError], and no
    store is opened.  A string with a star anywhere in it is opened with
    [open_mfdataset], any other string with [load_dataset]: the failure of
    that call is the failure of [open_gfs], and when [open_gfs] returns,
    each channel of its result is made of the variable of that name in the
    dataset the call returned. *)
Theorem open_gfs_wildcard_routing path :
  (∀ p, open_gfs open_mfdataset load_dataset duplicate_labels (Path p) = Raise TypeError)
  ∧ ∃ chosen,
      ((∃ pre post, path = pre +:+ String "*" post)
       ∧ chosen = open_mfdataset path
       ∨ (¬ ∃ pre post, path = pre +:+ String "*" post)
         ∧ chosen = load_dataset path)
      ∧ match chosen with
        | inl e =>
            open_gfs open_mfdataset load_dataset duplicate_labels (Str path) = Raise e
        | inr ds =>
            ∀ out,
              open_gfs open_mfdataset load_dataset duplicate_labels (Str path) = Ok out →
              ∀ c, In c gfs_channels →
                   ∃ g, getitem ds c = Ok g
                        ∧ assoc String.eqb out c = Some (hourly_values g)
        end.
Proof.
  split; [reflexivity |].
  exists (if contains_star path
          then open_mfdataset path else load_dataset path).
  split.
  { destruct (contains_star path) eqn:Hstar.
    - left. split; [now apply contains_star_spec | reflexivity].
    - right. split; [| reflexivity]. rewrite <- contains_star_spec.
      now rewrite Hstar. }
  destruct (if contains_star path then _ else _) as [e | ds] eqn:Hds.
  { unfold open_gfs, open_native. now rewrite Hds. }
  intros out Hout.
  apply open_gfs_inv in Hout as (native & Hnative & -> & _).
  revert Hnative. unfold open_native. rewrite Hds.
  cbv [mbind result_bind mret result_ret].
  destruct (getitem ds "dlwrf") as [? | g1] eqn:E1; [discriminate |].
  destruct (getitem ds "t") as [? | g2] eqn:E2; [discriminate |].
  destruct (getitem ds "u") as [? | g3] eqn:E3; [discriminate |].
  destruct (getitem ds "v") as [? | g4] eqn:E4; [discriminate |].
  destruct (getitem ds "prate") as [? | g5] eqn:E5; [discriminate |].
  repeat (match goal with
          | |- context [match ?x with inl _ => _ | inr _ => _ end] =>
              destruct x
          end; [discriminate |]).
  intros H. injection H as <-.
  intros c Hc. simpl in Hc.
  destruct Hc as [<- | [<- | [<- | [<- | [<- | []]]]]];
    eexists; (split; [eassumption |]); reflexivity.
Qed.

End backends.

Section backends.

Variable open_mfdataset load_dataset : string → result Dataset.
Variable duplicate_labels : exn.

(** X6: a native sample whose issuance time and lead time are whole hours
    is found unchanged, at its own place, in the array [open_gfs]
    returns. *)
Theorem open_gfs_keeps_whole_hour_samples
    path native out c g t row s v :
  open_native open_mfdataset load_dataset path = Ok native →
  open_gfs open_mfdataset load_dataset duplicate_labels path = Ok out →
  planes_well_formed native = true →
  planes_rectangular native = true →
  assoc String.eqb native c = Some g →
  In (t, row) g → In (s, v) row →
  whole_hour t = true → whole_hour s = true →
  value_at out c t s = Some v.
Proof.
  intros Hnative Hout Hwf Hrect Hc Hrow Hv Ht Hs.
  apply open_gfs_inv in Hout as (native' & Hnative' & -> & _).
  rewrite Hnative in Hnative'. inversion Hnative'; subst native'.
  pose proof (assoc_string_In _ _ _ Hc) as Hin.
  unfold planes_well_formed in Hwf. rewrite forallb_forall in Hwf.
  unfold planes_rectangular in Hrect. rewrite forallb_forall in Hrect.
  specialize (Hwf _ Hin). specialize (Hrect _ Hin). simpl in Hwf, Hrect.
  destruct (hourly_keeps g t row s v Hwf Hrect Hrow Hv Ht Hs)
    as (row' & Hr & Hs').
  unfold value_at. rewrite (assoc_on_channels_fwd hourly_values native c g Hc).
  cbv [mbind option_bind]. fold (series fval) in *.
  unfold Grid, series in *. rewrite Hr. exact Hs'.
Qed.

(** X7: on a store whose lead times are all positive, the lead time 0
    that [open_gfs] adds holds NaN at every issuance and channel. *)
Theorem open_gfs_hour0_is_nan path native out c t s v :
  open_native open_mfdataset load_dataset path = Ok native →
  open_gfs open_mfdataset load_dataset duplicate_labels path = Ok out →
  planes_well_formed native = true →
  value_at out c t s = Some v →
  (s <= 0)%Z →
  v = NaN.
Proof.
  intros Hnative Hout Hwf Hv Hs.
  apply open_gfs_inv in Hout as (native' & Hnative' & -> & _).
  rewrite Hnative in Hnative'. inversion Hnative'; subst native'.
  unfold value_at in Hv. cbv [mbind option_bind] in Hv.
  destruct (assoc String.eqb (on_channels hourly_values native) c) as [g' |] eqn:Hc;
    [| discriminate].
  match type of Hv with
  | match ?x with _ => _ end = _ => destruct x as [row' |] eqn:Ht
  end; [| discriminate].
  apply assoc_on_channels in Hc as [g [Hg ->]].
  apply assoc_string_In in Hg.
  unfold planes_well_formed in Hwf. rewrite forallb_forall in Hwf.
  specialize (Hwf _ Hg). simpl in Hwf.
  apply assoc_Z_In in Ht. apply assoc_Z_In in Hv.
  destruct (hourly_entry g t row' s v Hwf Ht Hv)
    as [(t0 & row & s0 & [Hrow _] & [Hin [Hle _]])
       | [(_ & _ & _ & _ & _ & ->) | [_ ->]]]; try reflexivity.
  destruct (well_formed_row g t0 row Hwf Hrow) as [_ Hpos].
  specialize (Hpos _ _ Hin). lia.
Qed.

(** X8: the array [open_gfs] returns is on an hourly_values grid: its issuance
    times are whole hours in increasing order, and every row has lead times
    in increasing order, all whole hours, starting at hour 0. *)
Theorem open_gfs_result_is_on_the_hourly_grid path native out c g' :
  open_native open_mfdataset load_dataset path = Ok native →
  open_gfs open_mfdataset load_dataset duplicate_labels path = Ok out →
  planes_well_formed native = true →
  planes_rectangular native = true →
  In (c, g') out →
  increasing (labels g') = true
  ∧ (∀ t, In t (labels g') → whole_hour t = true)
  ∧ ∀ t row', In (t, row') g' →
      increasing (labels row') = true
      ∧ In 0%Z (labels row')
      ∧ ∀ s, In s (labels row') → whole_hour s = true ∧ (0 <= s)%Z.
Proof.
  intros Hnative Hout Hwf Hrect Hin.
  apply open_gfs_inv in Hout as (native' & Hnative' & -> & _).
  rewrite Hnative in Hnative'. inversion Hnative'; subst native'.
  unfold on_channels in Hin. apply in_map_iff in Hin as [[c0 g] [Heq Hin]].
  inversion Heq; subst c0 g'; clear Heq.
  unfold planes_well_formed in Hwf. rewrite forallb_forall in Hwf.
  unfold planes_rectangular in Hrect. rewrite forallb_forall in Hrect.
  specialize (Hwf _ Hin). specialize (Hrect _ Hin). simpl in Hwf, Hrect.
  destruct g as [|[t0 row0] g0] eqn:Hg.
  { split; [reflexivity |]. split; [intros ? [] | intros ? ? []]. }
  rewrite <- Hg in *.
  assert (In (t0, row0) g) as Hin0 by (rewrite Hg; now left).
  destruct (hourly_grid g t0 row0 Hwf Hrect Hin0) as [Hlab Hrows].
  rewrite Hlab. split; [| split].
  - unfold hourly_datetime_index.
    destruct (minimum (labels g)); [| reflexivity].
    destruct (maximum (labels g)); [| reflexivity].
    apply increasing_range_by. lia.
  - apply hourly_datetime_index_whole.
  - intros t row' Hrow'. rewrite (Hrows t row' Hrow').
    assert (∀ y, In y (step_coord g) → (0 < y)%Z) as Hpos
      by (intros y Hy; now apply (step_coord_positive g)).
    split; [| split].
    + unfold hourly_timedelta_index.
      destruct (minimum (0%Z :: step_coord g)); [| reflexivity].
      destruct (maximum (0%Z :: step_coord g)); [| reflexivity].
      apply increasing_range_by. lia.
    + unfold hourly_timedelta_index.
      destruct (minimum (0%Z :: step_coord g)) as [lo |] eqn:Hlo;
        [| discriminate].
      destruct (maximum (0%Z :: step_coord g)) as [hi |] eqn:Hhi;
        [| discriminate].
      apply minimum_spec in Hlo as [Hlo0 Hlo].
      pose proof (maximum_spec _ _ Hhi 0%Z (or_introl eq_refl)).
      assert (lo = 0%Z) as ->.
      { specialize (Hlo 0%Z (or_introl eq_refl)).
        destruct Hlo0 as [<- | Hlo0]; [reflexivity |].
        specialize (Hpos _ Hlo0). lia. }
      apply in_range_by; [lia |]. exists 0%Z. lia.
    + intros s Hs. now apply (hourly_timedelta_index_from_0 (step_coord g)).
Qed.

End backends.

(** X9: iterating [OpenGFSForecastIterDataPipe] calls [open_gfs] once, at
    the first element.  Whatever the call does to the world, any number of
    elements leaves the world as that one call left it: if the call
    returns, every element is the array it returned; if it raises, the
    first request raises the same and the iterator is exhausted. *)
Theorem OpenGFSForecastIterDataPipe_opens_once {W : Type}
    (open_gfs_call : PathOrStr → W → result DataArray * W) path n w :
  nexts W open_gfs_call path (S n) Created w
  = match open_gfs_call path w with
    | (inr gfs, w') => (repeat (Some (Ok gfs)) (S n), Suspended gfs, w')
    | (inl e, w') => (Some (Raise e) :: repeat None n, Closed, w')
    end.
Proof.
  simpl. destruct (open_gfs_call path w) as [[e | gfs] w'].
  - assert (∀ k, nexts W open_gfs_call path k Closed w'
                 = (repeat None k, Closed, w')) as H.
    { induction k as [|k IH]; simpl; [reflexivity | now rewrite IH]. }
    now rewrite H.
  - assert (∀ k, nexts W open_gfs_call path k (Suspended gfs) w'
                 = (repeat (Some (Ok gfs)) k, Suspended gfs, w')) as H.
    { induction k as [|k IH]; simpl; [reflexivity | now rewrite IH]. }
    now rewrite H.
Qed.

(** On a store without the wind components. *)
Lemma open_gfs_needs_its_five_variables_witness :
  open_gfs samples_more.store_without_wind samples_more.store_without_wind
    samples.duplicate_labels
    (Str "gfs.zarr") = Raise (KeyError "u").
Proof.
  exact (open_gfs_needs_its_five_variables
           samples_more.store_without_wind samples_more.store_without_wind
           samples.duplicate_labels
           "gfs.zarr" samples_more.dataset_without_wind eq_refl).
Defined.

(** On the sample store: the three-hour sample of the 06:00 issuance. *)
Lemma open_gfs_keeps_whole_hour_samples_witness :
  value_at samples.opened "t" 360 180 = Some (Num 283).
Proof.
  apply (open_gfs_keeps_whole_hour_samples samples.store samples.store
           samples.duplicate_labels
           (Str "gfs.zarr") samples.native samples.opened "t"
           (samples.plane 281 282 283 284) 360
           [(180%Z, Num 283); (360%Z, Num 284)] 180 (Num 283));
    try reflexivity.
  - right. left. reflexivity.
  - left. reflexivity.
Defined.

(** On the sample store, at the 00:00 issuance. *)
Lemma open_gfs_hour0_is_nan_witness :
  value_at samples.opened "t" 0 0 = Some NaN ∧ NaN = NaN.
Proof.
  split; [reflexivity |].
  apply (open_gfs_hour0_is_nan samples.store samples.store
           samples.duplicate_labels (Str "gfs.zarr")
           samples.native samples.opened "t" 0 0 NaN);
    try reflexivity; lia.
Defined.

(** On the sample store, for the temperature plane. *)
Lemma open_gfs_result_is_on_the_hourly_grid_witness :
  increasing (labels (hourly_values (samples.plane 281 282 283 284))) = true
  ∧ (∀ t, In t (labels (hourly_values (samples.plane 281 282 283 284))) →
          whole_hour t = true)
  ∧ ∀ t row', In (t, row') (hourly_values (samples.plane 281 282 283 284)) →
      increasing (labels row') = true
      ∧ In 0%Z (labels row')
      ∧ ∀ s, In s (labels row') → whole_hour s = true ∧ (0 <= s)%Z.
Proof.
  apply (open_gfs_result_is_on_the_hourly_grid samples.store samples.store
           samples.duplicate_labels
           (Str "gfs.zarr") samples.native samples.opened "t");
    try reflexivity.
  right. left. reflexivity.
Defined.

End gfs_more.

(** ** More on the national pipeline *)

Section national_more_facts.
Import config graph metnet_national national national_more.

Variable load_configuration : string → result Configuration.

(** Case analysis on the configuration, its four switches and the mode,
    for a statement about the run itself. *)
Ltac run_cases :=
  rewrite !metnet_national_datapipe_unfold;
  let c := fresh "c" in
  destruct (load_configuration _) as [? | c] eqn:Hload;
  [try (simpl; reflexivity) |
   destruct c as [[[gsp_path gsp_h gsp_f gsp_i gsp_x] [nwp_path nwp_h nwp_f]
                    [sat_path sat_h] [hrv_path hrv_h] [groups pv_h]]
                   [n_train n_val]];
   destruct groups as [| [pv_name pv_meta] groups];
   [try (simpl; reflexivity) |
    unfold expected_error, non_empty; simpl;
    unfold build;
    destruct (String.eqb nwp_path EmptyString) eqn:Hnwp,
      (String.eqb pv_name EmptyString) eqn:Hpv,
      (String.eqb sat_path EmptyString) eqn:Hsat,
      (String.eqb hrv_path EmptyString) eqn:Hhrv;
    destruct (String.eqb _ "train") eqn:Htrain;
    try destruct (String.eqb _ "val") eqn:Hval]].

(** For a statement about a successful run. *)
Ltac built H :=
  rewrite metnet_national_datapipe_unfold in H;
  let c := fresh "c" in
  destruct (load_configuration _) as [? | c] eqn:Hload; [discriminate H |];
  destruct c as [[[gsp_path gsp_h gsp_f gsp_i gsp_x] [nwp_path nwp_h nwp_f]
                   [sat_path sat_h] [hrv_path hrv_h] [groups pv_h]]
                  [n_train n_val]];
  destruct groups as [| [pv_name pv_meta] groups]; [discriminate H |];
  unfold non_empty in *; simpl in H |- *;
  unfold build in H;
  destruct (String.eqb nwp_path EmptyString) eqn:Hnwp,
    (String.eqb pv_name EmptyString) eqn:Hpv,
    (String.eqb sat_path EmptyString) eqn:Hsat,
    (String.eqb hrv_path EmptyString) eqn:Hhrv;
  destruct (String.eqb _ "train") eqn:Htrain;
  try destruct (String.eqb _ "val") eqn:Hval;
  vm_compute in H; try discriminate H;
  inversion H; subst; clear H.

(** X10: what building the national pipeline comes to.  It fails as the
    configuration loader fails; with an empty list of PV file groups it
    raises [IndexError]; with PV switched on and satellite, HRV and NWP all
    off it raises [UnboundLocalError] for [image_datapipe]; in every other
    case it returns the datapipe it made last. *)
Theorem national_construction_outcome filename mode :
  match expected_error (load_configuration filename) with
  | Some e =>
      fst (metnet_national_datapipe load_configuration filename mode empty)
      = Raise e
  | None =>
      ∃ out,
        fst (metnet_national_datapipe load_configuration filename mode empty)
        = Ok out
        ∧ S out = length (nodes (snd (metnet_national_datapipe
                                        load_configuration filename mode
                                        empty)))
  end.
Proof.
  run_cases.
  all: vm_compute; try reflexivity; eexists; split; reflexivity.
Qed.

(** X11: building the national pipeline reads no data: whether it
    succeeds or fails, the only datapipe an element is pulled from is the
    configuration's. *)
Theorem national_construction_pulls_no_data filename mode :
  pulled (snd (metnet_national_datapipe load_configuration filename mode
                 empty)) = [0]
  ∧ stage_at (nodes (snd (metnet_national_datapipe load_configuration
                            filename mode empty))) 0
    = Some (OpenConfiguration filename).
Proof.
  run_cases.
  all: vm_compute; split; reflexivity.
Qed.


(** X12: the datapipe returned zips the model inputs with the GSP slice,
    which is cut with no history, the configured forecast and a
    thirty-minute period.  The inputs are limited to [n_train_batches] in
    mode "train", to [n_validation_batches] in mode "val", and are not
    limited in any other mode. *)
Theorem national_result_is_inputs_zipped_with_gsp_label
    filename mode out w :
  metnet_national_datapipe load_configuration filename mode empty
    = (Ok out, w) →
  ∃ c combined label pre src t0,
    load_configuration filename = Ok c
    ∧ stage_at (nodes w) out = Some (Zip combined label)
    ∧ stage_at (nodes w) label
      = Some (SelectTimeSlice src t0 0
                (gsp_forecast_minutes (gsp (input_data c))) 30)
    ∧ origin_of (nodes w) label
      = Some (OpenGSP (gsp_zarr_path (gsp (input_data c))))
    ∧ positions is_preprocess (nodes w) = [pre]
    ∧ (if String.eqb mode "train"
       then stage_at (nodes w) combined
            = Some (Header pre (n_train_batches (process c)))
       else if String.eqb mode "val"
       then stage_at (nodes w) combined
            = Some (Header pre (n_validation_batches (process c)))
       else combined = pre).
Proof.
  intros H. built H.
  all: match goal with
       | |- context [stage_at ?g ?out = Some (Zip _ _)] =>
           let z := eval vm_compute in (stage_at g out) in
           let p := eval vm_compute in (positions is_preprocess g) in
           match z with
           | Some (Zip ?a ?b) =>
               let l := eval vm_compute in (stage_at g b) in
               match l with
               | Some (SelectTimeSlice ?src ?t0 _ _ _) =>
                   match p with
                   | [?pre] => eexists; exists a, b, pre, src, t0
                   end
               end
           end
       end.
  all: split; [reflexivity |].
  all: rewrite ?Htrain, ?Hval.
  all: repeat split; vm_compute; reflexivity.
Qed.

(** X13: the model input stage is given the active modalities in the
    order NWP, HRV, satellite, PV, whatever the order they were opened in,
    and its locations are picked from the GSP source. *)
Theorem national_modalities_in_model_order filename mode out w :
  metnet_national_datapipe load_configuration filename mode empty
    = (Ok out, w) →
  ∃ c pre modalities location,
    load_configuration filename = Ok c
    ∧ stage_at (nodes w) pre
      = Some (PreProcessMetNet modalities location 500000 1000000
                10000000 10000000 256 256 true)
    ∧ map (origin_of (nodes w)) modalities = map Some (modality_sources c)
    ∧ origin_of (nodes w) location
      = Some (OpenGSP (gsp_zarr_path (gsp (input_data c))))
    ∧ ∃ picker, stage_at (nodes w) location = Some (LocationPicker picker).
Proof.
  intros H. built H.
  all: match goal with
       | |- context [stage_at ?g _ = Some (PreProcessMetNet _ _ _ _ _ _ _ _ _)] =>
           let p := eval vm_compute in (positions is_preprocess g) in
           match p with
           | [?pre] =>
               let z := eval vm_compute in (stage_at g pre) in
               match z with
               | Some (PreProcessMetNet ?m ?l _ _ _ _ _ _ _) =>
                   eexists; exists pre, m, l
               end
           end
       end.
  all: split; [reflexivity |].
  all: unfold modality_sources, non_empty; simpl.
  all: rewrite Hnwp, Hpv, Hsat, Hhrv.
  all: repeat split; try (vm_compute; reflexivity).
  all: eexists; vm_compute; reflexivity.
Qed.

(** X14: when PV is switched on, its image is drawn on the satellite
    source if that is on, else on HRV, else on NWP; when PV is off no PV
    image stage is made. *)
Theorem national_pv_image_source filename mode out w :
  metnet_national_datapipe load_configuration filename mode empty
    = (Ok out, w) →
  ∃ c, load_configuration filename = Ok c
       ∧ map (fun i => match stage_at (nodes w) i with
                       | Some (CreatePVImage _ image _ _) =>
                           origin_of (nodes w) image
                       | _ => None
                       end)
             (positions is_pv_image (nodes w))
         = match pv_files_groups (pv (input_data c)) with
           | group :: _ =>
               if non_empty (pv_filename group) then [image_source c] else []
           | [] => []
           end.
Proof.
  intros H. built H.
  all: eexists; split; [reflexivity |].
  all: unfold image_source, non_empty; simpl.
  all: rewrite Hnwp, Hpv, Hsat, Hhrv.
  all: vm_compute; reflexivity.
Qed.

(** X15: of the five children of the fork over the joint time periods
    only the first is read, by the selection of the GSP time periods; the
    other four are read by nothing.  Every datapipe that nothing reads is a
    fork child, the configuration datapipe or the datapipe returned. *)
Theorem national_unread_datapipes filename mode out w :
  metnet_national_datapipe load_configuration filename mode empty
    = (Ok out, w) →
  List.filter (fun i => match stage_at (nodes w) i with
                        | Some s => negb (is_fork_child s)
                        | None => false
                        end)
              (unread (nodes w)) = [0; out]
  ∧ ∃ i f reader src,
      positions (fun s => match s with
                          | SelectOverlappingTimeSlice _ _ => true
                          | _ => false
                          end) (nodes w) = [i]
      ∧ fork_of (nodes w) i = [f]
      ∧ children (nodes w) f
        = [(0, [reader]); (1, []); (2, []); (3, []); (4, [])]
      ∧ stage_at (nodes w) reader = Some (SelectTimePeriods src (S f)).
Proof.
  intros H. built H.
  all: split; [vm_compute; reflexivity |].
  all: match goal with
       | |- context [fork_of ?g _] =>
           let p := eval vm_compute in
             (positions (fun s => match s with
                                  | SelectOverlappingTimeSlice _ _ => true
                                  | _ => false
                                  end) g) in
           match p with
           | [?i] => exists i, (S i), (i + 7), 12
           end
       end.
  all: repeat split; vm_compute; reflexivity.
Qed.

(** X16: the sample period is not read from the configuration.  Each
    source gets it three times (for its t0 index, its contiguous periods and
    its slice) and always the same: thirty minutes for GSP, sixty for NWP,
    five for satellite, HRV and PV. *)
Theorem national_sample_periods_are_fixed filename mode out w :
  metnet_national_datapipe load_configuration filename mode empty
    = (Ok out, w) →
  map (sample_periods_of (nodes w)) (positions is_data_source (nodes w))
  = map (fun o => match stage_at (nodes w) o with
                  | Some s => match cadence_of s with
                              | Some p => [p; p; p]
                              | None => []
                              end
                  | None => []
                  end)
        (positions is_data_source (nodes w))
  ∧ ∃ c, load_configuration filename = Ok c
         ∧ map (stage_at (nodes w)) (positions is_data_source (nodes w))
           = map Some (OpenGSP (gsp_zarr_path (gsp (input_data c)))
                       :: optional_sources c).
Proof.
  intros H. built H.
  all: split; [vm_compute; reflexivity |].
  all: eexists; split; [reflexivity |].
  all: unfold optional_sources, non_empty; simpl.
  all: rewrite Hnwp, Hpv, Hsat, Hhrv.
  all: vm_compute; reflexivity.
Qed.

End national_more_facts.

(** On the sample configuration. *)
Lemma national_result_is_inputs_zipped_with_gsp_label_witness :
  ∃ c combined label pre src t0,
    samples.always samples.full_configuration "config.yaml" = Ok c
    ∧ national.stage_at (graph.nodes (snd samples.national_run)) 70
      = Some (graph.Zip combined label)
    ∧ national.stage_at (graph.nodes (snd samples.national_run)) label
      = Some (graph.SelectTimeSlice src t0 0
                (config.gsp_forecast_minutes
                   (config.gsp (config.input_data c))) 30)
    ∧ graph.origin_of (graph.nodes (snd samples.national_run)) label
      = Some (graph.OpenGSP
                (config.gsp_zarr_path (config.gsp (config.input_data c))))
    ∧ national.positions national_more.is_preprocess
        (graph.nodes (snd samples.national_run)) = [pre]
    ∧ (if String.eqb "train" "train"
       then national.stage_at (graph.nodes (snd samples.national_run))
              combined
            = Some (graph.Header pre
                      (config.n_train_batches (config.process c)))
       else if String.eqb "train" "val"
       then national.stage_at (graph.nodes (snd samples.national_run))
              combined
            = Some (graph.Header pre
                      (config.n_validation_batches (config.process c)))
       else combined = pre).
Proof.
  apply (national_result_is_inputs_zipped_with_gsp_label
           (samples.always samples.full_configuration)
           "config.yaml" "train" 70 (snd samples.national_run)).
  vm_compute. reflexivity.
Defined.

(** On the sample configuration. *)
Lemma national_modalities_in_model_order_witness :
  ∃ c pre modalities location,
    samples.always samples.full_configuration "config.yaml" = Ok c
    ∧ national.stage_at (graph.nodes (snd samples.national_run)) pre
      = Some (graph.PreProcessMetNet modalities location 500000 1000000
                10000000 10000000 256 256 true)
    ∧ map (graph.origin_of (graph.nodes (snd samples.national_run)))
        modalities
      = map Some (national_more.modality_sources c)
    ∧ graph.origin_of (graph.nodes (snd samples.national_run)) location
      = Some (graph.OpenGSP
                (config.gsp_zarr_path (config.gsp (config.input_data c))))
    ∧ ∃ picker,
        national.stage_at (graph.nodes (snd samples.national_run)) location
        = Some (graph.LocationPicker picker).
Proof.
  apply (national_modalities_in_model_order
           (samples.always samples.full_configuration)
           "config.yaml" "train" 70 (snd samples.national_run)).
  vm_compute. reflexivity.
Defined.

(** On the sample configuration: the image is drawn on the satellite. *)
Lemma national_pv_image_source_witness :
  ∃ c, samples.always samples.full_configuration "config.yaml" = Ok c
       ∧ map (fun i =>
                match national.stage_at
                        (graph.nodes (snd samples.national_run)) i with
                | Some (graph.CreatePVImage _ image _ _) =>
                    graph.origin_of (graph.nodes (snd samples.national_run))
                      image
                | _ => None
                end)
             (national.positions national_more.is_pv_image
                (graph.nodes (snd samples.national_run)))
         = match config.pv_files_groups (config.pv (config.input_data c)) with
           | group :: _ =>
               if metnet_national.non_empty (config.pv_filename group)
               then [national_more.image_source c] else []
           | [] => []
           end.
Proof.
  apply (national_pv_image_source
           (samples.always samples.full_configuration)
           "config.yaml" "train" 70 (snd samples.national_run)).
  vm_compute. reflexivity.
Defined.

(** On the sample configuration. *)
Lemma national_unread_datapipes_witness :
  List.filter
    (fun i => match national.stage_at
                      (graph.nodes (snd samples.national_run)) i with
              | Some s => negb (national_more.is_fork_child s)
              | None => false
              end)
    (national_more.unread (graph.nodes (snd samples.national_run)))
  = [0; 70]
  ∧ ∃ i f reader src,
      national.positions
        (fun s => match s with
                  | graph.SelectOverlappingTimeSlice _ _ => true
                  | _ => false
                  end) (graph.nodes (snd samples.national_run)) = [i]
      ∧ national_more.fork_of (graph.nodes (snd samples.national_run)) i
        = [f]
      ∧ national_more.children (graph.nodes (snd samples.national_run)) f
        = [(0, [reader]); (1, []); (2, []); (3, []); (4, [])]
      ∧ national.stage_at (graph.nodes (snd samples.national_run)) reader
        = Some (graph.SelectTimePeriods src (S f)).
Proof.
  apply (national_unread_datapipes
           (samples.always samples.full_configuration)
           "config.yaml" "train" 70 (snd samples.national_run)).
  vm_compute. reflexivity.
Defined.

(** On the sample configuration. *)
Lemma national_sample_periods_are_fixed_witness :
  map (national_more.sample_periods_of
         (graph.nodes (snd samples.national_run)))
      (national.positions national_more.is_data_source
         (graph.nodes (snd samples.national_run)))
  = map (fun o =>
           match national.stage_at
                   (graph.nodes (snd samples.national_run)) o with
           | Some s => match national_more.cadence_of s with
                       | Some p => [p; p; p]
                       | None => []
                       end
           | None => []
           end)
        (national.positions national_more.is_data_source
           (graph.nodes (snd samples.national_run)))
  ∧ ∃ c, samples.always samples.full_configuration "config.yaml" = Ok c
         ∧ map (national.stage_at (graph.nodes (snd samples.national_run)))
             (national.positions national_more.is_data_source
                (graph.nodes (snd samples.national_run)))
           = map Some
               (graph.OpenGSP
                  (config.gsp_zarr_path (config.gsp (config.input_data c)))
                :: national.optional_sources c).
Proof.
  apply (national_sample_periods_are_fixed
           (samples.always samples.full_configuration)
           "config.yaml" "train" 70 (snd samples.national_run)).
  vm_compute. reflexivity.
Defined.

(** * The site pipeline *)

Section site_facts.
Import metnet_pv_site site.

(** ** Running the builder on a world that is known up to its length *)

Lemma run_ret {A B} (a : A) (k : A → Build B) (w : World) :
  (mret a ≫= k) w = k a w.
Proof. reflexivity. Qed.

Lemma run_raise {A B} (e : exn) (k : A → Build B) (w : World) :
  (raise e ≫= k) w = (Raise e, w).
Proof. reflexivity. Qed.

Lemma run_assoc {A B C} (m : Build A) (f : A → Build B) (g : B → Build C)
    (w : World) :
  ((m ≫= f) ≫= g) w = (m ≫= (λ x, f x ≫= g)) w.
Proof.
  unfold mbind, Build_bind. destruct (m w) as [[e|a] w']; reflexivity.
Qed.

Lemma run_new {B} (s : Stage) (k : ref → Build B) (w l : World) :
  (new s ≫= k) (w ++ l)%list
  = k (length w + length l) (w ++ (l ++ [s]))%list.
Proof.
  unfold mbind, Build_bind, new. rewrite length_app, app_assoc. reflexivity.
Qed.

Lemma run_new_first {B} (s : Stage) (k : ref → Build B) (w : World) :
  (new s ≫= k) w = k (length w + 0) (w ++ [s])%list.
Proof.
  unfold mbind, Build_bind, new. rewrite Nat.add_0_r. reflexivity.
Qed.

Lemma run_new_last (s : Stage) (w l : World) :
  new s (w ++ l)%list = (Ok (length w + length l), (w ++ (l ++ [s]))%list).
Proof. unfold new. rewrite length_app, app_assoc. reflexivity. Qed.

Lemma lookup_made (w l : World) (k : nat) :
  (w ++ l)%list !! (length w + k) = l !! k.
Proof. rewrite lookup_app_r by lia. f_equal. lia. Qed.

Lemma made_app (w l : World) : made w (w ++ l)%list = l.
Proof. unfold made. apply drop_app_length. Qed.

Ltac run :=
  repeat first
    [ rewrite run_assoc
    | rewrite run_ret
    | rewrite run_raise
    | rewrite run_new; cbn [length app]
    | rewrite run_new_first; cbn [length app]
    | rewrite run_new_last; cbn [length app]
    | progress cbv beta iota
    | progress unfold fork2, fork3, local ].

(** The cases of a run of [process]: which entries the dictionary has, and
    whether the PV history goes into the image. *)
Ltac lookups d :=
  destruct (d !! "pv") as [pv|] eqn:Hpv;
  [destruct (d !! "pv_future") as [fut|] eqn:Hfut;
   [destruct (d !! "nwp") as [nwp|] eqn:Hnwp;
    destruct (d !! "sat") as [sat|] eqn:Hsat;
    destruct (d !! "hrv") as [hrv|] eqn:Hhrv;
    destruct (d !! "topo") as [topo|] eqn:Htopo | ] | ].

Ltac site_cases d img H :=
  revert H;
  cbv delta [process getitem contains image_entry entry_stages] beta;
  lookups d; destruct img; cbn [andb negb]; run;
  intros H; try discriminate H; injection H as <- <-;
  rewrite ?made_app.

Ltac lookup_chain :=
  repeat match goal with
         | |- _ ∧ _ => split
         end;
  rewrite ?lookup_made; reflexivity.

Ltac reader_among all L n :=
  lazymatch L with
  | ?s :: ?rest =>
      first
        [ solve [ exists s; split;
                  [ apply (nth_error_In all n); reflexivity
                  | cbn [inputs In app];
                    repeat first [left; reflexivity | right] ] ]
        | reader_among all rest (S n) ]
  end.

Ltac find_reader :=
  lazymatch goal with
  | |- ∃ s, In s ?L ∧ _ => reader_among L L 0
  end.

(** ** Outcome *)

Lemma process_outcome use_sun output_size pv_in_image d w res w' :
  process use_sun output_size pv_in_image d w = (res, w') →
  res = match d !! "pv", d !! "pv_future" with
        | None, _ => Raise (KeyError "pv")
        | Some _, None => Raise (KeyError "pv_future")
        | Some _, Some _ => Ok (length w' - 1)
        end.
Proof.
  intros H. revert H.
  cbv delta [process getitem contains] beta.
  lookups d; destruct pv_in_image; cbn [andb negb]; run;
    intros H; injection H as <- <-; try reflexivity.
  all: rewrite length_app; cbn [length]; f_equal; lia.
Qed.

(** X17: the processing of the time slices fails only for a missing PV
    entry: with KeyError 'pv' when the dictionary has no "pv", with KeyError
    'pv_future' when it has "pv" and no "pv_future".  In every other case,
    whatever other entries there are and whether or not the PV history goes
    into the image, it returns the datapipe it made last. *)
Theorem site_processing_outcome use_sun output_size pv_in_image d w :
  fst (process use_sun output_size pv_in_image d w)
  = match d !! "pv", d !! "pv_future" with
    | None, _ => Raise (KeyError "pv")
    | Some _, None => Raise (KeyError "pv_future")
    | Some _, Some _ =>
        Ok (length (snd (process use_sun output_size pv_in_image d w)) - 1)
    end.
Proof.
  destruct (process use_sun output_size pv_in_image d w) as [res w'] eqn:H.
  exact (process_outcome _ _ _ _ _ _ _ H).
Qed.

Section site_pipeline.

Variable open_and_return_datapipes :
  string → bool → bool → bool → bool → bool → bool → Build (gmap string ref).
Variable get_and_return_overlapping_time_periods_and_t0 :
  gmap string ref → Build (gmap string ref).
Variable add_selected_time_slices_from_datapipes :
  gmap string ref → Build (gmap string ref).

(** X18: the site pipeline needs a "pv" entry from
    open_and_return_datapipes, whatever use_pv says: without it the function
    raises KeyError 'pv' at once, with the datapipes as the opening left
    them: no time selection stage is made. *)
Theorem site_pipeline_needs_a_pv_entry filename use_sun use_nwp use_sat
    use_hrv use_pv use_topo output_size pv_in_image start_time end_time
    w d w1 :
  open_and_return_datapipes filename use_nwp use_topo use_sat use_hrv false
    use_pv w = (Ok d, w1) →
  d !! "pv" = None →
  metnet_site_datapipe open_and_return_datapipes
    get_and_return_overlapping_time_periods_and_t0
    add_selected_time_slices_from_datapipes
    filename use_sun use_nwp use_sat use_hrv use_pv use_topo
    output_size pv_in_image start_time end_time w
  = (Raise (KeyError "pv"), w1).
Proof.
  intros Hopen Hpv.
  unfold metnet_site_datapipe, prepare, getitem.
  cbv [mbind Build_bind]. rewrite Hopen. cbv [Ok]. rewrite Hpv. reflexivity.
Qed.

(** X19: an exception of the site pipeline is one that a function of
    training/common.py raised, or KeyError 'pv', or KeyError 'pv_future';
    it has no unbound local on any path. *)
Theorem site_pipeline_exceptions filename use_sun use_nwp use_sat use_hrv
    use_pv use_topo output_size pv_in_image start_time end_time w e :
  fst (metnet_site_datapipe open_and_return_datapipes
         get_and_return_overlapping_time_periods_and_t0
         add_selected_time_slices_from_datapipes
         filename use_sun use_nwp use_sat use_hrv use_pv use_topo
         output_size pv_in_image start_time end_time w) = Raise e →
  fst (open_and_return_datapipes filename use_nwp use_topo use_sat use_hrv
         false use_pv w) = Raise e
  ∨ (∃ d w0,
       fst (get_and_return_overlapping_time_periods_and_t0 d w0) = Raise e)
  ∨ (∃ d w0, fst (add_selected_time_slices_from_datapipes d w0) = Raise e)
  ∨ e = KeyError "pv" ∨ e = KeyError "pv_future".
Proof.
  unfold metnet_site_datapipe, prepare, getitem.
  cbv [mbind Build_bind].
  destruct (open_and_return_datapipes _ _ _ _ _ _ _ w) as [[e1|d1] w1];
    [cbn [fst]; unfold Raise; intros H; injection H as ->; left; reflexivity |].
  destruct (d1 !! "pv") as [pv|];
    [| cbv [raise]; intros H; injection H as <-; right; right; right; left;
       reflexivity].
  cbv [mret Build_ret new Ok].
  match goal with
  | |- context [get_and_return_overlapping_time_periods_and_t0 ?d ?w0] =>
      destruct (get_and_return_overlapping_time_periods_and_t0 d w0)
        as [[e2|d2] w2] eqn:Hget
  end.
  { cbn [fst]; unfold Raise; intros H; injection H as ->.
    right; left. eexists _, _. rewrite Hget. reflexivity. }
  destruct (add_selected_time_slices_from_datapipes d2 w2)
    as [[e3|d3] w3] eqn:Hadd.
  { cbn [fst]; unfold Raise; intros H; injection H as ->.
    right; right; left. eexists _, _. rewrite Hadd. reflexivity. }
  destruct (process use_sun output_size pv_in_image d3 w3) as [res w4] eqn:Hp.
  apply process_outcome in Hp. cbn [fst]. intros ->.
  destruct (d3 !! "pv"); [destruct (d3 !! "pv_future") |].
  - discriminate Hp.
  - injection Hp as ->. right; right; right; right. reflexivity.
  - injection Hp as ->. right; right; right; left. reflexivity.
Qed.

End site_pipeline.

(** ** Shape of the graph *)

(** X20: the source of the PV history image.  With pv_in_image the image is
    drawn on the HRV entry if there is one, else on the satellite entry,
    else on the NWP entry (and only then with image_dim 'osgb'): the entry
    is normalised, forked in two, and the second child is the image.  With
    none of the three, or without pv_in_image, no image stage and no fork
    but the one of the location picker is made. *)
Theorem site_pv_history_image_source use_sun output_size pv_in_image d w
    out w' :
  process use_sun output_size pv_in_image d w = (Ok out, w') →
  match (if pv_in_image then image_entry d else None) with
  | Some (e, how, dim) =>
      ∃ src image f n,
        pv_history_images (made w w') = [(src, image, dim)]
        ∧ w' !! image = Some (ForkChild f 1)
        ∧ w' !! f = Some (Forker n 2)
        ∧ w' !! n = Some (Normalize e how)
        ∧ length (forks (made w w')) = 2
  | None =>
      pv_history_images (made w w') = []
      ∧ length (forks (made w w')) = 1
  end.
Proof.
  intros H. site_cases d pv_in_image H; cbn.
  all: try (split; reflexivity).
  all: eexists _, _, _, _; lookup_chain.
Qed.

(** X21: the modalities of PreProcessMetNet.  One such stage is made, with
    the fixed geometry, output_size for both output sizes and use_sun; its
    modalities are the entries that are there in the order NWP, HRV,
    satellite, topographic (each as the function processed it, read directly
    or through the first child of the fork made for the image), followed
    with pv_in_image by the PV history, which comes from the "pv" entry. *)
Theorem site_modalities_in_model_order use_sun output_size pv_in_image d w
    out w' :
  process use_sun output_size pv_in_image d w = (Ok out, w') →
  ∃ modalities location,
    preprocessors (made w w')
    = [PreProcessMetNet modalities location 64000 64000 512000 512000
         output_size output_size use_sun]
    ∧ map (modality_stage w') (take (length (entry_stages d)) modalities)
      = map Some (entry_stages d)
    ∧ map (pv_history_entry w') (drop (length (entry_stages d)) modalities)
      = (if pv_in_image then [d !! "pv"] else []).
Proof.
  intros H. site_cases d pv_in_image H; cbn.
  all: eexists _, _; split; [reflexivity |].
  all: cbn [length app take drop map].
  all: unfold modality_stage, behind_fork, pv_history_entry.
  all: repeat (rewrite ?lookup_made; cbn).
  all: try rewrite Hpv.
  all: split; reflexivity.
Qed.

(** X22: target, location and identifier come from one location picker.
    The returned datapipe zips the PreProcessMetNet stage with the target,
    which is ConvertPVToNumpy over the first child of a fork in three of a
    LocationPicker over the "pv_future" entry normalised by capacity; the
    second child is the location of PreProcessMetNet.  Without pv_in_image
    the zip is zip_ocf and has, before the target, the PV history: the "pv"
    entry normalised by capacity, selected by the third child, without NaNs,
    converted with return_id. *)
Theorem site_result_zips_inputs_with_target use_sun output_size pv_in_image
    d w out w' :
  process use_sun output_size pv_in_image d w = (Ok out, w') →
  ∃ pv fut metnet modalities location target first f picker future,
    d !! "pv" = Some pv ∧ d !! "pv_future" = Some fut
    ∧ (if pv_in_image
       then w' !! out = Some (Zip metnet [target])
       else ∃ history cleaned selected normalized identifier,
              w' !! out = Some (ZipOcf metnet [history; target])
              ∧ w' !! history = Some (ConvertPVToNumpy cleaned (Some true))
              ∧ w' !! cleaned = Some (Map selected _remove_nans)
              ∧ w' !! selected = Some (SelectID normalized identifier)
              ∧ w' !! normalized = Some (Normalize pv normalize_pv)
              ∧ w' !! identifier = Some (ForkChild f 2))
    ∧ w' !! metnet
      = Some (PreProcessMetNet modalities location 64000 64000 512000 512000
                output_size output_size use_sun)
    ∧ w' !! target = Some (ConvertPVToNumpy first None)
    ∧ w' !! first = Some (ForkChild f 0)
    ∧ w' !! location = Some (ForkChild f 1)
    ∧ w' !! f = Some (Forker picker 3)
    ∧ w' !! picker = Some (LocationPicker future)
    ∧ w' !! future = Some (Normalize fut normalize_pv).
Proof.
  intros H. site_cases d pv_in_image H.
  all: eexists _, _, _, _, _, _, _, _, _, _.
  all: split; [reflexivity |]; split; [reflexivity |].
  all: split; [try (eexists _, _, _, _, _); lookup_chain |].
  all: lookup_chain.
Qed.

(** X23: nothing the processing makes is left unread.  Every datapipe it
    makes, but the one it returns, is read by another one it makes; so every
    child of its forks has a reader. *)
Theorem site_every_datapipe_is_read use_sun output_size pv_in_image d w
    out w' :
  process use_sun output_size pv_in_image d w = (Ok out, w') →
  ∀ i, length w ≤ i < length w' → i ≠ out →
    ∃ s, In s (made w w') ∧ In i (inputs s).
Proof.
  intros H. site_cases d pv_in_image H.
  all: intros i [Hlo Hhi] Hne; rewrite length_app in Hhi;
    cbn [length] in Hhi.
  all: assert (∃ k, i = length w + k) as [k ->]
    by (exists (i - length w); lia).
  all: do 20 (destruct k as [|k];
              [first [exfalso; lia | find_reader] |]).
  all: exfalso; lia.
Qed.

End site_facts.

Section site_examples.
Import metnet_pv_site site.

(** On the sample helpers with use_pv off. *)
Lemma site_pipeline_needs_a_pv_entry_witness :
  site_samples.site_run = (Raise (KeyError "pv"), snd site_samples.opened).
Proof.
  apply (site_pipeline_needs_a_pv_entry
           site_samples.open_and_return_datapipes
           site_samples.get_and_return_overlapping_time_periods_and_t0
           site_samples.add_selected_time_slices_from_datapipes
           "config.yaml" true true true true false true 256 false 0 1 []
           site_samples.opened_datapipes (snd site_samples.opened)).
  - vm_compute. reflexivity.
  - vm_compute. reflexivity.
Defined.

(** On the sample helpers with use_pv off. *)
Lemma site_pipeline_exceptions_witness :
  fst (site_samples.open_and_return_datapipes "config.yaml" true true true
         true false false []) = Raise (KeyError "pv")
  ∨ (∃ d w0,
       fst (site_samples.get_and_return_overlapping_time_periods_and_t0 d w0)
       = Raise (KeyError "pv"))
  ∨ (∃ d w0,
       fst (site_samples.add_selected_time_slices_from_datapipes d w0)
       = Raise (KeyError "pv"))
  ∨ KeyError "pv" = KeyError "pv" ∨ KeyError "pv" = KeyError "pv_future".
Proof.
  apply (site_pipeline_exceptions
           site_samples.open_and_return_datapipes
           site_samples.get_and_return_overlapping_time_periods_and_t0
           site_samples.add_selected_time_slices_from_datapipes
           "config.yaml" true true true true false true 256 false 0 1 []
           (KeyError "pv")).
  vm_compute. reflexivity.
Defined.

(** On the sample dictionary with NWP alone: the image is drawn on NWP. *)
Lemma site_pv_history_image_source_witness :
  ∃ src image f n,
    pv_history_images
      (made site_samples.world
         (snd (site_samples.run true site_samples.nwp_only)))
    = [(src, image, Some "osgb")]
    ∧ snd (site_samples.run true site_samples.nwp_only) !! image
      = Some (ForkChild f 1)
    ∧ snd (site_samples.run true site_samples.nwp_only) !! f
      = Some (Forker n 2)
    ∧ snd (site_samples.run true site_samples.nwp_only) !! n
      = Some (Normalize 2 (by_mean_std graph.NWP_MEAN graph.NWP_STD))
    ∧ length (forks (made site_samples.world
                       (snd (site_samples.run true site_samples.nwp_only))))
      = 2.
Proof.
  apply (site_pv_history_image_source true 256 true site_samples.nwp_only
           site_samples.world 21
           (snd (site_samples.run true site_samples.nwp_only))).
  vm_compute. reflexivity.
Defined.

(** On the sample dictionary with every entry. *)
Lemma site_modalities_in_model_order_witness :
  ∃ modalities location,
    preprocessors
      (made site_samples.world
         (snd (site_samples.run true site_samples.used_datapipes)))
    = [PreProcessMetNet modalities location 64000 64000 512000 512000
         256 256 true]
    ∧ map (modality_stage
             (snd (site_samples.run true site_samples.used_datapipes)))
        (take (length (entry_stages site_samples.used_datapipes)) modalities)
      = map Some (entry_stages site_samples.used_datapipes)
    ∧ map (pv_history_entry
             (snd (site_samples.run true site_samples.used_datapipes)))
        (drop (length (entry_stages site_samples.used_datapipes)) modalities)
      = [site_samples.used_datapipes !! "pv"].
Proof.
  apply (site_modalities_in_model_order true 256 true
           site_samples.used_datapipes site_samples.world 24
           (snd (site_samples.run true site_samples.used_datapipes))).
  vm_compute. reflexivity.
Defined.

(** On the sample dictionary with every entry, the PV history not in the
    image. *)
Lemma site_result_zips_inputs_with_target_witness :
  ∃ pv fut metnet modalities location target first f picker future,
    site_samples.used_datapipes !! "pv" = Some pv
    ∧ site_samples.used_datapipes !! "pv_future" = Some fut
    ∧ (∃ history cleaned selected normalized identifier,
         snd (site_samples.run false site_samples.used_datapipes) !! 22
         = Some (ZipOcf metnet [history; target])
         ∧ snd (site_samples.run false site_samples.used_datapipes) !! history
           = Some (ConvertPVToNumpy cleaned (Some true))
         ∧ snd (site_samples.run false site_samples.used_datapipes) !! cleaned
           = Some (Map selected _remove_nans)
         ∧ snd (site_samples.run false site_samples.used_datapipes)
             !! selected
           = Some (SelectID normalized identifier)
         ∧ snd (site_samples.run false site_samples.used_datapipes)
             !! normalized
           = Some (Normalize pv normalize_pv)
         ∧ snd (site_samples.run false site_samples.used_datapipes)
             !! identifier
           = Some (ForkChild f 2))
    ∧ snd (site_samples.run false site_samples.used_datapipes) !! metnet
      = Some (PreProcessMetNet modalities location 64000 64000 512000 512000
                256 256 true)
    ∧ snd (site_samples.run false site_samples.used_datapipes) !! target
      = Some (ConvertPVToNumpy first None)
    ∧ snd (site_samples.run false site_samples.used_datapipes) !! first
      = Some (ForkChild f 0)
    ∧ snd (site_samples.run false site_samples.used_datapipes) !! location
      = Some (ForkChild f 1)
    ∧ snd (site_samples.run false site_samples.used_datapipes) !! f
      = Some (Forker picker 3)
    ∧ snd (site_samples.run false site_samples.used_datapipes) !! picker
      = Some (LocationPicker future)
    ∧ snd (site_samples.run false site_samples.used_datapipes) !! future
      = Some (Normalize fut normalize_pv).
Proof.
  apply (site_result_zips_inputs_with_target true 256 false
           site_samples.used_datapipes site_samples.world 22
           (snd (site_samples.run false site_samples.used_datapipes))).
  vm_compute. reflexivity.
Defined.

(** On the sample dictionary with every entry: the second child of the fork
    made for the image is read. *)
Lemma site_every_datapipe_is_read_witness :
  ∃ s,
    In s (made site_samples.world
            (snd (site_samples.run true site_samples.used_datapipes)))
    ∧ In 20 (inputs s).
Proof.
  apply (site_every_datapipe_is_read true 256 true
           site_samples.used_datapipes site_samples.world 24
           (snd (site_samples.run true site_samples.used_datapipes))).
  - vm_compute. reflexivity.
  - vm_compute. split; lia.
  - lia.
Defined.

End site_examples.
